(** * A2A relay backend: task reconciliation, fan-out and host gateway

    A shallow embedding of the Node.js backend of the repository
    (the Express/WebSocket server, the DuckDB schema it runs on and the
    host connector) together with the properties of its task/artifact
    reconciler, its WebSocket broadcaster and its host gateway.

    Conventions of the embedding:
    - a JavaScript value that may be [undefined] is an [option json];
    - [async] functions that may throw run in the monad [Js]: a state
      monad over the process state [World] with abrupt completions;
      the state survives a throw, as it does in JavaScript;
    - request handlers run to completion in the order they are applied;
    - what the process cannot decide on its own (the JSON codec of the
      engine, [Math.random], the system clock, the parameter binding of
      the database driver, the host base URL) is a field of [Runtime]. *)

From Stdlib Require Import List String Ascii ZArith Lia Bool Arith RelationClasses Permutation Sorted.
From Stdlib Require Import DecimalString HexadecimalString.
Import ListNotations.

Local Open Scope string_scope.
Local Open Scope list_scope.

Local Set Warnings "-register-all".

(** ** JSON values and the JavaScript operations used on them *)

Inductive json : Type :=
| JNull
| JBool (b : bool)
| JNum (n : Z)
| JStr (s : string)
| JArr (items : list json)
| JObj (fields : list (string * json)).

(** [!!v] of JavaScript; [None] is [undefined]. *)
Definition truthy (v : option json) : bool :=
  match v with
  | None => false
  | Some JNull => false
  | Some (JBool b) => b
  | Some (JNum n) => negb (n =? 0)%Z
  | Some (JStr s) => negb (String.eqb s "")
  | Some (JArr _) => true
  | Some (JObj _) => true
  end.

(** [a || b] where [b] is not [undefined]. *)
Definition js_or (a : option json) (b : json) : json :=
  match a with
  | Some v => if truthy a then v else b
  | None => b
  end.

Fixpoint assoc (k : string) (fs : list (string * json)) : option json :=
  match fs with
  | [] => None
  | (k', v) :: rest => if String.eqb k k' then Some v else assoc k rest
  end.

(** Reading property [k] of a value known not to be [null]: every named
    property the server reads is [undefined] on arrays and scalars. *)
Definition prop (v : json) (k : string) : option json :=
  match v with
  | JObj fs => assoc k fs
  | _ => None
  end.

Definition Array_isArray (v : option json) : bool :=
  match v with
  | Some (JArr _) => true
  | _ => false
  end.

(** An object literal in which a field whose value is [undefined] is left
    out, as [JSON.stringify] and [res.json] leave it out. *)
Fixpoint object (fs : list (string * option json)) : list (string * json) :=
  match fs with
  | [] => []
  | (k, Some v) :: rest => (k, v) :: object rest
  | (_, None) :: rest => object rest
  end.

(** [{ ...o, k: v }] on the fields of an object literal. *)
Fixpoint spread_set (k : string) (v : json) (fs : list (string * json))
  : list (string * json) :=
  match fs with
  | [] => [(k, v)]
  | (k', v') :: rest =>
      if String.eqb k k' then (k, v) :: rest else (k', v') :: spread_set k v rest
  end.

(** ** The runtime the server runs on *)

Class Runtime : Type := {
  (** [JSON.stringify] and [JSON.parse] ([None]: a [SyntaxError]). *)
  JSON_stringify : json -> string;
  JSON_parse : string -> option json;
  (** The value of [Math.random() * 16 | 0] at the k-th call. *)
  Math_random16 : nat -> Z;
  (** The reading of the system clock at its k-th reading. *)
  system_clock : nat -> Z;
  (** [Date.prototype.toISOString]. *)
  toISOString : Z -> string;
  (** How the database driver binds a value to a TEXT parameter
      ([None]: the driver rejects it); a string is bound as it is. *)
  bind_text : json -> option string;
  bind_text_string : forall s, bind_text (JStr s) = Some s;
  (** [process.env.PYTHON_ADK_HOST_URL || 'http://localhost:8000']. *)
  PYTHON_ADK_HOST_BASE_URL : string
}.

(** ** The DuckDB schema (database module) *)

Record ConversationRow : Type := {
  conv_id : string;
  conv_name : string;
  conv_is_active : bool;
  conv_created_at : Z
}.

Record MessageRow : Type := {
  msg_id : string;
  msg_conversation_id : string;
  msg_task_id : option string;
  msg_role : string;
  msg_content : string;
  msg_created_at : Z
}.

Record TaskRow : Type := {
  task_id : string;
  task_conversation_id : string;
  task_status : string;
  task_state_details : option string;
  task_created_at : Z;
  task_updated_at : Z
}.

Record ArtifactRow : Type := {
  art_id : string;
  art_task_id : string;
  art_artifact_id_ref : option string;
  art_content : string;
  art_created_at : Z
}.

(** A table is the list of its rows, oldest insertion first. *)
Record Database : Type := {
  conversations : list ConversationRow;
  messages : list MessageRow;
  tasks : list TaskRow;
  task_artifacts : list ArtifactRow
}.

(** ** Process state *)

Inductive ReadyState : Type := CONNECTING | OPEN | CLOSING | CLOSED.

Definition WebSocket : Type := nat.

Record World : Type := {
  db : Database;
  (** [const clients = new Set()], in insertion order. *)
  clients : list WebSocket;
  (** [ws.readyState], maintained by the ws library. *)
  readyState : WebSocket -> ReadyState;
  (** Every frame handed to a socket, oldest first. *)
  wire : list (WebSocket * string);
  (** [let currentApiKey] and whether [fetch] has been imported. *)
  currentApiKey : string;
  fetch_loaded : bool;
  (** Calls of [Math.random] and readings of the clock so far. *)
  draws : nat;
  reads : nat
}.

Definition with_db (d : Database) (w : World) : World :=
  {| db := d; clients := clients w; readyState := readyState w; wire := wire w;
     currentApiKey := currentApiKey w; fetch_loaded := fetch_loaded w;
     draws := draws w; reads := reads w |}.

Definition with_clients (cs : list WebSocket) (w : World) : World :=
  {| db := db w; clients := cs; readyState := readyState w; wire := wire w;
     currentApiKey := currentApiKey w; fetch_loaded := fetch_loaded w;
     draws := draws w; reads := reads w |}.

Definition with_readyState (r : WebSocket -> ReadyState) (w : World) : World :=
  {| db := db w; clients := clients w; readyState := r; wire := wire w;
     currentApiKey := currentApiKey w; fetch_loaded := fetch_loaded w;
     draws := draws w; reads := reads w |}.

Definition with_wire (l : list (WebSocket * string)) (w : World) : World :=
  {| db := db w; clients := clients w; readyState := readyState w; wire := l;
     currentApiKey := currentApiKey w; fetch_loaded := fetch_loaded w;
     draws := draws w; reads := reads w |}.

Definition with_currentApiKey (k : string) (w : World) : World :=
  {| db := db w; clients := clients w; readyState := readyState w; wire := wire w;
     currentApiKey := k; fetch_loaded := fetch_loaded w;
     draws := draws w; reads := reads w |}.

Definition with_draws (k : nat) (w : World) : World :=
  {| db := db w; clients := clients w; readyState := readyState w; wire := wire w;
     currentApiKey := currentApiKey w; fetch_loaded := fetch_loaded w;
     draws := k; reads := reads w |}.

Definition with_reads (k : nat) (w : World) : World :=
  {| db := db w; clients := clients w; readyState := readyState w; wire := wire w;
     currentApiKey := currentApiKey w; fetch_loaded := fetch_loaded w;
     draws := draws w; reads := k |}.

(** ** The monad of handlers *)

Record JsError : Type := { err_message : string; err_stack : string }.

Inductive Completion (A : Type) : Type :=
| Normal (a : A)
| Abrupt (e : JsError).
Arguments Normal {A} a.
Arguments Abrupt {A} e.

Definition Js (A : Type) : Type := World -> Completion A * World.

Definition ret {A} (a : A) : Js A := fun w => (Normal a, w).

Definition throw {A} (e : JsError) : Js A := fun w => (Abrupt e, w).

Definition bind {A B} (m : Js A) (k : A -> Js B) : Js B :=
  fun w =>
    match m w with
    | (Normal a, w') => k a w'
    | (Abrupt e, w') => (Abrupt e, w')
    end.

(** [try { m } catch (error) { h error }]. *)
Definition try_catch {A} (m : Js A) (h : JsError -> Js A) : Js A :=
  fun w =>
    match m w with
    | (Normal a, w') => (Normal a, w')
    | (Abrupt e, w') => h e w'
    end.

Declare Scope js_scope.
Delimit Scope js_scope with js.
Notation "x <- m ;; k" := (bind m (fun x => k))
  (at level 100, m at next level, right associativity) : js_scope.
Notation "m ;;; k" := (bind m (fun _ => k))
  (at level 100, right associativity) : js_scope.
Local Open Scope js_scope.

(** [for (const x of l) { f x }]. *)
Fixpoint for_of {A} (l : list A) (f : A -> Js unit) : Js unit :=
  match l with
  | [] => ret tt
  | x :: rest => f x ;;; for_of rest f
  end.

Definition TypeError (m : string) : JsError :=
  {| err_message := m; err_stack := "TypeError: " ++ m |}.

(** [v.k] where [v] may be [null]: reading a property of [null] throws. *)
Definition get_prop (v : json) (k : string) : Js (option json) :=
  match v with
  | JNull => throw (TypeError ("Cannot read properties of null (reading '" ++ k ++ "')"))
  | _ => ret (prop v k)
  end.

(** An HTTP response: [res.status(s).json(b)]. *)
Record Response : Type := { http_status : Z; http_body : json }.

Definition respond (s : Z) (b : list (string * option json)) : Response :=
  {| http_status := s; http_body := JObj (object b) |}.

Section Server.

Context {R : Runtime}.

(** ** Identifier generator *)

(** [v.toString(16)]. *)
Definition toString16 (v : Z) : string :=
  HexadecimalString.NilZero.string_of_int (Z.to_hex_int v).

Definition uuid_template : string := "xxxxxxxx-xxxx-4xxx-yxxx-xxxxxxxxxxxx".

(** [template.replace(/[xy]/g, function (c) { ... })]: the callback runs
    once per [x] or [y], left to right, and draws one random number. *)
Fixpoint replace_xy (template : string) (k : nat) : string * nat :=
  match template with
  | EmptyString => (EmptyString, k)
  | String c rest =>
      if Ascii.eqb c "x" || Ascii.eqb c "y" then
        let r := Math_random16 k in
        let v := if Ascii.eqb c "x" then r else Z.lor (Z.land r 3) 8 in
        let (out, k') := replace_xy rest (S k) in
        ((toString16 v ++ out)%string, k')
      else
        let (out, k') := replace_xy rest k in
        (String c out, k')
  end.

Definition generateUUID : Js string :=
  fun w =>
    let (id, k) := replace_xy uuid_template (draws w) in
    (Normal id, with_draws k w).

(** [CURRENT_TIMESTAMP] of a statement, [new Date()] of the server. *)
Definition CURRENT_TIMESTAMP : Js Z :=
  fun w => (Normal (system_clock (reads w)), with_reads (S (reads w)) w).

(** ** Store adapter: the SQL statements the server runs *)

Definition db_error (m : string) : JsError :=
  {| err_message := m; err_stack := "Error: " ++ m |}.

(** Binding one TEXT parameter of a statement. *)
Definition bind_param (v : json) : Js string :=
  match bind_text v with
  | Some s => ret s
  | None => throw (db_error "Invalid Input Error: cannot bind parameter")
  end.

(** A statement runs on the database in one step: it fails and leaves
    the database as it is, or completes and leaves it updated. *)
Definition statement {A} (run : Database -> Completion A * Database) : Js A :=
  fun w => let (r, d) := run (db w) in (r, with_db d w).

Definition query {A} (select : Database -> A) : Js A :=
  fun w => (Normal (select (db w)), w).

Definition constraint_error {A} (m : string) (d : Database) : Completion A * Database :=
  (Abrupt (db_error ("Constraint Error: " ++ m)), d).

Definition conversation_exists (d : Database) (cid : string) : bool :=
  existsb (fun c => String.eqb (conv_id c) cid) (conversations d).

Definition task_exists (d : Database) (tid : string) : bool :=
  existsb (fun t => String.eqb (task_id t) tid) (tasks d).

Definition with_tasks (ts : list TaskRow) (d : Database) : Database :=
  {| conversations := conversations d; messages := messages d;
     tasks := ts; task_artifacts := task_artifacts d |}.

Definition with_task_artifacts (arts : list ArtifactRow) (d : Database) : Database :=
  {| conversations := conversations d; messages := messages d;
     tasks := tasks d; task_artifacts := arts |}.

Definition with_messages (ms : list MessageRow) (d : Database) : Database :=
  {| conversations := conversations d; messages := ms;
     tasks := tasks d; task_artifacts := task_artifacts d |}.

(** [SELECT id FROM tasks WHERE id = ?] and
    [SELECT id, conversation_id, ... FROM tasks WHERE id = ?]. *)
Definition SELECT_tasks_by_id (taskId : json) : Js (list TaskRow) :=
  id <- bind_param taskId ;;
  query (fun d => filter (fun t => String.eqb (task_id t) id) (tasks d)).

Definition set_task (cid st sd : string) (now : Z) (t : TaskRow) : TaskRow :=
  {| task_id := task_id t; task_conversation_id := cid; task_status := st;
     task_state_details := Some sd; task_created_at := task_created_at t;
     task_updated_at := now |}.

(** Whether a row of [task_artifacts] refers to the task. *)
Definition task_referenced (d : Database) (tid : string) : bool :=
  existsb (fun a => String.eqb (art_task_id a) tid) (task_artifacts d).

(** [UPDATE tasks SET conversation_id = ?, status = ?, state_details = ?,
    updated_at = CURRENT_TIMESTAMP WHERE id = ?]. The statement sets
    [conversation_id], a column under a foreign key, so the store
    replaces the row of the task (it deletes it and inserts the new
    one), and it refuses to while a row of [task_artifacts] refers to
    the task. *)
Definition UPDATE_task (conversation_id status : json) (stateDetailsString : string)
  (taskId : json) : Js unit :=
  cid <- bind_param conversation_id ;;
  st <- bind_param status ;;
  id <- bind_param taskId ;;
  now <- CURRENT_TIMESTAMP ;;
  statement (fun d =>
    if task_exists d id && task_referenced d id then
      constraint_error
        "violates foreign key constraint: the key is still referenced by task_artifacts.task_id"
        d
    else if task_exists d id && negb (conversation_exists d cid) then
      constraint_error "violates foreign key constraint on tasks.conversation_id" d
    else
      (Normal tt,
       with_tasks
         (map (fun t => if String.eqb (task_id t) id
                        then set_task cid st stateDetailsString now t else t)
              (tasks d)) d)).

(** [INSERT INTO tasks (id, conversation_id, status, state_details,
    created_at, updated_at) VALUES (?, ?, ?, ?, CURRENT_TIMESTAMP,
    CURRENT_TIMESTAMP)]. *)
Definition INSERT_task (taskId conversation_id status : json)
  (stateDetailsString : string) : Js unit :=
  id <- bind_param taskId ;;
  cid <- bind_param conversation_id ;;
  st <- bind_param status ;;
  now <- CURRENT_TIMESTAMP ;;
  statement (fun d =>
    if task_exists d id then
      constraint_error "duplicate key violates primary key constraint on tasks.id" d
    else if negb (conversation_exists d cid) then
      constraint_error "violates foreign key constraint on tasks.conversation_id" d
    else
      (Normal tt,
       with_tasks
         (tasks d ++ [{| task_id := id; task_conversation_id := cid; task_status := st;
                         task_state_details := Some stateDetailsString;
                         task_created_at := now; task_updated_at := now |}]) d)).

(** [INSERT OR REPLACE INTO task_artifacts (id, task_id, artifact_id_ref,
    content, created_at) VALUES (?, ?, ?, ?, CURRENT_TIMESTAMP)]: the only
    key of the table is [id], so a row is replaced when its [id] is the
    one inserted. *)
Definition INSERT_OR_REPLACE_artifact (artifactDbId : string) (taskId artifactId : json)
  (artifactContentString : string) : Js unit :=
  tid <- bind_param taskId ;;
  ref <- bind_param artifactId ;;
  now <- CURRENT_TIMESTAMP ;;
  statement (fun d =>
    if negb (task_exists d tid) then
      constraint_error "violates foreign key constraint on task_artifacts.task_id" d
    else
      (Normal tt,
       with_task_artifacts
         (filter (fun a => negb (String.eqb (art_id a) artifactDbId)) (task_artifacts d)
          ++ [{| art_id := artifactDbId; art_task_id := tid; art_artifact_id_ref := Some ref;
                 art_content := artifactContentString; art_created_at := now |}]) d)).

(** [ORDER BY created_at ASC]: rows of equal [created_at] stay in the
    order of the table. *)
Fixpoint insert_by_created_at (a : ArtifactRow) (l : list ArtifactRow) : list ArtifactRow :=
  match l with
  | [] => [a]
  | b :: rest =>
      if (art_created_at a <? art_created_at b)%Z then a :: b :: rest
      else b :: insert_by_created_at a rest
  end.

Definition ORDER_BY_created_at_ASC (l : list ArtifactRow) : list ArtifactRow :=
  fold_left (fun acc a => insert_by_created_at a acc) l [].

(** [SELECT id, task_id, artifact_id_ref, content, created_at FROM
    task_artifacts WHERE task_id = ? ORDER BY created_at ASC]. *)
Definition SELECT_artifacts_of_task (taskId : string) : Js (list ArtifactRow) :=
  query (fun d =>
    ORDER_BY_created_at_ASC
      (filter (fun a => String.eqb (art_task_id a) taskId) (task_artifacts d))).

(** ** Fan-out broadcaster *)

Definition is_OPEN (s : ReadyState) : bool :=
  match s with OPEN => true | _ => false end.

Definition get_clients : Js (list WebSocket) := fun w => (Normal (clients w), w).

Definition get_readyState (ws : WebSocket) : Js ReadyState :=
  fun w => (Normal (readyState w ws), w).

(** [ws.send(data)], called without a callback: the frame goes on the
    wire of an open socket; the ws library throws on a socket that is
    still connecting and discards the data of one that is closing or
    closed. *)
Definition ws_send (ws : WebSocket) (data : string) : Js unit :=
  fun w =>
    match readyState w ws with
    | OPEN => (Normal tt, with_wire (wire w ++ [(ws, data)]) w)
    | CONNECTING =>
        (Abrupt {| err_message := "WebSocket is not open: readyState 0 (CONNECTING)";
                   err_stack := "Error: WebSocket is not open: readyState 0 (CONNECTING)" |},
         w)
    | CLOSING | CLOSED => (Normal tt, w)
    end.

Definition broadcast (data : json) : Js unit :=
  let jsonData := JSON_stringify data in
  cs <- get_clients ;;
  for_of cs (fun client =>
    st <- get_readyState client ;;
    if is_OPEN st then ws_send client jsonData else ret tt).

(** [clients.add(ws)] and [clients.delete(ws)]. *)
Definition Set_add (ws : WebSocket) (cs : list WebSocket) : list WebSocket :=
  if in_dec Nat.eq_dec ws cs then cs else cs ++ [ws].

Definition Set_delete (ws : WebSocket) (cs : list WebSocket) : list WebSocket :=
  remove Nat.eq_dec ws cs.

Definition set_readyState (ws : WebSocket) (s : ReadyState) : Js unit :=
  fun w => (Normal tt,
            with_readyState (fun x => if Nat.eqb x ws then s else readyState w x) w).

(** [wss.on('connection', (ws) => ...)]: the library hands over an open
    socket. *)
Definition on_connection (ws : WebSocket) : Js unit :=
  set_readyState ws OPEN ;;;
  (fun w => (Normal tt, with_clients (Set_add ws (clients w)) w)) ;;;
  ws_send ws (JSON_stringify (JObj [("type", JStr "system");
                                    ("message", JStr "Connected to WebSocket server")])).

Definition invalid_message_format : json :=
  JObj [("type", JStr "error"); ("message", JStr "Invalid message format.")].

(** [ws.on('message', (message) => ...)]. *)
Definition on_message (ws : WebSocket) (messageString : string) : Js unit :=
  try_catch
    (match JSON_parse messageString with
     | Some parsedMessage => broadcast parsedMessage
     | None => throw {| err_message := "Unexpected token in JSON";
                        err_stack := "SyntaxError: Unexpected token in JSON" |}
     end)
    (fun e => ws_send ws (JSON_stringify invalid_message_format)).

(** [ws.on('close', ...)]: the socket is closed when the event fires. *)
Definition on_close (ws : WebSocket) : Js unit :=
  set_readyState ws CLOSED ;;;
  (fun w => (Normal tt, with_clients (Set_delete ws (clients w)) w)).

(** [ws.on('error', ...)]. *)
Definition on_error (ws : WebSocket) : Js unit :=
  fun w => (Normal tt, with_clients (Set_delete ws (clients w)) w).

(** ** Task reconciler *)

Definition null_or_string (s : option string) : json :=
  match s with Some x => JStr x | None => JNull end.

(** A row of [tasks] and of [task_artifacts] as the driver returns it. *)
Definition task_object (t : TaskRow) : list (string * json) :=
  [("id", JStr (task_id t));
   ("conversation_id", JStr (task_conversation_id t));
   ("status", JStr (task_status t));
   ("state_details", null_or_string (task_state_details t));
   ("created_at", JStr (toISOString (task_created_at t)));
   ("updated_at", JStr (toISOString (task_updated_at t)))].

Definition artifact_object (a : ArtifactRow) : list (string * json) :=
  [("id", JStr (art_id a));
   ("task_id", JStr (art_task_id a));
   ("artifact_id_ref", null_or_string (art_artifact_id_ref a));
   ("content", JStr (art_content a));
   ("created_at", JStr (toISOString (art_created_at a)))].

Definition state_details_placeholder : json :=
  JObj [("error", JStr "Could not parse state_details.")].

Definition artifact_content_placeholder : json :=
  JArr [JObj [("type", JStr "error");
              ("text", JStr "Error: Could not parse artifact content.")]].

(** [task.state_details ? JSON.parse(task.state_details) : null] under
    its [try]/[catch]. *)
Definition hydrate_state_details (sd : option string) : json :=
  match sd with
  | None => JNull
  | Some s =>
      if String.eqb s "" then JNull
      else match JSON_parse s with
           | Some v => v
           | None => state_details_placeholder
           end
  end.

(** The callback of [artifactsRows.map]. *)
Definition hydrate_artifact (art : ArtifactRow) : json :=
  match JSON_parse (art_content art) with
  | Some v => JObj (spread_set "content" v (artifact_object art))
  | None => JObj (spread_set "content" artifact_content_placeholder (artifact_object art))
  end.

(** The task object once [task.state_details] and [task.artifacts] have
    been assigned. *)
Definition snapshot (task : TaskRow) (artifactsRows : list ArtifactRow) : json :=
  JObj (spread_set "artifacts" (JArr (map hydrate_artifact artifactsRows))
          (spread_set "state_details" (hydrate_state_details (task_state_details task))
             (task_object task))).

(** [getTaskWithArtifacts(db, taskId)]; [None] is its [null]. *)
Definition getTaskWithArtifacts (taskId : json) : Js (option json) :=
  taskRows <- SELECT_tasks_by_id taskId ;;
  match taskRows with
  | [] => ret None
  | task :: _ =>
      artifactsRows <- SELECT_artifacts_of_task (task_id task) ;;
      ret (Some (snapshot task artifactsRows))
  end.

(** The body of the loop over [artifacts]; [ret tt] is its [continue]. *)
Definition store_artifact (taskId artifact : json) : Js unit :=
  artifactId <- get_prop artifact "artifactId" ;;
  if negb (truthy artifactId) then ret tt
  else
    content <- get_prop artifact "content" ;;
    if negb (truthy content) then ret tt
    else
      match artifactId, content with
      | Some artifactId', Some content' =>
          artifactDbId <- generateUUID ;;
          let artifactContentString := JSON_stringify content' in
          INSERT_OR_REPLACE_artifact artifactDbId taskId artifactId' artifactContentString
      | _, _ => ret tt
      end.

Definition internal_error (what : string) (error : JsError) : Response :=
  respond 500 [("message", Some (JStr what));
               ("details", Some (JStr (err_message error)))].

(** The lookup of the task and its update or insertion. *)
Definition upsert_task (taskId conversation_id status : json)
  (stateDetailsString : string) : Js unit :=
  existingTask <- SELECT_tasks_by_id taskId ;;
  if (0 <? List.length existingTask)%nat
  then UPDATE_task conversation_id status stateDetailsString taskId
  else INSERT_task taskId conversation_id status stateDetailsString.

(** [if (Array.isArray(artifacts)) { for (const artifact of artifacts) ... }]. *)
Definition store_artifacts (taskId : json) (artifacts : option json) : Js unit :=
  match artifacts with
  | Some (JArr entries) => for_of entries (store_artifact taskId)
  | _ => ret tt
  end.

Definition task_updated (data : json) : json :=
  JObj [("type", JStr "task_updated"); ("data", data)].

(** The snapshot of the task and its broadcast. *)
Definition publish_snapshot (taskId : json) : Js unit :=
  completeTaskData <- getTaskWithArtifacts taskId ;;
  match completeTaskData with
  | Some data => broadcast (task_updated data)
  | None => ret tt
  end.

Definition missing_fields : Response :=
  respond 400 [("message", Some (JStr
    "Missing required fields: id (taskId), contextId (conversation_id), status."))].

Definition received (taskId : json) : Response :=
  respond 200 [("status", Some (JStr "received")); ("taskId", Some taskId)].

(** [app.post('/host/task_update', ...)]. A field that is absent is
    [undefined], hence falsy. *)
Definition host_task_update (body : json) : Js Response :=
  match prop body "id", prop body "contextId", prop body "status" with
  | Some taskId, Some conversation_id, Some status =>
      if negb (truthy (Some taskId)) || negb (truthy (Some conversation_id))
         || negb (truthy (Some status))
      then ret missing_fields
      else
        try_catch
          (let stateDetailsString :=
             JSON_stringify (js_or (prop body "state_details") status) in
           upsert_task taskId conversation_id status stateDetailsString ;;;
           store_artifacts taskId (prop body "artifacts") ;;;
           publish_snapshot taskId ;;;
           ret (received taskId))
          (fun error => ret (internal_error "Internal server error processing task update" error))
  | _, _, _ => ret missing_fields
  end.

(** ** Host gateway (host connector module) *)

Record HttpRequest : Type := {
  req_url : string;
  req_method : string;
  req_headers : list (string * string);
  req_body : option string
}.

(** What reading the body of a response gives: its text, or a failure
    of the stream. *)
Inductive BodyRead : Type :=
| BodyText (text : string)
| BodyFailure (e : JsError).

Record FetchResponse : Type := {
  status : Z;
  statusText : string;
  body_read : BodyRead
}.

(** What [fetch] settles to: the promise rejects (transport failure) or
    resolves to a response. *)
Inductive FetchResult : Type :=
| Rejected (e : JsError)
| Resolved (response : FetchResponse).

(** The host, seen from the connector. *)
Definition Host : Type := HttpRequest -> FetchResult.

(** [response.ok]: the status is in the range 200-299. *)
Definition ok (response : FetchResponse) : bool :=
  ((200 <=? status response) && (status response <=? 299))%Z.

Definition fetch (host : Host) (request : HttpRequest) : Js FetchResponse :=
  match host request with
  | Rejected e => throw e
  | Resolved response => ret response
  end.

(** [response.text()] and [response.json()]. *)
Definition response_text (response : FetchResponse) : Js string :=
  match body_read response with
  | BodyText text => ret text
  | BodyFailure e => throw e
  end.

Definition response_json (response : FetchResponse) : Js json :=
  text <- response_text response ;;
  match JSON_parse text with
  | Some data => ret data
  | None => throw {| err_message := "invalid json response body";
                     err_stack := "FetchError: invalid json response body" |}
  end.

Definition get_currentApiKey : Js string := fun w => (Normal (currentApiKey w), w).

Definition get_fetch_loaded : Js bool := fun w => (Normal (fetch_loaded w), w).

Definition updateApiKey (newKey : string) : Js unit :=
  fun w => (Normal tt, with_currentApiKey newKey w).

Definition fetch_not_available : json :=
  JObj [("error", JBool true); ("message", JStr "Fetch client not available.")].

Definition status_failure (response : FetchResponse) (what errorBody : string) : json :=
  JObj [("error", JBool true);
        ("status", JNum (status response));
        ("message", JStr (what ++ statusText response));
        ("details", JStr errorBody)].

Definition caught_failure (error : JsError) : json :=
  JObj [("error", JBool true);
        ("message", JStr (err_message error));
        ("details", JStr (err_stack error))].

Definition json_headers (apiKey : string) : list (string * string) :=
  [("Content-Type", "application/json"); ("X-API-Key", apiKey)].

(** [registerAgent(agentUrl)]. *)
Definition registerAgent (host : Host) (agentUrl : json) : Js json :=
  loaded <- get_fetch_loaded ;;
  if negb loaded then ret fetch_not_available
  else
    let endpoint := (PYTHON_ADK_HOST_BASE_URL ++ "/register_agent_service")%string in
    try_catch
      (apiKey <- get_currentApiKey ;;
       response <- fetch host
         {| req_url := endpoint; req_method := "POST";
            req_headers := json_headers apiKey;
            req_body := Some (JSON_stringify (JObj [("agent_url", agentUrl)])) |} ;;
       if negb (ok response) then
         errorBody <- response_text response ;;
         ret (status_failure response "Failed to register agent: " errorBody)
       else
         data <- response_json response ;;
         ret data)
      (fun error => ret (caught_failure error)).

(** [createConversation()]. *)
Definition createConversation (host : Host) : Js json :=
  loaded <- get_fetch_loaded ;;
  if negb loaded then ret fetch_not_available
  else
    let endpoint := (PYTHON_ADK_HOST_BASE_URL ++ "/create_conversation_service")%string in
    try_catch
      (apiKey <- get_currentApiKey ;;
       response <- fetch host
         {| req_url := endpoint; req_method := "POST";
            req_headers := json_headers apiKey;
            req_body := None |} ;;
       if negb (ok response) then
         errorBody <- response_text response ;;
         ret (status_failure response "Failed to create conversation: " errorBody)
       else
         data <- response_json response ;;
         ret data)
      (fun error => ret (caught_failure error)).

(** [sendMessageToHost(messageData)]. *)
Definition sendMessageToHost (host : Host) (messageData : json) : Js json :=
  loaded <- get_fetch_loaded ;;
  if negb loaded then ret fetch_not_available
  else
    let endpoint := (PYTHON_ADK_HOST_BASE_URL ++ "/send_message_service")%string in
    try_catch
      (apiKey <- get_currentApiKey ;;
       response <- fetch host
         {| req_url := endpoint; req_method := "POST";
            req_headers := json_headers apiKey;
            req_body := Some (JSON_stringify messageData) |} ;;
       if negb (ok response) then
         errorBody <- response_text response ;;
         ret (status_failure response "Failed to send message: " errorBody)
       else
         data <- response_json response ;;
         ret data)
      (fun error => ret (caught_failure error)).

(** ** Ingress handlers that relay to the host *)

(** [INSERT INTO messages (id, conversation_id, task_id, role, content,
    created_at) VALUES (?, ?, ?, ?, ?, ?)]; [task_id] may be NULL. *)
Definition INSERT_message (id : string) (conversation_id : json) (task_id : option json)
  (role : json) (content : string) (created_at : Z) : Js unit :=
  cid <- bind_param conversation_id ;;
  tid <- match task_id with
         | Some t => s <- bind_param t ;; ret (Some s)
         | None => ret None
         end ;;
  rl <- bind_param role ;;
  statement (fun d =>
    if existsb (fun m => String.eqb (msg_id m) id) (messages d) then
      constraint_error "duplicate key violates primary key constraint on messages.id" d
    else if negb (conversation_exists d cid) then
      constraint_error "violates foreign key constraint on messages.conversation_id" d
    else
      (Normal tt,
       with_messages
         (messages d ++ [{| msg_id := id; msg_conversation_id := cid; msg_task_id := tid;
                            msg_role := rl; msg_content := content;
                            msg_created_at := created_at |}]) d)).

(** [v !== s] for a string literal [s]. *)
Definition strict_neq (v : option json) (s : string) : bool :=
  match v with
  | Some (JStr x) => negb (String.eqb x s)
  | _ => true
  end.

(** [messageDataForHost], with [taskId] when [task_id] is given. *)
Definition messageDataForHost (messageId : string) (body : json) : json :=
  JObj (object [("messageId", Some (JStr messageId));
                ("contextId", prop body "conversation_id");
                ("role", prop body "role");
                ("parts", prop body "content");
                ("taskId", if truthy (prop body "task_id") then prop body "task_id" else None)]).

(** [app.post('/message/send', ...)]. *)
Definition message_send (host : Host) (body : json) : Js Response :=
  let conversation_id := prop body "conversation_id" in
  let role := prop body "role" in
  let content := prop body "content" in
  let task_id := prop body "task_id" in
  if negb (truthy conversation_id) || negb (truthy role) || negb (truthy content)
     || negb (Array_isArray content)
  then ret (respond 400 [("message", Some (JStr
         "Missing required fields: conversation_id, role, and content (must be an array)."))])
  else if strict_neq role "user" && strict_neq role "agent"
  then ret (respond 400 [("message", Some (JStr "Role must be 'user' or 'agent'."))])
  else
    match conversation_id, role, content with
    | Some conversation_id', Some role', Some content' =>
        try_catch
          (messageId <- generateUUID ;;
           createdAt <- CURRENT_TIMESTAMP ;;
           hostResponse <- sendMessageToHost host (messageDataForHost messageId body) ;;
           hostError <- get_prop hostResponse "error" ;;
           if truthy hostError then
             ret (respond 500 [("message", Some (JStr "Failed to send message to host"));
                               ("details", prop hostResponse "message")])
           else
             let task_id_or_null := if truthy task_id then task_id else None in
             INSERT_message messageId conversation_id' task_id_or_null role'
                            (JSON_stringify content') createdAt ;;;
             let broadcastPayload :=
               JObj [("id", JStr messageId);
                     ("conversation_id", conversation_id');
                     ("task_id", js_or task_id JNull);
                     ("role", role');
                     ("content", content');
                     ("created_at", JStr (toISOString createdAt))] in
             broadcast (JObj [("type", JStr "new_message"); ("data", broadcastPayload)]) ;;;
             ret (respond 201 [("message", Some (JStr "Message sent and stored successfully"));
                               ("data", Some broadcastPayload)]))
          (fun error => ret (internal_error "Internal server error sending message" error))
    | _, _, _ =>
        ret (respond 400 [("message", Some (JStr
          "Missing required fields: conversation_id, role, and content (must be an array)."))])
    end.

End Server.

(** ** The other routes of the server *)

Section Routes.

Context {R : Runtime}.

(** [ORDER BY key]: [before a b] says that [a] sorts strictly before
    [b]; rows that neither sorts before the other stay in the order of
    the table. *)
Fixpoint insert_by {A} (before : A -> A -> bool) (a : A) (l : list A) : list A :=
  match l with
  | [] => [a]
  | b :: rest => if before a b then a :: b :: rest else b :: insert_by before a rest
  end.

Definition order_by {A} (before : A -> A -> bool) (l : list A) : list A :=
  fold_left (fun acc a => insert_by before a acc) l [].

Definition ASC {A} (key : A -> Z) (a b : A) : bool := (key a <? key b)%Z.
Definition DESC {A} (key : A -> Z) (a b : A) : bool := (key b <? key a)%Z.

Definition with_conversations (cs : list ConversationRow) (d : Database) : Database :=
  {| conversations := cs; messages := messages d;
     tasks := tasks d; task_artifacts := task_artifacts d |}.

(** [INSERT INTO conversations (id, name, is_active) VALUES (?, ?, ?)];
    [created_at] takes its default, [CURRENT_TIMESTAMP]. *)
Definition INSERT_conversation (conversationId : string) (conversationName : json)
  (isActive : bool) : Js unit :=
  name <- bind_param conversationName ;;
  now <- CURRENT_TIMESTAMP ;;
  statement (fun d =>
    if conversation_exists d conversationId then
      constraint_error "duplicate key violates primary key constraint on conversations.id" d
    else
      (Normal tt,
       with_conversations
         (conversations d ++ [{| conv_id := conversationId; conv_name := name;
                                 conv_is_active := isActive; conv_created_at := now |}]) d)).

(** [conversationId.substring(0, 8)]. *)
Definition substring_0_8 (s : string) : string := String.substring 0 8 s.

Definition conversation_created (data : json) : json :=
  JObj [("type", JStr "conversation_created"); ("data", data)].

(** [app.post('/conversation/create', ...)]. *)
Definition conversation_create (host : Host) : Js Response :=
  try_catch
    (hostResponse <- createConversation host ;;
     hostError <- get_prop hostResponse "error" ;;
     if truthy hostError then
       ret (respond 500 [("message", Some (JStr "Failed to create conversation with host"));
                         ("details", prop hostResponse "message")])
     else
       conversationId <- generateUUID ;;
       let conversationName :=
         js_or (prop hostResponse "name")
               (JStr ("Conversation " ++ substring_0_8 conversationId)) in
       let isActive := true in
       INSERT_conversation conversationId conversationName isActive ;;;
       now <- CURRENT_TIMESTAMP ;;
       let newConversationData :=
         [("id", JStr conversationId);
          ("name", conversationName);
          ("is_active", JBool isActive);
          ("created_at", JStr (toISOString now))] in
       broadcast (conversation_created (JObj newConversationData)) ;;;
       ret {| http_status := 201;
              http_body := JObj (spread_set "message"
                                   (JStr "Conversation created successfully")
                                   newConversationData) |})
    (fun error => ret (internal_error "Internal server error creating conversation" error)).

(** A row of [conversations] and of [messages] as the driver returns
    it. *)
Definition conversation_object (c : ConversationRow) : json :=
  JObj [("id", JStr (conv_id c));
        ("name", JStr (conv_name c));
        ("is_active", JBool (conv_is_active c));
        ("created_at", JStr (toISOString (conv_created_at c)))].

Definition message_object (m : MessageRow) : list (string * json) :=
  [("id", JStr (msg_id m));
   ("conversation_id", JStr (msg_conversation_id m));
   ("task_id", null_or_string (msg_task_id m));
   ("role", JStr (msg_role m));
   ("content", JStr (msg_content m));
   ("created_at", JStr (toISOString (msg_created_at m)))].

(** [app.post('/conversation/list', ...)]:
    [SELECT id, name, is_active, created_at FROM conversations ORDER BY
    created_at DESC]. *)
Definition conversation_list : Js Response :=
  try_catch
    (rows <- query (fun d => order_by (DESC conv_created_at) (conversations d)) ;;
     ret {| http_status := 200; http_body := JArr (map conversation_object rows) |})
    (fun error => ret (internal_error "Internal server error listing conversations" error)).

Definition message_content_placeholder : json :=
  JArr [JObj [("type", JStr "error");
              ("text", JStr "Error: Could not parse message content.")]].

(** The callback of [messages.map]. *)
Definition format_message (msg : MessageRow) : json :=
  match JSON_parse (msg_content msg) with
  | Some v => JObj (spread_set "content" v (message_object msg))
  | None => JObj (spread_set "content" message_content_placeholder (message_object msg))
  end.

(** [SELECT id, conversation_id, task_id, role, content, created_at FROM
    messages WHERE conversation_id = ? ORDER BY created_at ASC]. *)
Definition SELECT_messages_of_conversation (conversation_id : json) : Js (list MessageRow) :=
  cid <- bind_param conversation_id ;;
  query (fun d =>
    order_by (ASC msg_created_at)
      (filter (fun m => String.eqb (msg_conversation_id m) cid) (messages d))).

(** [app.post('/message/list', ...)]. *)
Definition message_list (body : json) : Js Response :=
  match prop body "conversation_id" with
  | Some conversation_id =>
      if negb (truthy (Some conversation_id)) then
        ret (respond 400 [("message", Some (JStr "conversation_id is required."))])
      else
        try_catch
          (messages <- SELECT_messages_of_conversation conversation_id ;;
           ret {| http_status := 200; http_body := JArr (map format_message messages) |})
          (fun error => ret (internal_error "Internal server error listing messages" error))
  | None => ret (respond 400 [("message", Some (JStr "conversation_id is required."))])
  end.

(** [SELECT id, conversation_id, status, state_details, created_at,
    updated_at FROM tasks [WHERE conversation_id = ?] ORDER BY
    created_at DESC]. *)
Definition SELECT_tasks (conversation_id : option json) : Js (list TaskRow) :=
  if truthy conversation_id then
    match conversation_id with
    | Some c =>
        cid <- bind_param c ;;
        query (fun d =>
          order_by (DESC task_created_at)
            (filter (fun t => String.eqb (task_conversation_id t) cid) (tasks d)))
    | None => query (fun d => order_by (DESC task_created_at) (tasks d))
    end
  else query (fun d => order_by (DESC task_created_at) (tasks d)).

(** The loop of [/task/list] over the tasks selected: each is given its
    state details decoded and its artifacts, and pushed. *)
Fixpoint format_tasks (tasks : list TaskRow) : Js (list json) :=
  match tasks with
  | [] => ret []
  | task :: rest =>
      let state_details := hydrate_state_details (task_state_details task) in
      artifactsRows <- SELECT_artifacts_of_task (task_id task) ;;
      let formatted :=
        JObj (spread_set "artifacts" (JArr (map hydrate_artifact artifactsRows))
                (spread_set "state_details" state_details (task_object task))) in
      formattedTasks <- format_tasks rest ;;
      ret (formatted :: formattedTasks)
  end.

(** [app.post('/task/list', ...)]. *)
Definition task_list (body : json) : Js Response :=
  try_catch
    (tasks <- SELECT_tasks (prop body "conversation_id") ;;
     formattedTasks <- format_tasks tasks ;;
     ret {| http_status := 200; http_body := JArr formattedTasks |})
    (fun error => ret (internal_error "Internal server error listing tasks" error)).

(** [app.post('/api_key/update', ...)]: [typeof apiKey !== 'string']
    rejects everything but a string, the empty one included. *)
Definition api_key_update (body : json) : Js Response :=
  match prop body "api_key" with
  | Some (JStr apiKey) =>
      try_catch
        (updateApiKey apiKey ;;;
         ret (respond 200 [("status", Some (JStr "success"));
                           ("message", Some (JStr
                              "API key updated for future host communications."))]))
        (fun error => ret (internal_error "Internal server error updating API key." error))
  | _ =>
      ret (respond 400 [("message", Some (JStr
             "api_key (string) is required in the request body."))])
  end.

End Routes.

(** ** The agent registry and the file store

    The tables [agents] and [files] of the schema and the routes that
    use them. *)

Record AgentRow : Type := {
  agent_id : string;
  agent_name : option string;
  agent_description : option string;
  agent_icon : option string;
  agent_url : string;
  agent_created_at : Z
}.

Record FileRow : Type := {
  file_id : string;
  file_name : option string;
  file_mime_type : string;
  file_data : list Byte.byte;
  file_created_at : Z
}.

Record Registry : Type := {
  agents : list AgentRow;
  files : list FileRow
}.

Definition with_agents (l : list AgentRow) (g : Registry) : Registry :=
  {| agents := l; files := files g |}.

Definition with_files (l : list FileRow) (g : Registry) : Registry :=
  {| agents := agents g; files := l |}.

(** What these routes take from Node, Express and the driver. *)
Class Platform : Type := {
  (** The string a template literal makes of a value; a string is
      taken as it is. *)
  template : json -> string;
  template_string : forall s, template (JStr s) = s;
  (** The message of the error the driver raises when a row of [agents]
      with that [url] exists. *)
  duplicate_url : string -> string;
  (** [Buffer.from(v, 'base64')]. *)
  Buffer_from_base64 : json -> Completion (list Byte.byte);
  (** The BLOB the driver binds a Buffer as: it hands the bytes to the
      store as a string, which the store casts to a BLOB. [None] when
      the store refuses the cast; the driver does not handle that, and
      the process ends. *)
  bind_blob : list Byte.byte -> option (list Byte.byte);
  (** Whether [res.setHeader] accepts the value. *)
  header_value : string -> bool
}.

(** Handlers of these routes run on the registry and the process. *)
Definition Server : Type := (Registry * World)%type.

Definition Jx (A : Type) : Type := Server -> Completion A * Server.

Definition retx {A} (a : A) : Jx A := fun s => (Normal a, s).

Definition throwx {A} (e : JsError) : Jx A := fun s => (Abrupt e, s).

Definition bindx {A B} (m : Jx A) (k : A -> Jx B) : Jx B :=
  fun s =>
    match m s with
    | (Normal a, s') => k a s'
    | (Abrupt e, s') => (Abrupt e, s')
    end.

Definition try_catchx {A} (m : Jx A) (h : JsError -> Jx A) : Jx A :=
  fun s =>
    match m s with
    | (Normal a, s') => (Normal a, s')
    | (Abrupt e, s') => h e s'
    end.

(** A computation on the process alone. *)
Definition lift {A} (m : Js A) : Jx A :=
  fun s => let (r, w) := m (snd s) in (r, (fst s, w)).

Definition registry_statement {A} (run : Registry -> Completion A * Registry) : Jx A :=
  fun s => let (r, g) := run (fst s) in (r, (g, snd s)).

Definition registry_query {A} (select : Registry -> A) : Jx A :=
  fun s => (Normal (select (fst s)), s).

Declare Scope jx_scope.
Delimit Scope jx_scope with jx.
Notation "x <- m ;; k" := (bindx m (fun x => k))
  (at level 100, m at next level, right associativity) : jx_scope.
Notation "m ;;; k" := (bindx m (fun _ => k))
  (at level 100, right associativity) : jx_scope.

(** [s.includes(needle)]. *)
Fixpoint includes (s needle : string) : bool :=
  String.prefix needle s ||
  match s with
  | EmptyString => false
  | String _ rest => includes rest needle
  end.

(** [v?.k]. *)
Definition optional_chain (v : option json) (k : string) : option json :=
  match v with
  | None => None
  | Some JNull => None
  | Some d => prop d k
  end.

(** The answers of the routes: [res.status(s).json(b)], or a header and
    [res.send(buffer)]. *)
Inductive Reply : Type :=
| Json (r : Response)
| Sent (content_type : string) (data : list Byte.byte).

Section Registry.

Context {R : Runtime} {P : Platform}.

Local Open Scope jx_scope.

(** Binding the last of five parameters, which may be [undefined] or
    [null]: [null] is bound as NULL; the driver passes over [undefined],
    and the statement, one value short, is refused. *)
Definition bind_nullable (v : option json) : Js (option string) :=
  match v with
  | None =>
      throw (db_error
        "Invalid Input Error: Values were not provided for the following prepared statement parameters: 5")
  | Some JNull => ret None
  | Some x => bind (bind_param x) (fun s => ret (Some s))
  end.

(** [INSERT INTO agents (id, url, name, description, icon) VALUES (?, ?,
    ?, ?, ?)]; [created_at] takes its default. The table has [id] as
    primary key and [url] unique. *)
Definition INSERT_agent (agentId : string) (agentUrl agentName agentDescription : json)
  (agentIcon : option json) : Jx unit :=
  url <- lift (bind_param agentUrl) ;;
  name <- lift (bind_param agentName) ;;
  description <- lift (bind_param agentDescription) ;;
  icon <- lift (bind_nullable agentIcon) ;;
  now <- lift CURRENT_TIMESTAMP ;;
  registry_statement (fun g =>
    if existsb (fun a => String.eqb (agent_id a) agentId) (agents g) then
      (Abrupt (db_error
         "Constraint Error: duplicate key violates primary key constraint on agents.id"), g)
    else if existsb (fun a => String.eqb (agent_url a) url) (agents g) then
      (Abrupt (db_error (duplicate_url url)), g)
    else
      (Normal tt,
       with_agents
         (agents g ++ [{| agent_id := agentId; agent_name := Some name;
                          agent_description := Some description; agent_icon := icon;
                          agent_url := url; agent_created_at := now |}]) g)).

Definition agent_registered (data : json) : json :=
  JObj [("type", JStr "agent_registered"); ("data", data)].

(** The [catch] of [/agent/register]. *)
Definition agent_register_failure (error : JsError) : Response :=
  if negb (String.eqb (err_message error) "")
     && includes (err_message error) "UNIQUE constraint failed: agents.url"
  then respond 409 [("message", Some (JStr "Agent with this URL already registered."));
                    ("details", Some (JStr (err_message error)))]
  else internal_error "Internal server error registering agent" error.

(** [app.post('/agent/register', ...)]. *)
Definition agent_register (host : Host) (body : json) : Jx Response :=
  match prop body "agent_url" with
  | Some agentUrl =>
      if negb (truthy (Some agentUrl)) then
        retx (respond 400 [("message", Some (JStr
                "agent_url is required in the request body."))])
      else
        try_catchx
          (hostResponse <- lift (registerAgent host agentUrl) ;;
           hostError <- lift (get_prop hostResponse "error") ;;
           if truthy hostError then
             retx (respond 500 [("message", Some (JStr "Failed to register agent with host"));
                                ("details", prop hostResponse "message")])
           else
             agentId <- lift generateUUID ;;
             let data := prop hostResponse "data" in
             let agentName :=
               js_or (optional_chain data "name")
                     (JStr ("Agent at " ++ template agentUrl)) in
             let agentDescription :=
               js_or (optional_chain data "description")
                     (JStr "No description provided.") in
             let agentIcon := optional_chain data "icon" in
             INSERT_agent agentId agentUrl agentName agentDescription agentIcon ;;;
             now <- lift CURRENT_TIMESTAMP ;;
             let newAgentData :=
               object [("id", Some (JStr agentId));
                       ("url", Some agentUrl);
                       ("name", Some agentName);
                       ("description", Some agentDescription);
                       ("icon", agentIcon);
                       ("created_at", Some (JStr (toISOString now)))] in
             lift (broadcast (agent_registered (JObj newAgentData))) ;;;
             retx {| http_status := 201;
                     http_body := JObj (spread_set "message"
                                          (JStr "Agent registered successfully")
                                          newAgentData) |})
          (fun error => retx (agent_register_failure error))
  | None =>
      retx (respond 400 [("message", Some (JStr
              "agent_url is required in the request body."))])
  end.

(** A row of [agents] as the driver returns it. *)
Definition agent_object (a : AgentRow) : json :=
  JObj [("id", JStr (agent_id a));
        ("name", null_or_string (agent_name a));
        ("description", null_or_string (agent_description a));
        ("icon", null_or_string (agent_icon a));
        ("url", JStr (agent_url a));
        ("created_at", JStr (toISOString (agent_created_at a)))].

(** [app.post('/agent/list', ...)]: [SELECT id, name, description, icon,
    url, created_at FROM agents ORDER BY created_at DESC]. *)
Definition agent_list : Jx Response :=
  try_catchx
    (rows <- registry_query (fun g => order_by (DESC agent_created_at) (agents g)) ;;
     retx {| http_status := 200; http_body := JArr (map agent_object rows) |})
    (fun error => retx (internal_error "Internal server error listing agents" error)).

(** [INSERT INTO files (id, name, mime_type, data) VALUES (?, ?, ?, ?)];
    [created_at] takes its default. The row holds the BLOB the Buffer is
    bound as. [None]: the Buffer is not bound and the process ends,
    before the statement runs. *)
Definition INSERT_file (fileId name mimeType : json) (fileDataBuffer : list Byte.byte)
  : Jx (option unit) :=
  id <- lift (bind_param fileId) ;;
  nm <- lift (bind_param name) ;;
  mt <- lift (bind_param mimeType) ;;
  match bind_blob fileDataBuffer with
  | None => retx None
  | Some data =>
      now <- lift CURRENT_TIMESTAMP ;;
      registry_statement (fun g =>
        if existsb (fun f => String.eqb (file_id f) id) (files g) then
          (Abrupt (db_error
             "Constraint Error: duplicate key violates primary key constraint on files.id"), g)
        else
          (Normal (Some tt),
           with_files
             (files g ++ [{| file_id := id; file_name := Some nm; file_mime_type := mt;
                             file_data := data; file_created_at := now |}]) g))
  end.

(** [if (!fileId) { fileId = generateUUID(); }]. *)
Definition file_id_or_new (fileId : option json) : Jx json :=
  match fileId with
  | Some f =>
      if truthy fileId then retx f
      else id <- lift generateUUID ;; retx (JStr id)
  | None => id <- lift generateUUID ;; retx (JStr id)
  end.

Definition missing_file_fields : Response :=
  respond 400 [("message", Some (JStr
    "Missing required fields: name, mime_type, bytes (base64 encoded)."))].

(** The [catch] of [/host/file_received]. *)
Definition file_received_failure (error : JsError) : Response :=
  if includes (err_message error) "bad base-64" then
    respond 400 [("message", Some (JStr "Invalid base64 data in 'bytes' field."));
                 ("details", Some (JStr (err_message error)))]
  else internal_error "Internal server error receiving file." error.

(** [app.post('/host/file_received', ...)]. The answer, or [None] when
    the process ends without one. *)
Definition host_file_received (body : json) : Jx (option Response) :=
  let name := prop body "name" in
  let mimeType := prop body "mime_type" in
  let bytes := prop body "bytes" in
  if negb (truthy name) || negb (truthy mimeType) || negb (truthy bytes) then
    retx (Some missing_file_fields)
  else
    match name, mimeType, bytes with
    | Some name', Some mimeType', Some bytes' =>
        fileId <- file_id_or_new (prop body "file_id") ;;
        try_catchx
          (fileDataBuffer <- (fun s => (Buffer_from_base64 bytes', s)) ;;
           run <- INSERT_file fileId name' mimeType' fileDataBuffer ;;
           match run with
           | None => retx None
           | Some _ =>
               retx (Some (respond 200 [("status", Some (JStr "file_received"));
                                        ("file_id", Some fileId)]))
           end)
          (fun error => retx (Some (file_received_failure error)))
    | _, _, _ => retx (Some missing_file_fields)
    end.

(** [SELECT name, mime_type, data FROM files WHERE id = ?]. *)
Definition SELECT_file (fileId : string) : Jx (list FileRow) :=
  id <- lift (bind_param (JStr fileId)) ;;
  registry_query (fun g => filter (fun f => String.eqb (file_id f) id) (files g)).

Definition setHeader (value : string) : Jx unit :=
  if header_value value then retx tt
  else throwx (TypeError "Invalid character in header content")%string.

(** [app.get('/message/file/:file_id', ...)]. *)
Definition message_file (fileId : string) : Jx Reply :=
  if String.eqb fileId "" then
    retx (Json (respond 400 [("message", Some (JStr "file_id parameter is required."))]))
  else
    try_catchx
      (rows <- SELECT_file fileId ;;
       match rows with
       | file :: _ =>
           setHeader (file_mime_type file) ;;;
           retx (Sent (file_mime_type file) (file_data file))
       | [] => retx (Json (respond 404 [("message", Some (JStr "File not found."))]))
       end)
      (fun error =>
         retx (Json (internal_error "Internal server error retrieving file." error))).

End Registry.

(** ** The viewer: the socket service and the conversation page
    (frontend) *)

(** [a === b] on two values decoded from different frames: scalars are
    compared by value, and two arrays or objects are never the same
    object. *)
Definition strict_eq (a b : option json) : bool :=
  match a, b with
  | None, None => true
  | Some JNull, Some JNull => true
  | Some (JBool x), Some (JBool y) => Bool.eqb x y
  | Some (JNum x), Some (JNum y) => (x =? y)%Z
  | Some (JStr x), Some (JStr y) => String.eqb x y
  | _, _ => false
  end.

(** [v.k] in a callback: reading a property of [null] throws. *)
Definition read (v : json) (k : string) : Completion (option json) :=
  match v with
  | JNull => Abrupt (TypeError ("Cannot read properties of null (reading '" ++ k ++ "')"))
  | _ => Normal (prop v k)
  end.

(** [Array.prototype.find] and [findIndex] ([None]: [undefined] and
    [-1]); the callback may throw. *)
Fixpoint Array_find (p : json -> Completion bool) (l : list json)
  : Completion (option json) :=
  match l with
  | [] => Normal None
  | m :: rest =>
      match p m with
      | Abrupt e => Abrupt e
      | Normal true => Normal (Some m)
      | Normal false => Array_find p rest
      end
  end.

Fixpoint Array_findIndex (p : json -> Completion bool) (l : list json)
  : Completion (option nat) :=
  match l with
  | [] => Normal None
  | m :: rest =>
      match p m with
      | Abrupt e => Abrupt e
      | Normal true => Normal (Some 0%nat)
      | Normal false =>
          match Array_findIndex p rest with
          | Normal (Some i) => Normal (Some (S i))
          | other => other
          end
      end
  end.

(** [copy[i] = v] for an index of the array. *)
Fixpoint set_at (i : nat) (v : json) (l : list json) : list json :=
  match l, i with
  | [], _ => []
  | _ :: rest, O => v :: rest
  | x :: rest, S j => x :: set_at j v rest
  end.

(** [m => m.id === message.data.id]. *)
Definition same_id (data : json) (m : json) : Completion bool :=
  match read m "id" with
  | Abrupt e => Abrupt e
  | Normal mid =>
      match read data "id" with
      | Abrupt e => Abrupt e
      | Normal id => Normal (strict_eq mid id)
      end
  end.

(** The function given to [setMessages]. *)
Definition setMessages_updater (data : json) (prevMessages : list json)
  : Completion (list json) :=
  match Array_find (same_id data) prevMessages with
  | Abrupt e => Abrupt e
  | Normal found =>
      if truthy found then Normal prevMessages
      else Normal (prevMessages ++ [data])
  end.

(** The function given to [setTasks]. *)
Definition setTasks_updater (data : json) (prevTasks : list json)
  : Completion (list json) :=
  match Array_findIndex (same_id data) prevTasks with
  | Abrupt e => Abrupt e
  | Normal (Some existingTaskIndex) => Normal (set_at existingTaskIndex data prevTasks)
  | Normal None => Normal (prevTasks ++ [data])
  end.

(** What [handleWebSocketMessage] of the conversation page does with a
    message: it calls [setMessages] or [setTasks] with an updater for
    the data of the message, or nothing. *)
Inductive Update : Type :=
| SetMessages (data : json)
| SetTasks (data : json)
| NoUpdate.

Definition handleWebSocketMessage (conversationId : string) (message : json)
  : Completion Update :=
  match read message "type" with
  | Abrupt e => Abrupt e
  | Normal type =>
      match prop message "data" with
      | Some data =>
          let for_this_page :=
            strict_eq (optional_chain (Some data) "conversation_id")
                      (Some (JStr conversationId)) in
          if strict_eq type (Some (JStr "new_message")) && for_this_page then
            Normal (SetMessages data)
          else if strict_eq type (Some (JStr "task_updated")) && for_this_page then
            Normal (SetTasks data)
          else Normal NoUpdate
      | None =>
          (* [message.data?.conversation_id] is [undefined], which is not
             the identifier of the page *)
          Normal NoUpdate
      end
  end.

Section Service.

Context {R : Runtime} {App : Type}.

(** A callback is known by its reference: two callbacks are the same
    function when their references are the same. The callbacks act on
    the state of the application. *)
Record Callback : Type := {
  ref : nat;
  call : json -> App -> Completion unit * App
}.

Record Service : Type := {
  (** [let socket = null]: the socket in use, among those built. *)
  socket : option nat;
  (** [const messageListeners = new Set()], in insertion order. *)
  messageListeners : list Callback;
  (** The sockets built so far and their [readyState], which the
      browser maintains. *)
  built : nat;
  socket_readyState : nat -> ReadyState;
  (** Every frame handed to a socket, oldest first. *)
  outbox : list (nat * string)
}.

Definition with_socket (k : option nat) (s : Service) : Service :=
  {| socket := k; messageListeners := messageListeners s; built := built s;
     socket_readyState := socket_readyState s; outbox := outbox s |}.

Definition with_messageListeners (l : list Callback) (s : Service) : Service :=
  {| socket := socket s; messageListeners := l; built := built s;
     socket_readyState := socket_readyState s; outbox := outbox s |}.

Definition with_socket_readyState (k : nat) (st : ReadyState) (s : Service) : Service :=
  {| socket := socket s; messageListeners := messageListeners s; built := built s;
     socket_readyState := fun j => if Nat.eqb j k then st else socket_readyState s j;
     outbox := outbox s |}.

(** [new WebSocket(WEBSOCKET_URL)]: the socket starts connecting. *)
Definition new_WebSocket (s : Service) : nat * Service :=
  (built s,
   {| socket := socket s; messageListeners := messageListeners s; built := S (built s);
      socket_readyState :=
        fun j => if Nat.eqb j (built s) then CONNECTING else socket_readyState s j;
      outbox := outbox s |}).

(** [socket.close()]: an open or connecting socket starts closing. *)
Definition WebSocket_close (k : nat) (s : Service) : Service :=
  match socket_readyState s k with
  | OPEN => with_socket_readyState k CLOSING s
  | CONNECTING => with_socket_readyState k CLOSING s
  | _ => s
  end.

(** [websocketService.connect()]. *)
Definition connect (s : Service) : Service :=
  let connected :=
    match socket s with
    | Some k =>
        match socket_readyState s k with
        | OPEN => true
        | CONNECTING => true
        | _ => false
        end
    | None => false
    end in
  if connected then s
  else let (k, s') := new_WebSocket s in with_socket (Some k) s'.

(** [websocketService.disconnect()]. *)
Definition disconnect (s : Service) : Service :=
  match socket s with
  | Some k => WebSocket_close k s
  | None => s
  end.

(** [messageListeners.add] and [messageListeners.delete]. *)
Definition listeners_add (c : Callback) (l : list Callback) : list Callback :=
  if existsb (fun d => Nat.eqb (ref d) (ref c)) l then l else l ++ [c].

Definition listeners_delete (c : Callback) (l : list Callback) : list Callback :=
  filter (fun d => negb (Nat.eqb (ref d) (ref c))) l.

(** [websocketService.onMessage(callback)]; [None] is a value that is
    not a function. *)
Definition onMessage (callback : option Callback) (s : Service) : Service :=
  match callback with
  | Some c => with_messageListeners (listeners_add c (messageListeners s)) s
  | None => s
  end.

(** [websocketService.offMessage(callback)]. *)
Definition offMessage (callback : option Callback) (s : Service) : Service :=
  match callback with
  | Some c => with_messageListeners (listeners_delete c (messageListeners s)) s
  | None => s
  end.

(** [websocketService.sendMessage(data)]. *)
Definition sendMessage (data : json) (s : Service) : Service :=
  match socket s with
  | Some k =>
      match socket_readyState s k with
      | OPEN =>
          {| socket := socket s; messageListeners := messageListeners s; built := built s;
             socket_readyState := socket_readyState s;
             outbox := outbox s ++ [(k, JSON_stringify data)] |}
      | _ => s
      end
  | None => s
  end.

(** [websocketService.getReadyState()]. *)
Definition getReadyState (s : Service) : ReadyState :=
  match socket s with
  | Some k => socket_readyState s k
  | None => CLOSED
  end.

(** [messageListeners.forEach(callback => callback(message))]. *)
Fixpoint forEach (l : list Callback) (message : json) (a : App) : Completion unit * App :=
  match l with
  | [] => (Normal tt, a)
  | c :: rest =>
      match call c message a with
      | (Normal _, a') => forEach rest message a'
      | (Abrupt e, a') => (Abrupt e, a')
      end
  end.

(** [socket.onmessage]: what is thrown by the decoder or by a callback
    is caught and logged. *)
Definition socket_onmessage (data : string) (s : Service) (a : App) : App :=
  match JSON_parse data with
  | Some message => snd (forEach (messageListeners s) message a)
  | None => a
  end.

(** [socket.onclose] and [socket.onerror]. *)
Definition socket_onclose (s : Service) : Service := with_socket None s.

Definition socket_onerror (s : Service) : Service :=
  match socket s with
  | Some k =>
      match socket_readyState s k with
      | CLOSED => s
      | _ => WebSocket_close k s
      end
  | None => s
  end.

(** What the browser does to a socket that was built: it sets its
    [readyState] and runs the handler [connect] gave it. Only a socket
    that is connecting opens. *)
Inductive BrowserEvent : Type :=
| Opens (k : nat)
| Receives (k : nat) (data : string)
| Closes (k : nat)
| Fails (k : nat).

Definition deliver (ev : BrowserEvent) (s : Service) (a : App) : Service * App :=
  match ev with
  | Opens k =>
      if Nat.ltb k (built s) then
        match socket_readyState s k with
        | CONNECTING => (with_socket_readyState k OPEN s, a)
        | _ => (s, a)
        end
      else (s, a)
  | Receives k data =>
      if Nat.ltb k (built s) then (s, socket_onmessage data s a) else (s, a)
  | Closes k =>
      if Nat.ltb k (built s) then (socket_onclose (with_socket_readyState k CLOSED s), a)
      else (s, a)
  | Fails k =>
      if Nat.ltb k (built s) then (socket_onerror s, a) else (s, a)
  end.

End Service.

(** ** A runtime to run the server on

    An executable instance of [Runtime], used to evaluate the server on
    concrete requests. Its codec covers the JSON fragment of [null],
    booleans, integers, strings (with the escapes of the quote and the
    backslash), arrays and objects; on that fragment it agrees with
    [JSON.stringify] and [JSON.parse]. *)

Module Mini.

Local Open Scope string_scope.

Definition quote : ascii := "034"%char.
Definition backslash : ascii := "092"%char.

Fixpoint escape (s : string) : string :=
  match s with
  | EmptyString => EmptyString
  | String c rest =>
      if Ascii.eqb c quote || Ascii.eqb c backslash
      then String backslash (String c (escape rest))
      else String c (escape rest)
  end.

Definition quoted (s : string) : string :=
  String quote (escape s ++ String quote EmptyString).

Fixpoint stringify (v : json) : string :=
  match v with
  | JNull => "null"
  | JBool true => "true"
  | JBool false => "false"
  | JNum n => DecimalString.NilZero.string_of_int (Z.to_int n)
  | JStr s => quoted s
  | JArr items =>
      "[" ++ (fix elements (l : list json) : string :=
                match l with
                | [] => ""
                | [x] => stringify x
                | x :: rest => stringify x ++ "," ++ elements rest
                end) items ++ "]"
  | JObj fields =>
      "{" ++ (fix members (l : list (string * json)) : string :=
                match l with
                | [] => ""
                | [(k, x)] => quoted k ++ ":" ++ stringify x
                | (k, x) :: rest => quoted k ++ ":" ++ stringify x ++ "," ++ members rest
                end) fields ++ "}"
  end.

Definition is_ws (c : ascii) : bool :=
  Ascii.eqb c " " || Ascii.eqb c "009" || Ascii.eqb c "010" || Ascii.eqb c "013".

Fixpoint skip_ws (s : string) : string :=
  match s with
  | String c rest => if is_ws c then skip_ws rest else s
  | EmptyString => s
  end.

Fixpoint strip_prefix (p s : string) : option string :=
  match p, s with
  | EmptyString, _ => Some s
  | String a p', String b s' => if Ascii.eqb a b then strip_prefix p' s' else None
  | String _ _, EmptyString => None
  end.

Definition digit_of (c : ascii) : option Z :=
  let n := nat_of_ascii c in
  if (48 <=? n)%nat && (n <=? 57)%nat then Some (Z.of_nat (n - 48)) else None.

Fixpoint digits (s : string) (acc : Z) : Z * string :=
  match s with
  | String c rest =>
      match digit_of c with
      | Some d => digits rest (10 * acc + d)%Z
      | None => (acc, s)
      end
  | EmptyString => (acc, s)
  end.

(** An integer literal: no leading zero, no fraction, no exponent. *)
Definition natural (s : string) : option (Z * string) :=
  match s with
  | String c rest =>
      match digit_of c with
      | Some d =>
          let (n, after) := digits rest d in
          let leading_zero :=
            match rest with
            | String c' _ => (d =? 0)%Z && match digit_of c' with Some _ => true | None => false end
            | EmptyString => false
            end in
          let fractional :=
            match after with
            | String c' _ => Ascii.eqb c' "." || Ascii.eqb c' "e" || Ascii.eqb c' "E"
            | EmptyString => false
            end in
          if leading_zero || fractional then None else Some (n, after)
      | None => None
      end
  | EmptyString => None
  end.

(** The characters of a string literal, after its opening quote. *)
Fixpoint characters (s : string) : option (string * string) :=
  match s with
  | EmptyString => None
  | String c rest =>
      if Ascii.eqb c quote then Some (EmptyString, rest)
      else if Ascii.eqb c backslash then
        match rest with
        | String e rest' =>
            if Ascii.eqb e quote || Ascii.eqb e backslash then
              match characters rest' with
              | Some (body, after) => Some (String e body, after)
              | None => None
              end
            else None
        | EmptyString => None
        end
      else if (nat_of_ascii c <? 32)%nat then None
      else
        match characters rest with
        | Some (body, after) => Some (String c body, after)
        | None => None
        end
  end.

(** A member before the members [later] of an object: of two members
    with one key the object keeps the place of the first and the value
    of the last. *)
Definition member (k : string) (x : json) (later : list (string * json))
  : list (string * json) :=
  match prop (JObj later) k with
  | Some y => (k, y) :: filter (fun kv => negb (String.eqb (fst kv) k)) later
  | None => (k, x) :: later
  end.

Fixpoint value (fuel : nat) (s : string) : option (json * string) :=
  match fuel with
  | O => None
  | S fuel' =>
      match skip_ws s with
      | EmptyString => None
      | String c rest =>
          if Ascii.eqb c "n" then option_map (pair JNull) (strip_prefix "ull" rest)
          else if Ascii.eqb c "t" then option_map (pair (JBool true)) (strip_prefix "rue" rest)
          else if Ascii.eqb c "f" then option_map (pair (JBool false)) (strip_prefix "alse" rest)
          else if Ascii.eqb c quote then
            match characters rest with
            | Some (str, after) => Some (JStr str, after)
            | None => None
            end
          else if Ascii.eqb c "-" then
            match natural rest with
            | Some (n, after) => Some (JNum (- n), after)
            | None => None
            end
          else if Ascii.eqb c "[" then
            match skip_ws rest with
            | String "]" after => Some (JArr [], after)
            | _ =>
                match elements fuel' rest with
                | Some (items, after) => Some (JArr items, after)
                | None => None
                end
            end
          else if Ascii.eqb c "{" then
            match skip_ws rest with
            | String "}" after => Some (JObj [], after)
            | _ =>
                match members fuel' rest with
                | Some (fields, after) => Some (JObj fields, after)
                | None => None
                end
            end
          else
            match natural (String c rest) with
            | Some (n, after) => Some (JNum n, after)
            | None => None
            end
      end
  end
with elements (fuel : nat) (s : string) : option (list json * string) :=
  match fuel with
  | O => None
  | S fuel' =>
      match value fuel' s with
      | Some (x, after) =>
          match skip_ws after with
          | String "]" after' => Some ([x], after')
          | String "," after' =>
              match elements fuel' after' with
              | Some (xs, after'') => Some (x :: xs, after'')
              | None => None
              end
          | _ => None
          end
      | None => None
      end
  end
with members (fuel : nat) (s : string) : option (list (string * json) * string) :=
  match fuel with
  | O => None
  | S fuel' =>
      match skip_ws s with
      | String c rest =>
          if Ascii.eqb c quote then
            match characters rest with
            | Some (k, after) =>
                match skip_ws after with
                | String ":" after' =>
                    match value fuel' after' with
                    | Some (x, after'') =>
                        match skip_ws after'' with
                        | String "}" final => Some ([(k, x)], final)
                        | String "," more =>
                            match members fuel' more with
                            | Some (xs, final) => Some (member k x xs, final)
                            | None => None
                            end
                        | _ => None
                        end
                    | None => None
                    end
                | _ => None
                end
            | None => None
            end
          else None
      | EmptyString => None
      end
  end.

Definition parse (s : string) : option json :=
  match value (2 * String.length s + 2) s with
  | Some (v, after) =>
      match skip_ws after with
      | EmptyString => Some v
      | String _ _ => None
      end
  | None => None
  end.

(** The string of a value in a template literal. *)
Fixpoint to_string (v : json) : string :=
  match v with
  | JNull => "null"
  | JBool true => "true"
  | JBool false => "false"
  | JNum n => DecimalString.NilZero.string_of_int (Z.to_int n)
  | JStr s => s
  | JArr items =>
      (fix join (l : list json) : string :=
         match l with
         | [] => ""
         | [x] => match x with JNull => "" | _ => to_string x end
         | x :: rest => match x with JNull => "" | _ => to_string x end ++ "," ++ join rest
         end) items
  | JObj _ => "[object Object]"
  end.

(** The text the driver binds to a TEXT parameter: a string as it is,
    a number, a boolean, an array or an object as its string; [null],
    which it binds as NULL, is not a text. *)
Definition bind (v : json) : option string :=
  match v with
  | JNull => None
  | _ => Some (to_string v)
  end.

(** The runtime with clock [clock] and random source [random16]. *)
Definition runtime (clock random16 : nat -> Z) : Runtime :=
  {| JSON_stringify := stringify;
     JSON_parse := parse;
     Math_random16 := random16;
     system_clock := clock;
     toISOString := fun t => DecimalString.NilZero.string_of_int (Z.to_int t);
     bind_text := bind;
     bind_text_string := fun s => eq_refl;
     PYTHON_ADK_HOST_BASE_URL := "http://localhost:8000" |}.

(** A clock that advances at each reading, a clock that stands still
    and a random source that cycles through the sixteen digits. *)
Definition ticking : nat -> Z := fun k => Z.of_nat (1000 + k).
Definition frozen : nat -> Z := fun _ => 1000%Z.
Definition cycling : nat -> Z := fun k => Z.of_nat (k mod 16).

(** Base64 as [Buffer.from] reads it: the characters outside the
    alphabet are skipped and the padding ends the data. *)
Definition sextet (c : ascii) : option N :=
  let n := N_of_ascii c in
  if ((65 <=? n) && (n <=? 90))%N then Some (n - 65)%N
  else if ((97 <=? n) && (n <=? 122))%N then Some (n - 71)%N
  else if ((48 <=? n) && (n <=? 57))%N then Some (n + 4)%N
  else if ((n =? 43) || (n =? 45))%N then Some 62%N
  else if ((n =? 47) || (n =? 95))%N then Some 63%N
  else None.

Fixpoint base64 (s : string) (acc bits : N) : list Byte.byte :=
  match s with
  | EmptyString => []
  | String c rest =>
      if Ascii.eqb c "=" then []
      else
        match sextet c with
        | None => base64 rest acc bits
        | Some v =>
            let acc' := (acc * 64 + v)%N in
            let bits' := (bits + 6)%N in
            if (8 <=? bits')%N then
              byte_of_ascii (ascii_of_N (acc' / 2 ^ (bits' - 8)))
              :: base64 rest (acc' mod 2 ^ (bits' - 8))%N (bits' - 8)%N
            else base64 rest acc' bits'
        end
  end.

Definition buffer (v : json) : Completion (list Byte.byte) :=
  match v with
  | JStr s => Normal (base64 s 0 0)
  | _ => Abrupt (TypeError "The first argument must be of type string or an instance of Buffer, ArrayBuffer, or Array or an Array-like Object.")
  end.

(** The cast of a string to a BLOB in the store: [\xNN], with two
    hexadecimal digits, is the byte [NN]; a backslash that does not
    start such an escape and a byte above 127 are refused; any other
    byte is kept. *)
Definition hex (b : Byte.byte) : option N :=
  let n := Byte.to_N b in
  if ((48 <=? n) && (n <=? 57))%N then Some (n - 48)%N
  else if ((97 <=? n) && (n <=? 102))%N then Some (n - 87)%N
  else if ((65 <=? n) && (n <=? 70))%N then Some (n - 55)%N
  else None.

Fixpoint blob (l : list Byte.byte) : option (list Byte.byte) :=
  match l with
  | [] => Some []
  | b :: rest =>
      if (Byte.to_N b =? 92)%N then
        match rest with
        | x :: h :: l' :: rest' =>
            match (Byte.to_N x =? 120)%N, hex h, hex l' with
            | true, Some high, Some low =>
                match Byte.of_N (16 * high + low), blob rest' with
                | Some c, Some data => Some (c :: data)
                | _, _ => None
                end
            | _, _, _ => None
            end
        | _ => None
        end
      else if (Byte.to_N b <=? 127)%N then
        match blob rest with
        | Some data => Some (b :: data)
        | None => None
        end
      else None
  end.

(** A header value holds no control character. *)
Fixpoint printable (s : string) : bool :=
  match s with
  | EmptyString => true
  | String c rest =>
      let n := N_of_ascii c in
      ((n =? 9) || ((32 <=? n) && negb (n =? 127)))%N && printable rest
  end.

Definition platform : Platform :=
  {| template := to_string;
     template_string := fun s => eq_refl;
     duplicate_url := fun url =>
       "Constraint Error: Duplicate key url: " ++ url ++ " violates unique constraint.";
     Buffer_from_base64 := buffer;
     bind_blob := blob;
     header_value := printable |}.

End Mini.


(** ** A scenario to run the server on *)

Module Scenario.

Definition ticking_runtime : Runtime := Mini.runtime Mini.ticking Mini.cycling.
Definition frozen_runtime : Runtime := Mini.runtime Mini.frozen Mini.cycling.

(** A store that holds the conversation [c1] and nothing else. *)
Definition store : Database :=
  {| conversations := [{| conv_id := "c1"; conv_name := "Conversation";
                          conv_is_active := true; conv_created_at := 0 |}];
     messages := []; tasks := []; task_artifacts := [] |}.

(** Two viewers are connected, both with an open socket. *)
Definition world : World :=
  {| db := store; clients := [1; 2]%nat; readyState := fun _ => OPEN; wire := [];
     currentApiKey := "secret"; fetch_loaded := true; draws := 0; reads := 0 |}.

Definition text_part (s : string) : json :=
  JArr [JObj [("type", JStr "text"); ("text", JStr s)]].

(** [{ id: "t1", contextId: "c1", status: "working",
       artifacts: [{ artifactId: "r1", content: [{type: "text", text}] }] }]. *)
Definition task_update (text : string) : json :=
  JObj [("id", JStr "t1"); ("contextId", JStr "c1"); ("status", JStr "working");
        ("artifacts", JArr [JObj [("artifactId", JStr "r1");
                                  ("content", text_part text)]])].

(** An event with a well-formed artifact and one that lacks its
    content. *)
Definition mixed_entries : list json :=
  [JObj [("artifactId", JStr "r1"); ("content", text_part "a")];
   JObj [("artifactId", JStr "r2")]].

Definition mixed_update : json :=
  JObj [("id", JStr "t1"); ("contextId", JStr "c1"); ("status", JStr "working");
        ("artifacts", JArr mixed_entries)].

(** [{ id: "t1", contextId: "c1", status }], an event without
    artifacts. *)
Definition plain_update (status : string) : json :=
  JObj [("id", JStr "t1"); ("contextId", JStr "c1"); ("status", JStr status)].

(** An event whose second artifact is [null], between two artifacts
    that have their ref and their content. *)
Definition null_update : json :=
  JObj [("id", JStr "t1"); ("contextId", JStr "c1"); ("status", JStr "working");
        ("artifacts", JArr [JObj [("artifactId", JStr "r1"); ("content", text_part "a")];
                            JNull;
                            JObj [("artifactId", JStr "r2"); ("content", text_part "b")]])].

(** An event that carries the ref [r1] twice. *)
Definition doubled_update : json :=
  JObj [("id", JStr "t1"); ("contextId", JStr "c1"); ("status", JStr "working");
        ("artifacts", JArr [JObj [("artifactId", JStr "r1"); ("content", text_part "a")];
                            JObj [("artifactId", JStr "r1"); ("content", text_part "b")]])].

(** A store in which the payloads of task [t1] do not decode. *)
Definition corrupt_store : Database :=
  {| conversations := conversations store;
     messages := [];
     tasks := [{| task_id := "t1"; task_conversation_id := "c1"; task_status := "working";
                  task_state_details := Some "{oops";
                  task_created_at := 10; task_updated_at := 10 |}];
     task_artifacts := [{| art_id := "a1"; art_task_id := "t1";
                           art_artifact_id_ref := Some "r0";
                           art_content := "not json"; art_created_at := 11 |}] |}.

Definition corrupt_world : World :=
  {| db := corrupt_store; clients := [1; 2]%nat; readyState := fun _ => OPEN; wire := [];
     currentApiKey := "secret"; fetch_loaded := true; draws := 0; reads := 0 |}.

(** A host that answers every request with HTTP 500 and the body
    [boom]. *)
Definition failing_host : Host :=
  fun _ => Resolved {| status := 500; statusText := "Internal Server Error";
                       body_read := BodyText "boom" |}.

(** A host that cannot be reached, and a host that answers 200 with a
    body that reads as the failure of the first. *)
Definition unreachable : JsError :=
  {| err_message := "connect ECONNREFUSED"; err_stack := "FetchError: connect ECONNREFUSED" |}.

Definition unreachable_host : Host := fun _ => Rejected unreachable.

Definition masquerading_host : Host :=
  fun _ => Resolved {| status := 200; statusText := "OK";
                       body_read := BodyText (Mini.stringify (caught_failure unreachable)) |}.

(** [{ conversation_id: "c1", role: "user", content: [{type: "text", text: "hi"}] }]. *)
Definition user_message : json :=
  JObj [("conversation_id", JStr "c1"); ("role", JStr "user");
        ("content", text_part "hi")].

(** The second viewer's socket is closing; its [close] event has not
    fired yet. *)
Definition stale_world : World :=
  {| db := store; clients := [1; 2]%nat;
     readyState := fun ws => if Nat.eqb ws 2 then CLOSING else OPEN; wire := [];
     currentApiKey := "secret"; fetch_loaded := true; draws := 0; reads := 0 |}.

(** A host that accepts every request and answers the empty object,
    and one that answers with a name. *)
Definition accepting_host : Host :=
  fun _ => Resolved {| status := 200; statusText := "OK"; body_read := BodyText "{}" |}.

Definition naming_host : Host :=
  fun _ => Resolved {| status := 200; statusText := "OK";
                       body_read := BodyText (Mini.stringify (JObj [("name", JStr "Trip")])) |}.

(** The identifier the first call of [generateUUID] returns. *)
Definition first_id : string :=
  fst (@replace_xy ticking_runtime uuid_template 0).


(** An event for a conversation the store does not hold. *)
Definition stray_update : json :=
  JObj [("id", JStr "t1"); ("contextId", JStr "c9"); ("status", JStr "working")].

(** The server with no agent and no file, and a host that describes
    the agent it registers. *)
Definition server : Server := ({| agents := []; files := [] |}, world).

Definition agent_request : json := JObj [("agent_url", JStr "http://agent.test")].

Definition agent_card : json :=
  JObj [("data", JObj [("name", JStr "Helper"); ("icon", JStr "robot")])].

Definition describing_host : Host :=
  fun _ => Resolved {| status := 200; statusText := "OK";
                       body_read := BodyText (Mini.stringify agent_card) |}.

(** A service of the viewer that is connected through its first
    socket, with no listener. *)
Definition connected_service : @Service unit :=
  {| socket := Some 0%nat; messageListeners := []; built := 1;
     socket_readyState := fun _ => OPEN; outbox := [] |}.

(** A message of the conversation [c1], and the task [t1] as the page
    of [c1] shows it and as a later snapshot gives it. *)
Definition shown_message : json :=
  JObj [("id", JStr "m1"); ("conversation_id", JStr "c1"); ("role", JStr "user")].

Definition shown_task : json :=
  JObj [("id", JStr "t1"); ("conversation_id", JStr "c1"); ("status", JStr "working")].

Definition completed_task : json :=
  JObj [("id", JStr "t1"); ("conversation_id", JStr "c1"); ("status", JStr "completed")].

(** The file [hi], encoded. *)
Definition file_request : json :=
  JObj [("file_id", JStr "f1"); ("name", JStr "hi.txt");
        ("mime_type", JStr "text/plain"); ("bytes", JStr "aGk=")].

(** The file of the four bytes [5c 78 34 31], which spell [\x41], and
    the file of the one byte [80], encoded. *)
Definition escape_request : json :=
  JObj [("file_id", JStr "f2"); ("name", JStr "escape.txt");
        ("mime_type", JStr "text/plain"); ("bytes", JStr "XHg0MQ==")].

Definition binary_request : json :=
  JObj [("file_id", JStr "f3"); ("name", JStr "one.bin");
        ("mime_type", JStr "application/octet-stream"); ("bytes", JStr "gA==")].

End Scenario.

(** ** Vocabulary of the properties *)

Section Vocabulary.

Context {R : Runtime}.

(** A task-update event with its three mandatory fields, each a
    non-empty string. *)
Definition task_event (body : json) (tid cid st : string) : Prop :=
  prop body "id" = Some (JStr tid) /\
  prop body "contextId" = Some (JStr cid) /\
  prop body "status" = Some (JStr st) /\
  tid <> "" /\ cid <> "" /\ st <> "".

Definition mandatory_field_absent (body : json) : Prop :=
  prop body "id" = None \/ prop body "contextId" = None \/ prop body "status" = None.

(** The guarded block of [host_task_update] on such an event. *)
Definition reconcile (body : json) (tid cid st : string) : Js Response :=
  upsert_task (JStr tid) (JStr cid) (JStr st)
    (JSON_stringify (js_or (prop body "state_details") (JStr st))) ;;;
  store_artifacts (JStr tid) (prop body "artifacts") ;;;
  publish_snapshot (JStr tid) ;;;
  ret (received (JStr tid)).

Definition by_id (tid : string) (t : TaskRow) : bool := String.eqb (task_id t) tid.

(** The rows of [tasks] after the upsert of a task at instant [now]. *)
Definition upserted (tid cid st sd : string) (now : Z) (ts : list TaskRow) : list TaskRow :=
  if existsb (by_id tid) ts
  then map (fun t => if by_id tid t then set_task cid st sd now t else t) ts
  else ts ++ [{| task_id := tid; task_conversation_id := cid; task_status := st;
                 task_state_details := Some sd;
                 task_created_at := now; task_updated_at := now |}].

(** The clock never runs backwards. *)
Definition clock_monotone : Prop :=
  forall i j, (i <= j)%nat -> (system_clock i <= system_clock j)%Z.

(** [frame P m]: [m] relates the state it starts in to the state it ends
    in by [P], however it completes. *)
Definition frame {A} (P : World -> World -> Prop) (m : Js A) : Prop :=
  forall w, P w (snd (m w)).

(** The tables [tasks] and [conversations] are untouched and no reading
    of the clock is undone. *)
Definition same_tasks (w w' : World) : Prop :=
  tasks (db w') = tasks (db w) /\
  conversations (db w') = conversations (db w) /\
  (reads w <= reads w')%nat.

Definition same_db (w w' : World) : Prop := db w' = db w.

(** The key of [tasks] stays a key. *)
Definition keeps_task_key (w w' : World) : Prop :=
  NoDup (map task_id (tasks (db w))) -> NoDup (map task_id (tasks (db w'))).

Definition same_sockets (w w' : World) : Prop :=
  clients w' = clients w /\ readyState w' = readyState w /\ wire w' = wire w.

(** The status a handler answers with, when it answers. *)
Definition answered (r : Completion Response) : option Z :=
  match r with
  | Normal x => Some (http_status x)
  | Abrupt _ => None
  end.

(** Two reconciliations of one event yield exactly one row of its
    task. *)
Definition yields_one_task_row (body : json) (tid : string) (w : World) : Prop :=
  let w1 := snd (host_task_update body w) in
  let w2 := snd (host_task_update body w1) in
  exists t, filter (by_id tid) (tasks (db w2)) = [t].

(** The [updated_at] of the task, read from its row. *)
Definition updated_at_of (tid : string) (w : World) : option Z :=
  match filter (by_id tid) (tasks (db w)) with
  | t :: _ => Some (task_updated_at t)
  | [] => None
  end.

(** Strict increase of [updated_at] across two successive
    reconciliations of a task. *)
Definition updated_at_strictly_increases (body1 body2 : json) (tid : string) (w : World)
  : Prop :=
  let w1 := snd (host_task_update body1 w) in
  let w2 := snd (host_task_update body2 w1) in
  forall u1 u2,
    updated_at_of tid w1 = Some u1 -> updated_at_of tid w2 = Some u2 -> (u1 < u2)%Z.

(** The rows of [task_artifacts] of one artifact ref of a task. *)
Definition artifacts_of (tid ref : string) (w : World) : list ArtifactRow :=
  filter (fun a => String.eqb (art_task_id a) tid
                   && match art_artifact_id_ref a with
                      | Some r => String.eqb r ref
                      | None => false
                      end)
         (task_artifacts (db w)).

(** The guard of the loop over [artifacts], negated. *)
Definition artifact_accepted (a : json) : bool :=
  truthy (prop a "artifactId") && truthy (prop a "content").

(** An event that gives the task no artifact: it has no array of
    artifacts, or the guard of the loop accepts none of its entries. *)
Definition stores_no_artifact (body : json) : Prop :=
  match prop body "artifacts" with
  | Some (JArr entries) => Forall (fun a => artifact_accepted a = false) entries
  | _ => True
  end.

(** A malformed entry lacks its ref or its content: the field is
    absent, or holds a falsy value such as the empty string. The entry
    [null] is malformed: it has neither field. *)
Definition malformed_entry (a : json) : Prop :=
  truthy (prop a "artifactId") = false \/ truthy (prop a "content") = false.

(** An entry the loop skips: a malformed entry other than [null]. The
    entry [null] is not skipped: reading its [artifactId] throws. An
    entry the loop stores has both fields: a non-empty string for ref,
    content that is not falsy. *)
Definition skipped_entry (a : json) : Prop := a <> JNull /\ malformed_entry a.

Definition well_formed_entry (a : json) : Prop :=
  exists ref content,
    prop a "artifactId" = Some (JStr ref) /\ ref <> "" /\
    prop a "content" = Some content /\ truthy (Some content) = true.

Definition entry_of_event (a : json) : Prop := skipped_entry a \/ well_formed_entry a.

(** The [artifacts] of an event, when an array, holds such entries. *)
Definition artifacts_of_event (body : json) : Prop :=
  match prop body "artifacts" with
  | Some (JArr entries) => Forall entry_of_event entries
  | _ => True
  end.

(** Row [row] stores entry [a] for task [tid]. *)
Definition stored_as (tid : string) (row : ArtifactRow) (a : json) : Prop :=
  art_task_id row = tid /\
  exists ref content,
    prop a "artifactId" = Some (JStr ref) /\ prop a "content" = Some content /\
    art_artifact_id_ref row = Some ref /\ art_content row = JSON_stringify content.

(** The identifier [generateUUID] returns after [k] draws, and the
    number of draws it makes. *)
Definition uuid_at (k : nat) : string := fst (replace_xy uuid_template k).

Fixpoint count_xy (template : string) : nat :=
  match template with
  | EmptyString => 0
  | String c rest =>
      if Ascii.eqb c "x" || Ascii.eqb c "y" then S (count_xy rest) else count_xy rest
  end.

(** The identifiers of [n] successive calls that start after [k] draws. *)
Fixpoint uuids (k n : nat) : list string :=
  match n with
  | O => []
  | S n' => uuid_at k :: uuids (k + 31) n'
  end.

(** The next [n] identifiers are new: distinct from each other and from
    the keys of [task_artifacts], themselves distinct. *)
Definition fresh_ids (w : World) (n : nat) : Prop :=
  NoDup (uuids (draws w) n ++ map art_id (task_artifacts (db w))).

(** The subscribers a broadcast reaches, and the frames it sends them. *)
Definition open_clients (w : World) : list WebSocket :=
  filter (fun c => is_OPEN (readyState w c)) (clients w).

Definition frames (data : string) (cs : list WebSocket) : list (WebSocket * string) :=
  map (fun c => (c, data)) cs.

(** The rows [getTaskWithArtifacts] reads for a task. *)
Definition artifact_rows (tid : string) (w : World) : list ArtifactRow :=
  ORDER_BY_created_at_ASC
    (filter (fun a => String.eqb (art_task_id a) tid) (task_artifacts (db w))).

(** [item] is artifact row [a] as a snapshot carries it: its columns,
    and its content decoded, or the placeholder when it does not
    decode. *)
Definition artifact_item (a : ArtifactRow) (item : json) : Prop :=
  prop item "id" = Some (JStr (art_id a)) /\
  prop item "task_id" = Some (JStr (art_task_id a)) /\
  prop item "artifact_id_ref" = Some (null_or_string (art_artifact_id_ref a)) /\
  prop item "created_at" = Some (JStr (toISOString (art_created_at a))) /\
  (forall v, JSON_parse (art_content a) = Some v -> prop item "content" = Some v) /\
  (JSON_parse (art_content a) = None ->
   prop item "content" = Some artifact_content_placeholder).

(** [data] is the snapshot of task row [t] with artifact rows [rows]:
    a payload that does not decode is replaced by its placeholder and
    every other field is the one of the row. *)
Definition snapshot_of (t : TaskRow) (rows : list ArtifactRow) (data : json) : Prop :=
  prop data "id" = Some (JStr (task_id t)) /\
  prop data "conversation_id" = Some (JStr (task_conversation_id t)) /\
  prop data "status" = Some (JStr (task_status t)) /\
  prop data "created_at" = Some (JStr (toISOString (task_created_at t))) /\
  prop data "updated_at" = Some (JStr (toISOString (task_updated_at t))) /\
  (forall s v, task_state_details t = Some s -> s <> "" -> JSON_parse s = Some v ->
               prop data "state_details" = Some v) /\
  (forall s, task_state_details t = Some s -> s <> "" -> JSON_parse s = None ->
             prop data "state_details" = Some state_details_placeholder) /\
  exists items,
    prop data "artifacts" = Some (JArr items) /\ Forall2 artifact_item rows items.

Definition frame_eq_dec (a b : WebSocket * string) : {a = b} + {a <> b}.
Proof. decide equality; [apply string_dec | apply Nat.eq_dec]. Defined.

(** How many times frame [data] for subscriber [c] occurs in [fs]. *)
Definition deliveries (c : WebSocket) (data : string) (fs : list (WebSocket * string)) : nat :=
  count_occ frame_eq_dec fs (c, data).

(** An inbound message is relayed verbatim: every connected subscriber
    is sent the very payload. *)
Definition relayed_verbatim (ws : WebSocket) (message : string) (w : World) : Prop :=
  forall c, In c (clients w) -> In (c, message) (wire (snd (on_message ws message w))).

(** The requests the gateway sends. *)
Definition register_request (agentUrl : json) (w : World) : HttpRequest :=
  {| req_url := PYTHON_ADK_HOST_BASE_URL ++ "/register_agent_service";
     req_method := "POST";
     req_headers := json_headers (currentApiKey w);
     req_body := Some (JSON_stringify (JObj [("agent_url", agentUrl)])) |}.

Definition conversation_request (w : World) : HttpRequest :=
  {| req_url := PYTHON_ADK_HOST_BASE_URL ++ "/create_conversation_service";
     req_method := "POST";
     req_headers := json_headers (currentApiKey w);
     req_body := None |}.

Definition message_request (messageData : json) (w : World) : HttpRequest :=
  {| req_url := PYTHON_ADK_HOST_BASE_URL ++ "/send_message_service";
     req_method := "POST";
     req_headers := json_headers (currentApiKey w);
     req_body := Some (JSON_stringify messageData) |}.

(** [result] is tagged as a failure. *)
Definition tagged_error (result : json) : Prop :=
  prop result "error" = Some (JBool true).

(** How [result] reports the outcome of a call: a transport failure, a
    non-success status and a body that cannot be read or decoded are
    tagged as failures, the non-success status with its code and the
    body as received; the decoded body of a success is returned as it
    is. *)
Definition reports (outcome : FetchResult) (result : json) : Prop :=
  match outcome with
  | Rejected e =>
      tagged_error result /\ prop result "message" = Some (JStr (err_message e))
  | Resolved response =>
      match body_read response with
      | BodyFailure e => tagged_error result
      | BodyText text =>
          if ok response then
            match JSON_parse text with
            | Some data => result = data
            | None => tagged_error result
            end
          else
            tagged_error result /\
            prop result "status" = Some (JNum (status response)) /\
            prop result "details" = Some (JStr text)
      end
  end.

(** The three outcomes of a call, and the claim that the result is
    tagged with its outcome: some reading of the result tells, for every
    host, which of the three occurred. *)
Inductive Outcome : Type := TransportFailure | NonSuccessStatus | Success.

Definition outcome_of (o : FetchResult) : Outcome :=
  match o with
  | Rejected _ => TransportFailure
  | Resolved response => if ok response then Success else NonSuccessStatus
  end.

Definition outcomes_are_tagged : Prop :=
  exists tag : json -> Outcome,
    forall host messageData w result,
      fetch_loaded w = true ->
      fst (sendMessageToHost host messageData w) = Normal result ->
      tag result = outcome_of (host (message_request messageData w)).

(** The contract of a gateway call [call] that sends [request]: it
    completes normally, leaves the process as it was and reports the
    outcome; without a fetch client it returns a tagged failure. *)
Definition gateway_contract (host : Host) (w : World) (call : Js json)
  (request : HttpRequest) : Prop :=
  exists result,
    call w = (Normal result, w) /\
    if fetch_loaded w then reports (host request) result else tagged_error result.

(** A request to [/message/send] that passes validation. *)
Definition message_request_valid (body : json) : Prop :=
  truthy (prop body "conversation_id") = true /\
  (prop body "role" = Some (JStr "user") \/ prop body "role" = Some (JStr "agent")) /\
  exists parts, prop body "content" = Some (JArr parts).

End Vocabulary.

(** ** Vocabulary of the further properties *)

Section MoreVocabulary.

Context {R : Runtime}.

(** Hexadecimal digits, and the four digits of the variant of a
    version 4 identifier. *)
Definition is_hex (c : ascii) : bool :=
  let n := nat_of_ascii c in
  ((48 <=? n) && (n <=? 57) || (97 <=? n) && (n <=? 102))%nat.

Definition is_variant (c : ascii) : bool :=
  Ascii.eqb c "8" || Ascii.eqb c "9" || Ascii.eqb c "a" || Ascii.eqb c "b".

(** [out] fills [template]: a hexadecimal digit for each [x], a variant
    digit for each [y], the character of the template elsewhere. *)
Fixpoint fills (template out : string) : Prop :=
  match template, out with
  | EmptyString, EmptyString => True
  | String c template', String d out' =>
      (if Ascii.eqb c "x" then is_hex d = true
       else if Ascii.eqb c "y" then is_variant d = true
       else d = c) /\ fills template' out'
  | _, _ => False
  end.

(** Every draw of [Math.random() * 16 | 0] is one of 0, ..., 15. *)
Definition draws_in_range : Prop :=
  forall k, (0 <= Math_random16 k < 16)%Z.

(** The events of the WebSocket server and their handlers. *)
Inductive SocketEvent : Type :=
| Connection (ws : WebSocket)
| Message (ws : WebSocket) (data : string)
| Close (ws : WebSocket)
| Error (ws : WebSocket).

Definition handle (ev : SocketEvent) : Js unit :=
  match ev with
  | Connection ws => on_connection ws
  | Message ws data => on_message ws data
  | Close ws => on_close ws
  | Error ws => on_error ws
  end.

(** The process after a sequence of events, handled in order. *)
Fixpoint handle_all (evs : list SocketEvent) (w : World) : World :=
  match evs with
  | [] => w
  | ev :: rest => handle_all rest (snd (handle ev w))
  end.

(** The frame a new connection is greeted with. *)
Definition greeting : json :=
  JObj [("type", JStr "system"); ("message", JStr "Connected to WebSocket server")].

(** [l] is in the order of [before]: no row sorts strictly before a row
    that precedes it. *)
Definition in_order {A} (before : A -> A -> bool) (l : list A) : Prop :=
  StronglySorted (fun a b => before b a = false) l.

(** The name [/conversation/create] gives a conversation: the one the
    host returns or, without one, [Conversation] and the first eight
    characters of the identifier. *)
Definition chosen_name (hostResponse : json) (conversationId : string) : json :=
  js_or (prop hostResponse "name") (JStr ("Conversation " ++ substring_0_8 conversationId)).

Definition new_conversation (conversationId : string) (name : json) (now : Z) : json :=
  JObj [("id", JStr conversationId); ("name", name); ("is_active", JBool true);
        ("created_at", JStr (toISOString now))].

(** A request to [/message/send] that fails validation. *)
Definition message_request_invalid (body : json) : Prop :=
  truthy (prop body "conversation_id") = false \/
  Array_isArray (prop body "content") = false \/
  (prop body "role" <> Some (JStr "user") /\ prop body "role" <> Some (JStr "agent")).

(** The task a message is stored under: the [task_id] of the request
    when it is a non-empty string, none when the request has no
    [task_id] (or a falsy one). *)
Definition stored_task_id (body : json) (tid : option string) : Prop :=
  match tid with
  | Some t => prop body "task_id" = Some (JStr t) /\ t <> ""
  | None => truthy (prop body "task_id") = false
  end.

Definition new_message (data : json) : json :=
  JObj [("type", JStr "new_message"); ("data", data)].

(** The payload of [new_message] and of the answer of
    [/message/send]. *)
Definition message_payload (id cid : string) (tid : option string) (role : string)
  (content : json) (now : Z) : json :=
  JObj [("id", JStr id); ("conversation_id", JStr cid);
        ("task_id", null_or_string tid); ("role", JStr role);
        ("content", content); ("created_at", JStr (toISOString now))].

(** [item] is message row [m] as [/message/list] returns it: its
    columns, and its content decoded, or the placeholder when it does
    not decode. *)
Definition message_item (m : MessageRow) (item : json) : Prop :=
  prop item "id" = Some (JStr (msg_id m)) /\
  prop item "conversation_id" = Some (JStr (msg_conversation_id m)) /\
  prop item "task_id" = Some (null_or_string (msg_task_id m)) /\
  prop item "role" = Some (JStr (msg_role m)) /\
  prop item "created_at" = Some (JStr (toISOString (msg_created_at m))) /\
  (forall v, JSON_parse (msg_content m) = Some v -> prop item "content" = Some v) /\
  (JSON_parse (msg_content m) = None ->
   prop item "content" = Some message_content_placeholder).

(** The messages of a conversation and the tasks [/task/list] selects:
    those of the conversation asked for, or all of them. *)
Definition messages_of (cid : string) (w : World) : list MessageRow :=
  filter (fun m => String.eqb (msg_conversation_id m) cid) (messages (db w)).

Definition tasks_selected (sel : option string) (w : World) : list TaskRow :=
  match sel with
  | Some cid => filter (fun t => String.eqb (task_conversation_id t) cid) (tasks (db w))
  | None => tasks (db w)
  end.

(** The conversation a request to [/task/list] asks for: a non-empty
    string, or none when the field is absent or falsy. *)
Definition selects (body : json) (sel : option string) : Prop :=
  match sel with
  | Some cid => prop body "conversation_id" = Some (JStr cid) /\ cid <> ""
  | None => truthy (prop body "conversation_id") = false
  end.

End MoreVocabulary.

(** ** Vocabulary of the viewer *)

(** The identifiers of the entries a page shows, and whether it shows
    an entry of identifier [id]. *)
Definition ids (l : list json) : list (option json) := map (fun m => prop m "id") l.

Definition has_id (id : string) (m : json) : bool :=
  strict_eq (prop m "id") (Some (JStr id)).

Definition shows (l : list json) (id : string) : bool := existsb (has_id id) l.

(** ** Vocabulary of the registry and the file store *)

Section RegistryVocabulary.

Context {R : Runtime} {P : Platform}.

(** The name and the description [/agent/register] stores: those the
    host gave, or the defaults. *)
Definition agent_name_for (hostResponse agentUrl : json) : json :=
  js_or (optional_chain (prop hostResponse "data") "name")
        (JStr ("Agent at " ++ template agentUrl)).

Definition agent_description_for (hostResponse : json) : json :=
  js_or (optional_chain (prop hostResponse "data") "description")
        (JStr "No description provided.").

Definition agent_icon_for (hostResponse : json) : option json :=
  optional_chain (prop hostResponse "data") "icon".

(** The text a value that is defined is stored as: NULL when it is
    [null], the text the driver binds otherwise. A value that is
    [undefined] is not stored. *)
Definition nullable_text (v : option json) (text : option string) : Prop :=
  match v with
  | None => False
  | Some JNull => text = None
  | Some x => exists t, bind_text x = Some t /\ text = Some t
  end.

(** The data of the [agent_registered] event. *)
Definition new_agent (id : string) (hostResponse agentUrl : json) (now : Z) : json :=
  JObj (object [("id", Some (JStr id));
                ("url", Some agentUrl);
                ("name", Some (agent_name_for hostResponse agentUrl));
                ("description", Some (agent_description_for hostResponse));
                ("icon", agent_icon_for hostResponse);
                ("created_at", Some (JStr (toISOString now)))]).

Definition agent_urls (s : Server) : list string := map agent_url (agents (fst s)).

Definition agent_known (s : Server) (url : string) : bool :=
  existsb (fun a => String.eqb (agent_url a) url) (agents (fst s)).

Definition agent_id_used (s : Server) (id : string) : bool :=
  existsb (fun a => String.eqb (agent_id a) id) (agents (fst s)).

Definition file_known (s : Server) (id : string) : bool :=
  existsb (fun f => String.eqb (file_id f) id) (files (fst s)).

(** The identifier a file is stored under: the [file_id] of the request
    when it is a non-empty string, a fresh one when the request has
    none. *)
Definition file_key (body : json) (s : Server) (id : string) : Prop :=
  (prop body "file_id" = Some (JStr id) /\ id <> "") \/
  (truthy (prop body "file_id") = false /\ id = uuid_at (draws (snd s))).

(** A request to [/host/file_received] with its three fields, which the
    driver binds as [name] and [mime], and whose bytes decode to a
    Buffer that the driver binds as the BLOB [data]. *)
Definition file_event (body : json) (name mime : string) (data : list Byte.byte) : Prop :=
  exists nameJ mimeJ bytes fileDataBuffer,
    prop body "name" = Some nameJ /\ truthy (Some nameJ) = true /\
    bind_text nameJ = Some name /\
    prop body "mime_type" = Some mimeJ /\ truthy (Some mimeJ) = true /\
    bind_text mimeJ = Some mime /\
    prop body "bytes" = Some bytes /\ truthy (Some bytes) = true /\
    Buffer_from_base64 bytes = Normal fileDataBuffer /\
    bind_blob fileDataBuffer = Some data.

(** The registry after a sequence of requests to [/agent/register],
    each with the host as it answers at that time. *)
Fixpoint register_all (requests : list (Host * json)) (s : Server) : Server :=
  match requests with
  | [] => s
  | (host, body) :: rest => register_all rest (snd (agent_register host body s))
  end.

(** [item] is the object [/agent/list] gives for the row [a]. *)
Definition agent_item (a : AgentRow) (item : json) : Prop :=
  prop item "id" = Some (JStr (agent_id a)) /\
  prop item "name" = Some (null_or_string (agent_name a)) /\
  prop item "description" = Some (null_or_string (agent_description a)) /\
  prop item "icon" = Some (null_or_string (agent_icon a)) /\
  prop item "url" = Some (JStr (agent_url a)) /\
  prop item "created_at" = Some (JStr (toISOString (agent_created_at a))).

(** A character of the template that the generator copies. *)
Definition copied (c : ascii) : bool := negb (Ascii.eqb c "x" || Ascii.eqb c "y").

End RegistryVocabulary.

(** * Properties *)

Section Facts.

Context {R : Runtime}.

(** ** Running the monad *)

Lemma bind_Normal {A B} (m : Js A) (k : A -> Js B) w a w' :
  m w = (Normal a, w') -> bind m k w = k a w'.
Proof. intros H. unfold bind. rewrite H. reflexivity. Qed.

Lemma bind_Abrupt {A B} (m : Js A) (k : A -> Js B) w e w' :
  m w = (Abrupt e, w') -> bind m k w = (Abrupt e, w').
Proof. intros H. unfold bind. rewrite H. reflexivity. Qed.

Lemma try_catch_Normal {A} (m : Js A) h w a w' :
  m w = (Normal a, w') -> try_catch m h w = (Normal a, w').
Proof. intros H. unfold try_catch. rewrite H. reflexivity. Qed.

(** A handler that only builds the response leaves the state of the
    guarded block. *)
Lemma snd_try_catch_ret {A} (m : Js A) (f : JsError -> A) w :
  snd (try_catch m (fun e => ret (f e)) w) = snd (m w).
Proof. unfold try_catch. destruct (m w) as [[a|e] w']; reflexivity. Qed.


(** ** Frames: what a computation leaves alone *)

Section Frame.

Context (P : World -> World -> Prop) {HP : PreOrder P}.

Lemma frame_ret {A} (a : A) : frame P (ret a).
Proof. intros w. reflexivity. Qed.

Lemma frame_throw {A} e : frame P (@throw A e).
Proof. intros w. reflexivity. Qed.

Lemma frame_bind {A B} (m : Js A) (k : A -> Js B) :
  frame P m -> (forall a, frame P (k a)) -> frame P (bind m k).
Proof.
  intros Hm Hk w. unfold bind. specialize (Hm w).
  destruct (m w) as [[a|e] w1]; simpl in *.
  - etransitivity; [exact Hm | apply Hk].
  - exact Hm.
Qed.

Lemma frame_try_catch {A} (m : Js A) h :
  frame P m -> (forall e, frame P (h e)) -> frame P (try_catch m h).
Proof.
  intros Hm Hh w. unfold try_catch. specialize (Hm w).
  destruct (m w) as [[a|e] w1]; simpl in *.
  - exact Hm.
  - etransitivity; [exact Hm | apply Hh].
Qed.

Lemma frame_for_of {A} (l : list A) (f : A -> Js unit) :
  (forall x, frame P (f x)) -> frame P (for_of l f).
Proof.
  intros Hf. induction l as [|x l IH]; simpl.
  - apply frame_ret.
  - apply frame_bind; [apply Hf | intros _; exact IH].
Qed.

End Frame.


#[local] Instance same_tasks_PreOrder : PreOrder same_tasks.
Proof.
  split.
  - intros w. unfold same_tasks. auto.
  - intros a b c (H1 & H2 & H3) (H4 & H5 & H6). unfold same_tasks.
    repeat split; try congruence. lia.
Qed.

#[local] Instance same_db_PreOrder : PreOrder same_db.
Proof.
  split.
  - intros w. reflexivity.
  - intros a b c H1 H2. unfold same_db in *. congruence.
Qed.

#[local] Instance same_sockets_PreOrder : PreOrder same_sockets.
Proof.
  split.
  - intros w. unfold same_sockets. auto.
  - intros a b c (H1 & H2 & H3) (H4 & H5 & H6). unfold same_sockets.
    repeat split; congruence.
Qed.

Create HintDb frames.

(** Decomposes a frame goal along the structure of the computation. *)
Ltac frame_auto :=
  repeat first
    [ apply frame_ret; exact _
    | apply frame_throw; exact _
    | solve [auto with frames]
    | apply frame_bind; try exact _; [ | intro ]
    | apply frame_try_catch; try exact _; [ | intro ]
    | apply frame_for_of; try exact _; intro
    | match goal with
      | |- frame _ (match ?x with _ => _ end) => destruct x
      end ].

(** Proves the frame of a primitive by running it. *)
Ltac frame_run :=
  intros ?w;
  repeat (cbn;
          match goal with
          | |- context [match ?x with _ => _ end] => destruct x
          end);
  cbn; unfold same_tasks, same_db, same_sockets; cbn; repeat split; auto; try lia.

Lemma same_tasks_statement {A} (run : Database -> Completion A * Database) :
  (forall d, tasks (snd (run d)) = tasks d /\
             conversations (snd (run d)) = conversations d) ->
  frame same_tasks (statement run).
Proof.
  intros H w. unfold statement. specialize (H (db w)).
  destruct (run (db w)) as [r d]. cbn in *. unfold same_tasks. cbn.
  destruct H. auto.
Qed.

Lemma same_db_query {A} (select : Database -> A) : frame same_db (query select).
Proof. intros w. cbn. reflexivity. Qed.

Lemma same_sockets_statement {A} (run : Database -> Completion A * Database) :
  frame same_sockets (statement run).
Proof.
  intros w. unfold statement. destruct (run (db w)). cbn.
  unfold same_sockets. auto.
Qed.

Lemma same_tasks_query {A} (select : Database -> A) : frame same_tasks (query select).
Proof. intros w. cbn. reflexivity. Qed.

Section Primitives.

Context (P : World -> World -> Prop) {HP : PreOrder P}.

Lemma frame_bind_param v : frame P (bind_param v).
Proof. unfold bind_param. destruct (bind_text v); [apply frame_ret | apply frame_throw]; exact _. Qed.

Lemma frame_get_prop v k : frame P (get_prop v k).
Proof. unfold get_prop. destruct v; first [apply frame_ret | apply frame_throw]; exact _. Qed.

End Primitives.

Lemma same_tasks_CURRENT_TIMESTAMP : frame same_tasks CURRENT_TIMESTAMP.
Proof. unfold CURRENT_TIMESTAMP. frame_run. Qed.

Lemma same_tasks_generateUUID : frame same_tasks generateUUID.
Proof. unfold generateUUID. frame_run. Qed.

Lemma same_tasks_ws_send ws data : frame same_tasks (ws_send ws data).
Proof. unfold ws_send. frame_run. Qed.

Lemma same_db_ws_send ws data : frame same_db (ws_send ws data).
Proof. unfold ws_send. frame_run. Qed.

Lemma same_sockets_CURRENT_TIMESTAMP : frame same_sockets CURRENT_TIMESTAMP.
Proof. unfold CURRENT_TIMESTAMP. frame_run. Qed.

Lemma same_sockets_generateUUID : frame same_sockets generateUUID.
Proof. unfold generateUUID. frame_run. Qed.

Lemma frame_get_clients P `{PreOrder _ P} : frame P get_clients.
Proof. intros w. cbn. reflexivity. Qed.

Lemma frame_get_readyState P `{PreOrder _ P} ws : frame P (get_readyState ws).
Proof. intros w. cbn. reflexivity. Qed.

Lemma same_sockets_query {A} (select : Database -> A) : frame same_sockets (query select).
Proof. intros w. cbn. reflexivity. Qed.

#[local] Hint Resolve same_tasks_query same_db_query same_sockets_query same_sockets_statement
  same_tasks_CURRENT_TIMESTAMP same_tasks_generateUUID same_tasks_ws_send
  same_db_ws_send same_sockets_CURRENT_TIMESTAMP same_sockets_generateUUID : frames.
#[local] Hint Extern 1 (frame _ (bind_param _)) => (apply frame_bind_param; exact _) : frames.
#[local] Hint Extern 1 (frame _ (get_prop _ _)) => (apply frame_get_prop; exact _) : frames.
#[local] Hint Extern 1 (frame _ get_clients) => (apply frame_get_clients; exact _) : frames.
#[local] Hint Extern 1 (frame _ (get_readyState _)) => (apply frame_get_readyState; exact _) : frames.

Lemma same_tasks_INSERT_OR_REPLACE_artifact id taskId artifactId content :
  frame same_tasks (INSERT_OR_REPLACE_artifact id taskId artifactId content).
Proof.
  unfold INSERT_OR_REPLACE_artifact. frame_auto.
  apply same_tasks_statement. intros d. destruct (negb (task_exists d a)); cbn; auto.
Qed.
#[local] Hint Resolve same_tasks_INSERT_OR_REPLACE_artifact : frames.

Lemma same_tasks_store_artifact taskId artifact :
  frame same_tasks (store_artifact taskId artifact).
Proof. unfold store_artifact. frame_auto. Qed.
#[local] Hint Resolve same_tasks_store_artifact : frames.

Lemma same_tasks_store_artifacts taskId artifacts :
  frame same_tasks (store_artifacts taskId artifacts).
Proof. unfold store_artifacts. frame_auto. Qed.

Lemma same_tasks_broadcast data : frame same_tasks (broadcast data).
Proof. unfold broadcast. frame_auto. Qed.

Lemma same_db_broadcast data : frame same_db (broadcast data).
Proof. unfold broadcast. frame_auto. Qed.
#[local] Hint Resolve same_tasks_store_artifacts same_tasks_broadcast same_db_broadcast : frames.

Lemma same_tasks_getTaskWithArtifacts taskId : frame same_tasks (getTaskWithArtifacts taskId).
Proof.
  unfold getTaskWithArtifacts, SELECT_tasks_by_id, SELECT_artifacts_of_task. frame_auto.
Qed.

Lemma same_db_getTaskWithArtifacts taskId : frame same_db (getTaskWithArtifacts taskId).
Proof.
  unfold getTaskWithArtifacts, SELECT_tasks_by_id, SELECT_artifacts_of_task. frame_auto.
Qed.
#[local] Hint Resolve same_tasks_getTaskWithArtifacts same_db_getTaskWithArtifacts : frames.

Lemma same_tasks_publish_snapshot taskId : frame same_tasks (publish_snapshot taskId).
Proof. unfold publish_snapshot. frame_auto. Qed.

Lemma same_db_publish_snapshot taskId : frame same_db (publish_snapshot taskId).
Proof. unfold publish_snapshot. frame_auto. Qed.
#[local] Hint Resolve same_tasks_publish_snapshot same_db_publish_snapshot : frames.

Lemma same_sockets_upsert_task taskId conversation_id status sd :
  frame same_sockets (upsert_task taskId conversation_id status sd).
Proof.
  unfold upsert_task, SELECT_tasks_by_id, UPDATE_task, INSERT_task. frame_auto.
Qed.

Lemma same_sockets_store_artifacts taskId artifacts :
  frame same_sockets (store_artifacts taskId artifacts).
Proof.
  unfold store_artifacts, store_artifact, INSERT_OR_REPLACE_artifact. frame_auto.
Qed.


(** ** The task row after a reconciliation *)


Lemma task_exists_filter d tid :
  task_exists d tid = (0 <? List.length (filter (by_id tid) (tasks d)))%nat.
Proof.
  unfold task_exists, by_id. induction (tasks d) as [|t ts IH]; cbn; [reflexivity|].
  destruct (String.eqb (task_id t) tid); cbn; auto.
Qed.

Lemma filter_by_id_NoDup tid ts :
  NoDup (map task_id ts) -> (List.length (filter (by_id tid) ts) <= 1)%nat.
Proof.
  induction ts as [|t ts IH]; cbn; intros H; [lia|].
  inversion H as [|x l Hnotin Hnd]; subst.
  unfold by_id at 1. destruct (String.eqb_spec (task_id t) tid) as [E|E]; cbn; auto.
  assert (Hnil : filter (by_id tid) ts = []).
  { destruct (filter (by_id tid) ts) as [|t' l'] eqn:F; [reflexivity|].
    exfalso. apply Hnotin.
    assert (Hin : In t' (filter (by_id tid) ts)) by (rewrite F; left; reflexivity).
    apply filter_In in Hin. destruct Hin as [Hin Hid].
    unfold by_id in Hid. apply String.eqb_eq in Hid.
    rewrite E, <- Hid. apply in_map. exact Hin. }
  rewrite Hnil. cbn. lia.
Qed.

Lemma SELECT_tasks_by_id_string tid w :
  SELECT_tasks_by_id (JStr tid) w = (Normal (filter (by_id tid) (tasks (db w))), w).
Proof.
  unfold SELECT_tasks_by_id, bind, bind_param. rewrite bind_text_string. reflexivity.
Qed.


(** The upsert of a task that no artifact refers to, in a conversation
    of the store. *)
Lemma upsert_task_run tid cid st sd w :
  conversation_exists (db w) cid = true ->
  task_referenced (db w) tid = false ->
  upsert_task (JStr tid) (JStr cid) (JStr st) sd w =
  (Normal tt,
   with_db (with_tasks (upserted tid cid st sd (system_clock (reads w)) (tasks (db w))) (db w))
           (with_reads (S (reads w)) w)).
Proof.
  intros Hc Hr. unfold upsert_task.
  rewrite (bind_Normal _ _ _ _ _ (SELECT_tasks_by_id_string tid w)).
  rewrite <- task_exists_filter. unfold upserted.
  change (existsb (by_id tid) (tasks (db w))) with (task_exists (db w) tid).
  destruct (task_exists (db w) tid) eqn:E.
  - unfold UPDATE_task, bind, bind_param. rewrite !bind_text_string.
    cbn -[task_exists conversation_exists task_referenced]. unfold statement.
    cbn -[task_exists conversation_exists task_referenced]. rewrite E, Hc, Hr. reflexivity.
  - unfold INSERT_task, bind, bind_param. rewrite !bind_text_string.
    cbn -[task_exists conversation_exists]. unfold statement.
    cbn -[task_exists conversation_exists]. rewrite E, Hc. reflexivity.
Qed.

(** The update of a task that an artifact refers to is refused: the
    statement fails and the store stays as it is. *)
Lemma upsert_task_refused tid cid st sd w :
  task_exists (db w) tid = true ->
  task_referenced (db w) tid = true ->
  exists e w',
    upsert_task (JStr tid) (JStr cid) (JStr st) sd w = (Abrupt e, w') /\
    db w' = db w /\ wire w' = wire w /\ clients w' = clients w /\
    readyState w' = readyState w /\ draws w' = draws w.
Proof.
  intros E Hr. unfold upsert_task.
  rewrite (bind_Normal _ _ _ _ _ (SELECT_tasks_by_id_string tid w)).
  rewrite <- task_exists_filter, E.
  unfold UPDATE_task, bind, bind_param. rewrite !bind_text_string.
  cbn -[task_exists conversation_exists task_referenced]. unfold statement.
  cbn -[task_exists conversation_exists task_referenced]. rewrite E, Hr. cbn.
  eexists. eexists. split; [reflexivity|]. cbn. destruct (db w). auto.
Qed.


Lemma existsb_by_id_In tid ts :
  existsb (by_id tid) ts = true <-> In tid (map task_id ts).
Proof.
  rewrite existsb_exists, in_map_iff. unfold by_id.
  split; intros (t & H1 & H2).
  - apply String.eqb_eq in H2. exists t. auto.
  - exists t. split; [exact H2|]. apply String.eqb_eq. exact H1.
Qed.

Lemma filter_by_id_nil tid ts :
  existsb (by_id tid) ts = false -> filter (by_id tid) ts = [].
Proof.
  induction ts as [|t ts IH]; cbn; [reflexivity|].
  destruct (by_id tid t); cbn; [discriminate|exact IH].
Qed.

Lemma map_task_id_update tid (f : TaskRow -> TaskRow) ts :
  (forall t, task_id (f t) = task_id t) ->
  map task_id (map (fun t => if by_id tid t then f t else t) ts) = map task_id ts.
Proof.
  intros Hf. rewrite map_map. apply map_ext. intros t.
  destruct (by_id tid t); auto.
Qed.

Lemma filter_by_id_update tid (f : TaskRow -> TaskRow) ts :
  (forall t, task_id (f t) = task_id t) ->
  filter (by_id tid) (map (fun t => if by_id tid t then f t else t) ts)
  = map f (filter (by_id tid) ts).
Proof.
  intros Hf. induction ts as [|t ts IH]; cbn; [reflexivity|].
  destruct (by_id tid t) eqn:E.
  - unfold by_id at 1. rewrite Hf. fold (by_id tid t). rewrite E. cbn. f_equal. exact IH.
  - rewrite E. exact IH.
Qed.

Lemma upserted_NoDup tid cid st sd now ts :
  NoDup (map task_id ts) -> NoDup (map task_id (upserted tid cid st sd now ts)).
Proof.
  intros H. unfold upserted. destruct (existsb (by_id tid) ts) eqn:E.
  - rewrite map_task_id_update; auto.
  - rewrite map_app. cbn. apply NoDup_app. repeat split; auto.
    + constructor; [intros []|constructor].
    + intros x Hin [Hx|[]]. subst x.
      apply existsb_by_id_In in Hin. congruence.
Qed.

Lemma upserted_length tid cid st sd now ts :
  List.length (upserted tid cid st sd now ts)
  = if existsb (by_id tid) ts then List.length ts else S (List.length ts).
Proof.
  unfold upserted. destruct (existsb (by_id tid) ts).
  - apply length_map.
  - rewrite length_app. cbn. lia.
Qed.

Lemma upserted_exists tid cid st sd now ts :
  existsb (by_id tid) (upserted tid cid st sd now ts) = true.
Proof.
  apply existsb_by_id_In. unfold upserted. destruct (existsb (by_id tid) ts) eqn:E.
  - rewrite map_task_id_update; auto. apply existsb_by_id_In. exact E.
  - rewrite map_app. apply in_or_app. right. left. reflexivity.
Qed.

(** After the upsert there is one row of the task, stamped [now]; when
    the task was there before, it is that row, updated. *)
Lemma upserted_row tid cid st sd now ts :
  NoDup (map task_id ts) ->
  exists t,
    filter (by_id tid) (upserted tid cid st sd now ts) = [t] /\
    task_id t = tid /\
    task_conversation_id t = cid /\
    task_status t = st /\
    task_state_details t = Some sd /\
    task_updated_at t = now /\
    (forall t0, In t0 (filter (by_id tid) ts) -> task_created_at t = task_created_at t0).
Proof.
  intros Hnd. unfold upserted. destruct (existsb (by_id tid) ts) eqn:E.
  - rewrite filter_by_id_update by reflexivity.
    pose proof (filter_by_id_NoDup tid ts Hnd) as Hle.
    destruct (filter (by_id tid) ts) as [|t0 [|t1 l]] eqn:F.
    + exfalso. apply existsb_exists in E. destruct E as (t & Hin & Ht).
      assert (Hin' : In t (filter (by_id tid) ts)) by (apply filter_In; auto).
      rewrite F in Hin'. exact Hin'.
    + assert (Hid : by_id tid t0 = true).
      { assert (Hin : In t0 (filter (by_id tid) ts)) by (rewrite F; left; reflexivity).
        apply filter_In in Hin. tauto. }
      exists (set_task cid st sd now t0). cbn. repeat split; auto.
      * unfold by_id in Hid. apply String.eqb_eq. exact Hid.
      * intros t [<-|[]]. reflexivity.
    + cbn in Hle. lia.
  - rewrite filter_app, (filter_by_id_nil _ _ E). cbn.
    unfold by_id. cbn. rewrite String.eqb_refl.
    eexists. repeat split; try reflexivity. intros t0 [].
Qed.


(** ** The key of [tasks] is an invariant of the handler *)

#[local] Instance keeps_task_key_PreOrder : PreOrder keeps_task_key.
Proof.
  split.
  - intros w H. exact H.
  - intros a b c H1 H2 H. apply H2, H1, H.
Qed.

Lemma keeps_task_key_same_tasks {A} (m : Js A) :
  frame same_tasks m -> frame keeps_task_key m.
Proof. intros H w Hnd. destruct (H w) as (T & _ & _). rewrite T. exact Hnd. Qed.

Lemma keeps_task_key_statement {A} (run : Database -> Completion A * Database) :
  (forall d, NoDup (map task_id (tasks d)) -> NoDup (map task_id (tasks (snd (run d))))) ->
  frame keeps_task_key (statement run).
Proof.
  intros H w Hnd. unfold statement. specialize (H (db w) Hnd).
  destruct (run (db w)) as [r d]. exact H.
Qed.

Ltac keeps_task_key_binds :=
  repeat (apply frame_bind;
          [exact _ | apply keeps_task_key_same_tasks; solve [auto with frames] | intro]).

Lemma keeps_task_key_upsert_task taskId conversation_id status sd :
  frame keeps_task_key (upsert_task taskId conversation_id status sd).
Proof.
  unfold upsert_task.
  apply frame_bind; [exact _ | | intros existingTask].
  { apply keeps_task_key_same_tasks. unfold SELECT_tasks_by_id. frame_auto. }
  destruct (0 <? List.length existingTask)%nat.
  - unfold UPDATE_task. keeps_task_key_binds.
    apply keeps_task_key_statement. intros d Hnd.
    destruct (_ && _); cbn; [exact Hnd|].
    destruct (_ && _); cbn; [exact Hnd|].
    rewrite map_map. erewrite map_ext; [exact Hnd|].
    intros t. cbn. destruct (String.eqb (task_id t) _); reflexivity.
  - unfold INSERT_task. keeps_task_key_binds.
    apply keeps_task_key_statement. intros d Hnd.
    match goal with |- context [task_exists d ?id] => destruct (task_exists d id) eqn:E end;
      cbn; [exact Hnd|].
    destruct (negb _); cbn; [exact Hnd|].
    rewrite map_app. cbn. apply NoDup_app. repeat split; auto.
    + constructor; [intros []|constructor].
    + intros x Hin [Hx|[]]. subst x. apply existsb_by_id_In in Hin.
      match type of E with task_exists d ?id = _ =>
        change (task_exists d id) with (existsb (by_id id) (tasks d)) in E end.
      congruence.
Qed.

(** Whatever the event and however the handler completes, [id] stays a
    key of [tasks]. *)
Lemma host_task_update_keeps_task_key body : frame keeps_task_key (host_task_update body).
Proof.
  unfold host_task_update.
  destruct (prop body "id"), (prop body "contextId"), (prop body "status");
    try (apply frame_ret; exact _).
  destruct (_ || _); [apply frame_ret; exact _|].
  apply frame_try_catch; [exact _ | | intros e; apply frame_ret; exact _].
  apply frame_bind; [exact _ | apply keeps_task_key_upsert_task | intros _].
  apply keeps_task_key_same_tasks. frame_auto.
Qed.

(** ** Reconciliation of a task-update event *)

Lemma truthy_nonempty s : s <> "" -> truthy (Some (JStr s)) = true.
Proof. intros H. cbn. apply String.eqb_neq in H. rewrite H. reflexivity. Qed.


Lemma host_task_update_task_event body tid cid st :
  task_event body tid cid st ->
  host_task_update body =
  try_catch (reconcile body tid cid st)
    (fun error => ret (internal_error "Internal server error processing task update" error)).
Proof.
  intros (Hid & Hc & Hs & Ht & Hcn & Hsn). unfold host_task_update.
  rewrite Hid, Hc, Hs. rewrite !truthy_nonempty by assumption. reflexivity.
Qed.

(** The table of tasks after a handled event: the upsert of its task,
    and nothing else. *)
Lemma host_task_update_tasks body tid cid st w :
  task_event body tid cid st ->
  conversation_exists (db w) cid = true ->
  task_referenced (db w) tid = false ->
  let w1 := snd (host_task_update body w) in
  tasks (db w1)
  = upserted tid cid st (JSON_stringify (js_or (prop body "state_details") (JStr st)))
             (system_clock (reads w)) (tasks (db w)) /\
  conversations (db w1) = conversations (db w) /\
  (reads w < reads w1)%nat.
Proof.
  intros Hev Hc Hr w1. subst w1.
  rewrite (host_task_update_task_event _ _ _ _ Hev), snd_try_catch_ret.
  unfold reconcile.
  rewrite (bind_Normal _ _ _ _ _ (upsert_task_run tid cid st _ w Hc Hr)).
  match goal with
  | |- context [snd (?m ?w0)] =>
      assert (F : frame same_tasks m) by frame_auto; destruct (F w0) as (F1 & F2 & F3)
  end.
  rewrite F1, F2. cbn in *. repeat split; auto.
Qed.

(** C4: an event that lacks a mandatory field is answered 400 and leaves
    the process as it was: no row is written and no frame is sent. *)
Theorem invalid_event_is_rejected body w :
  mandatory_field_absent body ->
  exists r w',
    host_task_update body w = (Normal r, w') /\
    http_status r = 400%Z /\
    db w' = db w /\ wire w' = wire w /\ w' = w.
Proof.
  intros H. exists missing_fields, w. repeat split.
  unfold host_task_update.
  destruct H as [H|[H|H]]; rewrite H;
    repeat match goal with
           | |- context [match ?x with _ => _ end] => destruct x
           end; reflexivity.
Qed.


Lemma store_artifact_not_accepted taskId a w :
  artifact_accepted a = false -> db (snd (store_artifact taskId a w)) = db w.
Proof.
  intros H. unfold store_artifact. destruct a; try reflexivity;
    unfold artifact_accepted in H; cbn [get_prop]; unfold bind at 1, ret at 1;
    destruct (truthy (prop _ "artifactId")); cbn [negb andb] in *; try reflexivity;
    unfold bind at 1, ret at 1; rewrite H; reflexivity.
Qed.

(** A loop that accepts no entry writes nothing, however it ends. *)
Lemma same_db_store_nothing taskId body :
  stores_no_artifact body ->
  frame same_db (store_artifacts taskId (prop body "artifacts")).
Proof.
  unfold stores_no_artifact, store_artifacts. intros H.
  destruct (prop body "artifacts") as [[| | | |entries|]|]; try (apply frame_ret; exact _).
  induction H as [|a l Ha Hl IH]; [apply frame_ret; exact _|].
  cbn [for_of]. apply frame_bind; [exact _ | | intros _; exact IH].
  intros w. apply (store_artifact_not_accepted taskId a w Ha).
Qed.

(** An accepted event that gives the task no artifact leaves
    [task_artifacts] as it was. *)
Lemma host_task_update_stores_nothing body tid cid st w :
  task_event body tid cid st ->
  conversation_exists (db w) cid = true ->
  task_referenced (db w) tid = false ->
  stores_no_artifact body ->
  task_artifacts (db (snd (host_task_update body w))) = task_artifacts (db w).
Proof.
  intros Hev Hc Hr Hno.
  rewrite (host_task_update_task_event _ _ _ _ Hev), snd_try_catch_ret.
  unfold reconcile.
  rewrite (bind_Normal _ _ _ _ _ (upsert_task_run tid cid st _ w Hc Hr)).
  match goal with
  | |- context [snd (?m ?w0)] =>
      assert (F : frame same_db m);
        [|rewrite (F w0); reflexivity]
  end.
  apply frame_bind; [exact _ | apply same_db_store_nothing; exact Hno | intros _].
  frame_auto.
Qed.

(** Two successive reconciliations of one task, the second of which
    finds no artifact of the task in the store: one row, kept, which
    takes the fields of the second event and the reading of the clock
    at each reconciliation. *)
Lemma two_reconciliations body1 body2 tid cid1 st1 cid2 st2 w :
  task_event body1 tid cid1 st1 ->
  task_event body2 tid cid2 st2 ->
  conversation_exists (db w) cid1 = true ->
  conversation_exists (db w) cid2 = true ->
  NoDup (map task_id (tasks (db w))) ->
  task_referenced (db w) tid = false ->
  stores_no_artifact body1 ->
  let w1 := snd (host_task_update body1 w) in
  let w2 := snd (host_task_update body2 w1) in
  exists t1 t2,
    filter (by_id tid) (tasks (db w1)) = [t1] /\
    filter (by_id tid) (tasks (db w2)) = [t2] /\
    List.length (tasks (db w2)) = List.length (tasks (db w1)) /\
    task_created_at t2 = task_created_at t1 /\
    task_updated_at t1 = system_clock (reads w) /\
    task_updated_at t2 = system_clock (reads w1) /\
    (reads w < reads w1)%nat /\
    task_conversation_id t2 = cid2 /\ task_status t2 = st2 /\
    task_state_details t2
    = Some (JSON_stringify (js_or (prop body2 "state_details") (JStr st2))).
Proof.
  intros Hev1 Hev2 Hc1 Hc2 Hnd Hr Hno w1 w2.
  destruct (host_task_update_tasks body1 tid cid1 st1 w Hev1 Hc1 Hr) as (T1 & C1 & R1).
  fold w1 in T1, C1, R1.
  assert (Hc2' : conversation_exists (db w1) cid2 = true).
  { unfold conversation_exists. rewrite C1. exact Hc2. }
  assert (Hr1 : task_referenced (db w1) tid = false).
  { unfold task_referenced. subst w1.
    rewrite (host_task_update_stores_nothing body1 tid cid1 st1 w Hev1 Hc1 Hr Hno).
    exact Hr. }
  destruct (host_task_update_tasks body2 tid cid2 st2 w1 Hev2 Hc2' Hr1) as (T2 & C2 & R2).
  fold w2 in T2, C2, R2.
  destruct (upserted_row tid cid1 st1
              (JSON_stringify (js_or (prop body1 "state_details") (JStr st1)))
              (system_clock (reads w)) _ Hnd)
    as (t1 & F1 & _ & _ & _ & _ & U1 & _).
  rewrite <- T1 in F1.
  assert (Hnd1 : NoDup (map task_id (tasks (db w1)))).
  { rewrite T1. apply upserted_NoDup. exact Hnd. }
  destruct (upserted_row tid cid2 st2
              (JSON_stringify (js_or (prop body2 "state_details") (JStr st2)))
              (system_clock (reads w1)) _ Hnd1)
    as (t2 & F2 & _ & Hcid & Hst & Hsd & U2 & K2).
  rewrite <- T2 in F2.
  exists t1, t2. repeat split; auto.
  - rewrite T2, upserted_length.
    replace (existsb (by_id tid) (tasks (db w1))) with true; [reflexivity|].
    rewrite T1. symmetry. apply upserted_exists.
  - apply K2. rewrite F1. left. reflexivity.
Qed.

(** C2, amended: reconciling the same well-formed event twice, for a
    conversation of the store and a task that has no artifact and is
    given none, leaves one row of the task. The second reconciliation
    inserts no row: it updates the row of the first, which keeps its
    [created_at], holds the fields of the event and takes for
    [updated_at] the reading of the clock at the second reconciliation,
    not below that of the first when the clock does not run backwards. *)
Theorem reconciling_twice_keeps_one_task_row body tid cid st w :
  task_event body tid cid st ->
  conversation_exists (db w) cid = true ->
  NoDup (map task_id (tasks (db w))) ->
  task_referenced (db w) tid = false ->
  stores_no_artifact body ->
  clock_monotone ->
  let w1 := snd (host_task_update body w) in
  let w2 := snd (host_task_update body w1) in
  exists t1 t2,
    filter (by_id tid) (tasks (db w1)) = [t1] /\
    filter (by_id tid) (tasks (db w2)) = [t2] /\
    List.length (tasks (db w2)) = List.length (tasks (db w1)) /\
    task_created_at t2 = task_created_at t1 /\
    task_conversation_id t2 = cid /\ task_status t2 = st /\
    task_state_details t2
    = Some (JSON_stringify (js_or (prop body "state_details") (JStr st))) /\
    task_updated_at t1 = system_clock (reads w) /\
    task_updated_at t2 = system_clock (reads w1) /\
    (reads w < reads w1)%nat /\
    (task_updated_at t1 <= task_updated_at t2)%Z.
Proof.
  intros Hev Hc Hnd Hr Hno Hclock w1 w2.
  destruct (two_reconciliations body body tid cid st cid st w Hev Hev Hc Hc Hnd Hr Hno)
    as (t1 & t2 & F1 & F2 & L & K & U1 & U2 & Hreads & Hcid & Hst & Hsd).
  exists t1, t2. repeat split; auto.
  rewrite U1, U2. apply Hclock. lia.
Qed.

(** C3, amended: across two successive reconciliations of a task that
    the store accepts (the task has no artifact when they run) its
    [updated_at] is the reading of the clock at each of them, and does
    not decrease when the clock does not run backwards. *)
Theorem updated_at_does_not_decrease body1 body2 tid cid1 st1 cid2 st2 w :
  task_event body1 tid cid1 st1 ->
  task_event body2 tid cid2 st2 ->
  conversation_exists (db w) cid1 = true ->
  conversation_exists (db w) cid2 = true ->
  NoDup (map task_id (tasks (db w))) ->
  task_referenced (db w) tid = false ->
  stores_no_artifact body1 ->
  clock_monotone ->
  let w1 := snd (host_task_update body1 w) in
  let w2 := snd (host_task_update body2 w1) in
  exists u1 u2,
    updated_at_of tid w1 = Some u1 /\
    updated_at_of tid w2 = Some u2 /\
    u1 = system_clock (reads w) /\
    u2 = system_clock (reads w1) /\
    (u1 <= u2)%Z.
Proof.
  intros Hev1 Hev2 Hc1 Hc2 Hnd Hr Hno Hclock w1 w2.
  destruct (two_reconciliations body1 body2 tid cid1 st1 cid2 st2 w
              Hev1 Hev2 Hc1 Hc2 Hnd Hr Hno)
    as (t1 & t2 & F1 & F2 & L & K & U1 & U2 & Hreads & _).
  exists (task_updated_at t1), (task_updated_at t2).
  subst w1 w2. unfold updated_at_of. cbv zeta in F1, F2, U2, Hreads.
  rewrite F1, F2. repeat split; auto.
  rewrite U1, U2. apply Hclock. lia.
Qed.

(** ** The loop over the artifacts of an event *)

Lemma replace_xy_draws template k :
  snd (replace_xy template k) = (k + count_xy template)%nat.
Proof.
  revert k. induction template as [|c rest IH]; intros k; cbn; [lia|].
  destruct (Ascii.eqb c "x" || Ascii.eqb c "y").
  - specialize (IH (S k)). destruct (replace_xy rest (S k)). cbn in *. lia.
  - specialize (IH k). destruct (replace_xy rest k). cbn in *. lia.
Qed.

Lemma generateUUID_run w :
  generateUUID w = (Normal (uuid_at (draws w)), with_draws (draws w + 31) w).
Proof.
  unfold generateUUID, uuid_at.
  pose proof (replace_xy_draws uuid_template (draws w)) as H.
  destruct (replace_xy uuid_template (draws w)) as [id k]. cbn in *. subst k. reflexivity.
Qed.

Lemma get_prop_not_null a k : a <> JNull -> get_prop a k = ret (prop a k).
Proof. intros H. destruct a; try reflexivity. contradiction. Qed.

Lemma skipped_entry_not_accepted a : skipped_entry a -> artifact_accepted a = false.
Proof.
  intros (_ & [H|H]); unfold artifact_accepted; rewrite H;
    [reflexivity | apply andb_false_r].
Qed.

Lemma well_formed_entry_accepted a : well_formed_entry a -> artifact_accepted a = true.
Proof.
  intros (ref & c & H1 & H2 & H3 & H4). unfold artifact_accepted.
  rewrite H1, H3, H4, truthy_nonempty by assumption. reflexivity.
Qed.

Lemma well_formed_entry_not_null a : well_formed_entry a -> a <> JNull.
Proof. intros (ref & c & H1 & _) ->. discriminate. Qed.

(** A malformed entry other than [null] is skipped: nothing happens. *)
Lemma store_artifact_skipped taskId a w :
  skipped_entry a -> store_artifact taskId a w = (Normal tt, w).
Proof.
  intros (Hn & H). unfold store_artifact. rewrite !get_prop_not_null by assumption.
  unfold bind, ret.
  destruct (truthy (prop a "artifactId")) eqn:E1; cbn; [|reflexivity].
  destruct (truthy (prop a "content")) eqn:E2; cbn; [|reflexivity].
  unfold malformed_entry in H. destruct H as [H|H]; congruence.
Qed.

(** A well-formed entry is inserted under a new identifier. *)
Lemma store_artifact_well_formed tid a ref content w :
  prop a "artifactId" = Some (JStr ref) -> ref <> "" ->
  prop a "content" = Some content -> truthy (Some content) = true ->
  task_exists (db w) tid = true ->
  store_artifact (JStr tid) a w =
  (Normal tt,
   with_db (with_task_artifacts
              (filter (fun r => negb (String.eqb (art_id r) (uuid_at (draws w))))
                      (task_artifacts (db w))
               ++ [{| art_id := uuid_at (draws w); art_task_id := tid;
                      art_artifact_id_ref := Some ref;
                      art_content := JSON_stringify content;
                      art_created_at := system_clock (reads w) |}])
              (db w))
           (with_reads (S (reads w)) (with_draws (draws w + 31) w))).
Proof.
  intros H1 H2 H3 H4 Ht. unfold store_artifact.
  assert (Hn : a <> JNull) by (intros ->; discriminate).
  rewrite !get_prop_not_null by assumption. unfold bind at 1, ret at 1.
  rewrite H1, truthy_nonempty by assumption. cbn [negb].
  unfold bind at 1, ret at 1. rewrite H3, H4. cbn [negb].
  rewrite (bind_Normal _ _ _ _ _ (generateUUID_run w)).
  unfold INSERT_OR_REPLACE_artifact, bind, bind_param. rewrite !bind_text_string.
  cbn -[task_exists]. unfold statement. cbn -[task_exists]. rewrite Ht. reflexivity.
Qed.

Lemma filter_other_ids id (l : list ArtifactRow) :
  ~ In id (map art_id l) ->
  filter (fun r => negb (String.eqb (art_id r) id)) l = l.
Proof.
  induction l as [|r l IH]; cbn; intros H; [reflexivity|].
  destruct (String.eqb_spec (art_id r) id) as [E|E]; cbn.
  - exfalso. apply H. left. exact E.
  - f_equal. apply IH. intros Hin. apply H. right. exact Hin.
Qed.

(** The loop completes on entries that are skipped or well-formed;
    when the identifiers drawn are new, it appends one row per
    well-formed entry, in order, and touches no other row. *)
Lemma store_entries_run tid entries :
  forall w,
    task_exists (db w) tid = true ->
    Forall entry_of_event entries ->
    exists w',
      for_of entries (store_artifact (JStr tid)) w = (Normal tt, w') /\
      (fresh_ids w (List.length (filter artifact_accepted entries)) ->
       exists rows,
         task_artifacts (db w') = task_artifacts (db w) ++ rows /\
         Forall2 (stored_as tid) rows (filter artifact_accepted entries)).
Proof.
  induction entries as [|a entries IH]; intros w Ht Hall.
  - exists w. split; [reflexivity|]. intros _. exists []. rewrite app_nil_r. split; constructor.
  - inversion Hall as [|x l Ha Hrest]; subst. cbn [for_of filter].
    destruct Ha as [Hm|Hw].
    + rewrite (bind_Normal _ _ _ _ _ (store_artifact_skipped (JStr tid) a w Hm)).
      rewrite (skipped_entry_not_accepted a Hm). apply IH; assumption.
    + pose proof (well_formed_entry_accepted a Hw) as Hacc. rewrite Hacc.
      destruct Hw as (ref & c & H1 & H2 & H3 & H4).
      rewrite (bind_Normal _ _ _ _ _
                 (store_artifact_well_formed tid a ref c w H1 H2 H3 H4 Ht)).
      match goal with |- context [for_of entries _ ?w0] => set (w1 := w0) end.
      destruct (IH w1) as (w' & Hrun & Hrows); [exact Ht | exact Hrest |].
      exists w'. split; [exact Hrun|].
      intros Hfresh. unfold fresh_ids in Hfresh. cbn [List.length uuids app] in Hfresh.
      inversion Hfresh as [|x l Hnotin Hnd]; subst.
      assert (Hnew : ~ In (uuid_at (draws w)) (map art_id (task_artifacts (db w)))).
      { intros Hin. apply Hnotin. apply in_or_app. right. exact Hin. }
      assert (Htable : task_artifacts (db w1)
                       = task_artifacts (db w)
                         ++ [{| art_id := uuid_at (draws w); art_task_id := tid;
                                art_artifact_id_ref := Some ref;
                                art_content := JSON_stringify c;
                                art_created_at := system_clock (reads w) |}]).
      { subst w1. cbn [db with_db task_artifacts with_task_artifacts].
        rewrite (filter_other_ids _ _ Hnew). reflexivity. }
      destruct Hrows as (rows & Hrows & Hstored).
      { unfold fresh_ids. rewrite Htable, map_app. cbn [map art_id].
        replace (draws w1) with (draws w + 31)%nat by reflexivity.
        apply (Permutation_NoDup (l := uuid_at (draws w)
                 :: uuids (draws w + 31) (List.length (filter artifact_accepted entries))
                    ++ map art_id (task_artifacts (db w)))); [|exact Hfresh].
        rewrite app_assoc. apply Permutation_cons_append. }
      eexists. split.
      * rewrite Hrows, Htable, <- app_assoc. cbn [app]. reflexivity.
      * constructor; [|exact Hstored].
        split; [reflexivity|]. exists ref, c. repeat split; assumption.
Qed.

(** ** Broadcast and snapshot *)

Lemma with_wire_id w : with_wire (wire w) w = w.
Proof. destruct w. reflexivity. Qed.

Lemma send_to_open data cs :
  forall w,
    for_of cs (fun client =>
      st <- get_readyState client ;;
      if is_OPEN st then ws_send client data else ret tt) w
    = (Normal tt,
       with_wire (wire w ++ frames data (filter (fun c => is_OPEN (readyState w c)) cs)) w).
Proof.
  induction cs as [|c cs IH]; intros w.
  - cbn. rewrite app_nil_r, with_wire_id. reflexivity.
  - cbn [for_of filter]. unfold bind at 1. unfold bind at 1, get_readyState at 1.
    destruct (is_OPEN (readyState w c)) eqn:E.
    + unfold ws_send at 1. destruct (readyState w c); try discriminate. rewrite IH.
      cbn [readyState with_wire wire frames map]. rewrite <- app_assoc. reflexivity.
    + unfold ret at 1. apply IH.
Qed.

Lemma broadcast_run data w :
  broadcast data w
  = (Normal tt, with_wire (wire w ++ frames (JSON_stringify data) (open_clients w)) w).
Proof.
  unfold broadcast. unfold bind at 1, get_clients at 1. apply send_to_open.
Qed.

Lemma getTaskWithArtifacts_run tid t rest w :
  filter (by_id tid) (tasks (db w)) = t :: rest ->
  getTaskWithArtifacts (JStr tid) w
  = (Normal (Some (snapshot t (artifact_rows (task_id t) w))), w).
Proof.
  intros H. unfold getTaskWithArtifacts.
  rewrite (bind_Normal _ _ _ _ _ (SELECT_tasks_by_id_string tid w)), H.
  reflexivity.
Qed.

Lemma filter_by_id_head tid ts :
  existsb (by_id tid) ts = true ->
  exists t rest, filter (by_id tid) ts = t :: rest /\ task_id t = tid.
Proof.
  intros H. apply existsb_exists in H. destruct H as (t0 & Hin & Hid).
  assert (Hin' : In t0 (filter (by_id tid) ts)) by (apply filter_In; auto).
  destruct (filter (by_id tid) ts) as [|t rest] eqn:F; [destruct Hin'|].
  exists t, rest. split; [reflexivity|].
  assert (Ht : In t (filter (by_id tid) ts)) by (rewrite F; left; reflexivity).
  apply filter_In in Ht. destruct Ht as [_ Ht]. apply String.eqb_eq. exact Ht.
Qed.

Lemma store_artifacts_run body tid w :
  task_exists (db w) tid = true ->
  artifacts_of_event body ->
  exists w',
    store_artifacts (JStr tid) (prop body "artifacts") w = (Normal tt, w') /\
    (forall entries,
       prop body "artifacts" = Some (JArr entries) ->
       fresh_ids w (List.length (filter artifact_accepted entries)) ->
       exists rows,
         task_artifacts (db w') = task_artifacts (db w) ++ rows /\
         Forall2 (stored_as tid) rows (filter artifact_accepted entries)).
Proof.
  intros Ht Hev. unfold artifacts_of_event in Hev. unfold store_artifacts.
  destruct (prop body "artifacts") as [[| | | |entries|]|];
    try (exists w; split; [reflexivity | intros ? [=]]).
  destruct (store_entries_run tid entries w Ht Hev) as (w' & Hrun & Hrows).
  exists w'. split; [exact Hrun|]. intros entries' [= <-]. exact Hrows.
Qed.

(** What [host_task_update] does with an event for a task that the
    store refuses to update, because an artifact refers to it: the
    answer is 500, nothing is written and nothing is sent. *)
Lemma host_task_update_refused body tid cid st w :
  task_event body tid cid st ->
  task_exists (db w) tid = true ->
  task_referenced (db w) tid = true ->
  exists r w',
    host_task_update body w = (Normal r, w') /\
    http_status r = 500%Z /\
    db w' = db w /\ wire w' = wire w /\ clients w' = clients w.
Proof.
  intros Hev Ht Hr.
  rewrite (host_task_update_task_event _ _ _ _ Hev). unfold reconcile.
  destruct (upsert_task_refused tid cid st
              (JSON_stringify (js_or (prop body "state_details") (JStr st))) w Ht Hr)
    as (e & w' & Hrun & Hdb & Hw & Hcl & _).
  eexists. exists w'. split.
  - unfold try_catch. rewrite (bind_Abrupt _ _ _ _ _ Hrun). reflexivity.
  - cbn. auto.
Qed.

(** What [host_task_update] does with an event it accepts, for a task
    that no artifact refers to: the answer is 200, the task is upserted,
    each open subscriber is sent the snapshot read back from the store
    and, when the identifiers drawn are new, one row is appended per
    accepted artifact. *)
Lemma host_task_update_run body tid cid st w :
  task_event body tid cid st ->
  conversation_exists (db w) cid = true ->
  task_referenced (db w) tid = false ->
  artifacts_of_event body ->
  exists w' t rest,
    host_task_update body w = (Normal (received (JStr tid)), w') /\
    filter (by_id tid) (tasks (db w')) = t :: rest /\ task_id t = tid /\
    wire w' = wire w ++ frames (JSON_stringify (task_updated (snapshot t (artifact_rows tid w'))))
                               (open_clients w) /\
    clients w' = clients w /\
    (forall entries,
       prop body "artifacts" = Some (JArr entries) ->
       fresh_ids w (List.length (filter artifact_accepted entries)) ->
       exists rows,
         task_artifacts (db w') = task_artifacts (db w) ++ rows /\
         Forall2 (stored_as tid) rows (filter artifact_accepted entries)).
Proof.
  intros Hev Hc Hr Harts.
  rewrite (host_task_update_task_event _ _ _ _ Hev). unfold reconcile.
  set (sd := JSON_stringify (js_or (prop body "state_details") (JStr st))).
  pose proof (upsert_task_run tid cid st sd w Hc Hr) as Hup.
  set (w1 := with_db _ _) in Hup.
  assert (Ht1 : task_exists (db w1) tid = true) by apply upserted_exists.
  destruct (store_artifacts_run body tid w1 Ht1 Harts) as (w2 & Hst & Hrows).
  pose proof (same_tasks_store_artifacts (JStr tid) (prop body "artifacts") w1) as (T2 & _ & _).
  pose proof (same_sockets_store_artifacts (JStr tid) (prop body "artifacts") w1) as (S1 & S2 & S3).
  rewrite Hst in T2, S1, S2, S3. cbn [snd] in T2, S1, S2, S3.
  assert (Ht2 : existsb (by_id tid) (tasks (db w2)) = true) by (rewrite T2; exact Ht1).
  destruct (filter_by_id_head tid _ Ht2) as (t & rest & F & Hid).
  exists (with_wire (wire w2 ++ frames (JSON_stringify
                                          (task_updated (snapshot t (artifact_rows tid w2))))
                                       (open_clients w2)) w2), t, rest.
  split; [|repeat split].
  - apply try_catch_Normal.
    rewrite (bind_Normal _ _ _ _ _ Hup), (bind_Normal _ _ _ _ _ Hst).
    rewrite (bind_Normal _ _ _ tt (with_wire (wire w2 ++ frames (JSON_stringify
               (task_updated (snapshot t (artifact_rows tid w2)))) (open_clients w2)) w2));
      [reflexivity|].
    unfold publish_snapshot.
    rewrite (bind_Normal _ _ _ _ _ (getTaskWithArtifacts_run tid t rest w2 F)).
    rewrite Hid. apply broadcast_run.
  - exact F.
  - exact Hid.
  - cbn [wire with_wire]. rewrite S3. unfold open_clients. rewrite S1, S2. reflexivity.
  - cbn [clients with_wire]. exact S1.
  - intros entries He Hfresh. apply (Hrows entries He). exact Hfresh.
Qed.

Lemma hydrate_artifact_item a : artifact_item a (hydrate_artifact a).
Proof.
  unfold artifact_item, hydrate_artifact.
  destruct (JSON_parse (art_content a)) as [v|]; cbn; repeat split; try reflexivity.
  - intros v' [= <-]. reflexivity.
  - discriminate.
  - discriminate.
Qed.

Lemma snapshot_is_snapshot_of t rows : snapshot_of t rows (snapshot t rows).
Proof.
  unfold snapshot_of, snapshot. cbn. repeat split; try reflexivity.
  - intros s v Hs Hn Hp. unfold hydrate_state_details. rewrite Hs.
    apply String.eqb_neq in Hn. rewrite Hn, Hp. reflexivity.
  - intros s Hs Hn Hp. unfold hydrate_state_details. rewrite Hs.
    apply String.eqb_neq in Hn. rewrite Hn, Hp. reflexivity.
  - exists (map hydrate_artifact rows). split; [reflexivity|].
    induction rows as [|a rows IH]; cbn; constructor; [apply hydrate_artifact_item | exact IH].
Qed.

(** An event for a task that no artifact refers to, whose entries are
    values the loop skips or stores, is reconciled (answer 200): each
    entry that has its ref and its content is stored in a row of its
    own and the others are passed over. *)
Lemma entries_are_skipped_or_stored body tid cid st entries w :
  task_event body tid cid st ->
  conversation_exists (db w) cid = true ->
  task_referenced (db w) tid = false ->
  prop body "artifacts" = Some (JArr entries) ->
  Forall entry_of_event entries ->
  fresh_ids w (List.length (filter artifact_accepted entries)) ->
  exists r w' rows,
    host_task_update body w = (Normal r, w') /\
    http_status r = 200%Z /\
    task_artifacts (db w') = task_artifacts (db w) ++ rows /\
    Forall2 (stored_as tid) rows (filter artifact_accepted entries).
Proof.
  intros Hev Hc Hr He Hall Hfresh.
  assert (Harts : artifacts_of_event body).
  { unfold artifacts_of_event. rewrite He. exact Hall. }
  destruct (host_task_update_run body tid cid st w Hev Hc Hr Harts)
    as (w' & t & rest & Hrun & _ & _ & _ & _ & Hrows).
  destruct (Hrows entries He Hfresh) as (rows & Htable & Hstored).
  exists (received (JStr tid)), w', rows. repeat split; auto.
Qed.

(** ** Fan-out *)

Lemma open_clients_all w :
  (forall x, In x (clients w) -> readyState w x = OPEN) -> open_clients w = clients w.
Proof.
  unfold open_clients. induction (clients w) as [|c cs IH]; intros H; cbn; [reflexivity|].
  rewrite (H c) by (left; reflexivity). cbn. f_equal. apply IH.
  intros x Hx. apply H. right. exact Hx.
Qed.

Lemma deliveries_frames c data cs :
  deliveries c data (frames data cs) = count_occ Nat.eq_dec cs c.
Proof.
  unfold deliveries, frames. induction cs as [|x cs IH]; [reflexivity|].
  cbn [map]. destruct (Nat.eq_dec x c) as [E|E].
  - subst x. rewrite !count_occ_cons_eq by reflexivity. f_equal. exact IH.
  - rewrite !count_occ_cons_neq by congruence. exact IH.
Qed.

Lemma deliveries_once c data cs :
  NoDup cs -> In c cs -> deliveries c data (frames data cs) = 1%nat.
Proof.
  intros Hnd Hin. rewrite deliveries_frames.
  apply (proj1 (NoDup_count_occ' Nat.eq_dec cs) Hnd). exact Hin.
Qed.

Lemma deliveries_none c data cs :
  ~ In c cs -> deliveries c data (frames data cs) = 0%nat.
Proof.
  intros Hin. rewrite deliveries_frames. apply count_occ_not_In. exact Hin.
Qed.

Lemma Set_delete_length c cs :
  NoDup cs -> In c cs -> S (List.length (Set_delete c cs)) = List.length cs.
Proof.
  unfold Set_delete. induction cs as [|x cs IH]; intros Hnd Hin; [destruct Hin|].
  inversion Hnd as [|y l Hnotin Hnd']; subst. cbn.
  destruct (Nat.eq_dec c x) as [E|E].
  - subst x. rewrite notin_remove by exact Hnotin. reflexivity.
  - cbn. f_equal. apply IH; [exact Hnd'|]. destruct Hin as [Hx|Hx]; [congruence|exact Hx].
Qed.

Lemma Set_delete_NoDup c cs : NoDup cs -> NoDup (Set_delete c cs).
Proof.
  unfold Set_delete. induction cs as [|x cs IH]; intros Hnd; cbn; [constructor|].
  inversion Hnd as [|y l Hnotin Hnd']; subst.
  destruct (Nat.eq_dec c x); [apply IH; exact Hnd'|].
  constructor; [|apply IH; exact Hnd'].
  intros Hin. apply in_remove in Hin. tauto.
Qed.

(** What a subscriber that leaves, by [close] or by [error], leaves
    behind: the set without it, every other socket as it was. *)
Lemma leave_run c (leave : Js unit) w :
  leave = on_close c \/ leave = on_error c ->
  exists w',
    leave w = (Normal tt, w') /\
    clients w' = Set_delete c (clients w) /\
    wire w' = wire w /\ db w' = db w /\
    (forall x, x <> c -> readyState w' x = readyState w x).
Proof.
  intros [-> | ->].
  - eexists. split; [reflexivity|]. cbn. repeat split.
    intros x Hx. apply Nat.eqb_neq in Hx. rewrite Hx. reflexivity.
  - eexists. split; [reflexivity|]. cbn. repeat split.
Qed.

(** C6: an event published to [N] connected subscribers with open
    channels is serialized once and delivered once to each; once a
    subscriber has left, on [close] or on [error], it is out of the set
    and the next event is delivered once to each of the [N - 1] others
    and not to it. *)
Theorem fan_out_delivery data data' c (leave : Js unit) w :
  NoDup (clients w) ->
  (forall x, In x (clients w) -> readyState w x = OPEN) ->
  In c (clients w) ->
  leave = on_close c \/ leave = on_error c ->
  exists w1 w2 w3 sent sent',
    broadcast data w = (Normal tt, w1) /\
    wire w1 = wire w ++ sent /\
    sent = frames (JSON_stringify data) (clients w) /\
    (forall x, In x (clients w) -> deliveries x (JSON_stringify data) sent = 1%nat) /\
    leave w1 = (Normal tt, w2) /\
    ~ In c (clients w2) /\
    S (List.length (clients w2)) = List.length (clients w) /\
    broadcast data' w2 = (Normal tt, w3) /\
    wire w3 = wire w1 ++ sent' /\
    sent' = frames (JSON_stringify data') (clients w2) /\
    (forall x, In x (clients w) -> x <> c ->
               deliveries x (JSON_stringify data') sent' = 1%nat) /\
    (forall payload, deliveries c payload sent' = 0%nat).
Proof.
  intros Hnd Hopen Hc Hleave.
  pose proof (broadcast_run data w) as B1. rewrite (open_clients_all w Hopen) in B1.
  set (w1 := with_wire _ w) in B1.
  destruct (leave_run c leave w1 Hleave) as (w2 & L & Lc & Lw & _ & Lr).
  change (clients w1) with (clients w) in Lc.
  assert (Hopen2 : forall x, In x (clients w2) -> readyState w2 x = OPEN).
  { intros x Hx. rewrite Lc in Hx. apply in_remove in Hx. destruct Hx as [Hx Hne].
    rewrite (Lr x Hne). apply Hopen. exact Hx. }
  pose proof (broadcast_run data' w2) as B2. rewrite (open_clients_all w2 Hopen2) in B2.
  assert (Hout : ~ In c (clients w2)).
  { rewrite Lc. apply remove_In. }
  eexists w1, w2, _, _, _. split; [exact B1|].
  split; [reflexivity|]. split; [reflexivity|].
  split; [intros x Hx; apply deliveries_once; assumption|].
  split; [exact L|]. split; [exact Hout|].
  split; [rewrite Lc; apply Set_delete_length; assumption|].
  split; [exact B2|]. split; [cbn [wire with_wire]; rewrite Lw; reflexivity|].
  split; [reflexivity|]. split.
  - intros x Hx Hne. apply deliveries_once.
    + rewrite Lc. apply Set_delete_NoDup. exact Hnd.
    + rewrite Lc. apply in_in_remove; assumption.
  - intros payload. unfold deliveries, frames.
    apply count_occ_not_In. intros Hin. apply in_map_iff in Hin.
    destruct Hin as (x & [= -> _] & Hx). contradiction.
Qed.

(** C7, amended: an inbound message that parses as JSON is parsed and
    its value, serialized again, is sent to every open subscriber, the
    sender included; a message that does not parse is not relayed and
    the sender alone is sent the error frame. *)
Theorem inbound_message_is_parsed_and_relayed ws message w :
  In ws (clients w) ->
  readyState w ws = OPEN ->
  exists w',
    on_message ws message w = (Normal tt, w') /\
    db w' = db w /\ clients w' = clients w /\
    match JSON_parse message with
    | Some value =>
        wire w' = wire w ++ frames (JSON_stringify value) (open_clients w) /\
        In (ws, JSON_stringify value) (frames (JSON_stringify value) (open_clients w))
    | None =>
        wire w' = wire w ++ [(ws, JSON_stringify invalid_message_format)]
    end.
Proof.
  intros Hin Hopen. unfold on_message, try_catch.
  destruct (JSON_parse message) as [value|].
  - rewrite broadcast_run. eexists. split; [reflexivity|]. cbn. repeat split.
    unfold frames. apply in_map_iff. exists ws. split; [reflexivity|].
    unfold open_clients. apply filter_In. rewrite Hopen. auto.
  - unfold throw, ws_send. rewrite Hopen. cbn. eexists. split; [reflexivity|].
    cbn. repeat split.
Qed.

(** ** Host gateway *)

(** The shape shared by the three calls of the connector. *)
Lemma gateway_call_contract host w (request : string -> HttpRequest) (what : string) :
  gateway_contract host w
    (loaded <- get_fetch_loaded ;;
     if negb loaded then ret fetch_not_available
     else
       try_catch
         (apiKey <- get_currentApiKey ;;
          response <- fetch host (request apiKey) ;;
          if negb (ok response) then
            errorBody <- response_text response ;;
            ret (status_failure response what errorBody)
          else
            data <- response_json response ;;
            ret data)
         (fun error => ret (caught_failure error)))
    (request (currentApiKey w)).
Proof.
  unfold gateway_contract, bind at 1, get_fetch_loaded.
  destruct (fetch_loaded w); cbn [negb].
  2: { exists fetch_not_available. split; reflexivity. }
  unfold try_catch, bind at 1, get_currentApiKey, bind at 1, fetch.
  destruct (host (request (currentApiKey w))) as [e|response].
  - exists (caught_failure e). split; [reflexivity|]. split; reflexivity.
  - unfold ret at 1. unfold reports. destruct (ok response); cbn [negb].
    + unfold response_json, response_text, bind.
      destruct (body_read response) as [text|e].
      * unfold ret at 1. destruct (JSON_parse text) as [data|].
        -- exists data. split; reflexivity.
        -- eexists. split; reflexivity.
      * eexists. split; reflexivity.
    + unfold response_text, bind. destruct (body_read response) as [text|e].
      * eexists. split; [reflexivity|]. repeat split.
      * eexists. split; reflexivity.
Qed.

Lemma sendMessageToHost_contract host messageData w :
  gateway_contract host w (sendMessageToHost host messageData)
                   (message_request messageData w).
Proof.
  apply (gateway_call_contract host w
           (fun apiKey => {| req_url := _; req_method := _;
                             req_headers := json_headers apiKey; req_body := _ |})).
Qed.

(** C8, amended: each of the three calls of the gateway completes
    normally whatever the host does (no outcome is raised), tags a
    transport failure and a non-success status as errors, the latter
    with the status code and the body as received, and returns the
    decoded body of a success as it is, with no tag. *)
Theorem gateway_outcomes_are_returned host agentUrl messageData w :
  gateway_contract host w (registerAgent host agentUrl) (register_request agentUrl w) /\
  gateway_contract host w (createConversation host) (conversation_request w) /\
  gateway_contract host w (sendMessageToHost host messageData)
                   (message_request messageData w).
Proof.
  split; [|split].
  - apply (gateway_call_contract host w
             (fun apiKey => {| req_url := _; req_method := _;
                               req_headers := json_headers apiKey; req_body := _ |})).
  - apply (gateway_call_contract host w
             (fun apiKey => {| req_url := _; req_method := _;
                               req_headers := json_headers apiKey; req_body := _ |})).
  - apply (gateway_call_contract host w
             (fun apiKey => {| req_url := _; req_method := _;
                               req_headers := json_headers apiKey; req_body := _ |})).
Qed.

(** The gateway reads the API key and the fetch client, and nothing
    else of the process. *)
Lemma sendMessageToHost_reads host messageData w w' :
  currentApiKey w' = currentApiKey w ->
  fetch_loaded w' = fetch_loaded w ->
  fst (sendMessageToHost host messageData w') = fst (sendMessageToHost host messageData w).
Proof.
  intros Hk Hf.
  unfold sendMessageToHost, bind, get_fetch_loaded, try_catch, get_currentApiKey, fetch,
    response_json, response_text, bind, ret, throw.
  cbn beta. rewrite Hf. destruct (fetch_loaded w); cbn; [|reflexivity]. rewrite Hk.
  destruct (host _) as [e|response]; cbn; [reflexivity|].
  destruct (ok response); cbn; destruct (body_read response) as [text|e]; cbn;
    try reflexivity.
  destruct (JSON_parse text); reflexivity.
Qed.

Lemma sendMessageToHost_run host messageData w w' result :
  currentApiKey w' = currentApiKey w ->
  fetch_loaded w' = fetch_loaded w ->
  fst (sendMessageToHost host messageData w) = Normal result ->
  sendMessageToHost host messageData w' = (Normal result, w').
Proof.
  intros Hk Hf Hr.
  destruct (sendMessageToHost_contract host messageData w')
    as (result' & Hrun & _).
  rewrite <- (sendMessageToHost_reads host messageData w w' Hk Hf), Hrun in Hr.
  cbn in Hr. injection Hr as <-. exact Hrun.
Qed.

(** C10: when the relay of a valid message to the host returns an error
    result, the answer is 500, no message row is inserted and no frame
    is sent. *)
Theorem failed_relay_stores_nothing host body result w :
  message_request_valid body ->
  fst (sendMessageToHost host (messageDataForHost (uuid_at (draws w)) body) w)
  = Normal result ->
  truthy (prop result "error") = true ->
  exists r w',
    message_send host body w = (Normal r, w') /\
    http_status r = 500%Z /\
    db w' = db w /\ wire w' = wire w /\ clients w' = clients w.
Proof.
  intros (Hc & Hrole & parts & Hparts) Hres Herr.
  unfold message_send. rewrite Hc, Hparts. cbn [truthy negb orb Array_isArray].
  assert (Hr : truthy (prop body "role") = true
               /\ strict_neq (prop body "role") "user"
                   && strict_neq (prop body "role") "agent" = false).
  { destruct Hrole as [-> | ->]; split; reflexivity. }
  destruct Hr as (Hr1 & Hr2). rewrite Hr1, Hr2. cbn [negb].
  destruct (prop body "conversation_id") as [cid|] eqn:Ecid; [|discriminate].
  destruct (prop body "role") as [role|] eqn:Erole; [|discriminate].
  set (w1 := with_reads (S (reads w)) (with_draws (draws w + 31) w)).
  assert (Hsend : sendMessageToHost host (messageDataForHost (uuid_at (draws w)) body) w1
                  = (Normal result, w1)).
  { apply (sendMessageToHost_run host _ w w1 result); [reflexivity | reflexivity | exact Hres]. }
  assert (Hnn : result <> JNull) by (intros ->; discriminate).
  exists (respond 500 [("message", Some (JStr "Failed to send message to host"));
                       ("details", prop result "message")]), w1.
  split; [|repeat split].
  apply try_catch_Normal.
  rewrite (bind_Normal _ _ _ _ _ (generateUUID_run w)).
  unfold bind at 1, CURRENT_TIMESTAMP at 1.
  change (with_reads (S (reads (with_draws (draws w + 31) w))) (with_draws (draws w + 31) w))
    with w1.
  rewrite (bind_Normal _ _ _ _ _ Hsend).
  rewrite (get_prop_not_null _ _ Hnn). unfold bind at 1, ret at 1.
  rewrite Herr. reflexivity.
Qed.

(** * Further properties *)

(** ** Identifiers *)

Lemma toString16_digit v :
  (0 <= v < 16)%Z -> exists d, toString16 v = String d EmptyString /\ is_hex d = true.
Proof.
  intros H.
  assert (E : (v = 0 \/ v = 1 \/ v = 2 \/ v = 3 \/ v = 4 \/ v = 5 \/ v = 6 \/ v = 7 \/
               v = 8 \/ v = 9 \/ v = 10 \/ v = 11 \/ v = 12 \/ v = 13 \/ v = 14 \/
               v = 15)%Z) by lia.
  repeat (destruct E as [-> | E]; [eexists; split; reflexivity|]).
  subst v. eexists. split; reflexivity.
Qed.

Lemma toString16_variant r :
  exists d, toString16 (Z.lor (Z.land r 3) 8) = String d EmptyString /\ is_variant d = true.
Proof.
  assert (H : (0 <= Z.land r 3 < 4)%Z).
  { change 3%Z with (Z.ones 2). rewrite Z.land_ones by lia. apply Z.mod_pos_bound. lia. }
  assert (E : (Z.land r 3 = 0 \/ Z.land r 3 = 1 \/ Z.land r 3 = 2 \/ Z.land r 3 = 3)%Z)
    by lia.
  destruct E as [-> | [-> | [-> | ->]]]; eexists; split; reflexivity.
Qed.

Lemma replace_xy_fills template :
  draws_in_range -> forall k, fills template (fst (replace_xy template k)).
Proof.
  intros Hr. induction template as [|c rest IH]; intros k; cbn [replace_xy]; [exact I|].
  destruct (Ascii.eqb c "x") eqn:Ex; cbn [orb].
  - specialize (IH (S k)). destruct (replace_xy rest (S k)) as [out k']. cbn [fst] in *.
    destruct (toString16_digit (Math_random16 k) (Hr k)) as (d & -> & Hd).
    cbn. rewrite Ex. auto.
  - destruct (Ascii.eqb c "y") eqn:Ey.
    + specialize (IH (S k)). destruct (replace_xy rest (S k)) as [out k']. cbn [fst] in *.
      destruct (toString16_variant (Math_random16 k)) as (d & -> & Hd).
      cbn. rewrite Ex, Ey. auto.
    + specialize (IH k). destruct (replace_xy rest k) as [out k']. cbn [fst] in *.
      cbn. rewrite Ex, Ey. auto.
Qed.

Lemma fills_length template out : fills template out -> String.length out = String.length template.
Proof.
  revert out. induction template as [|c rest IH]; intros [|d out]; cbn; try tauto.
  intros (_ & H). f_equal. apply IH. exact H.
Qed.

Lemma fills_get template out i c :
  fills template out -> String.get i template = Some c ->
  exists d, String.get i out = Some d /\
            (if Ascii.eqb c "x" then is_hex d = true
             else if Ascii.eqb c "y" then is_variant d = true
             else d = c).
Proof.
  revert out i. induction template as [|c0 rest IH]; intros [|d0 out] i; cbn; try tauto;
    try discriminate.
  intros (H0 & H) Hget. destruct i as [|i].
  - injection Hget as <-. exists d0. auto.
  - apply (IH out i H Hget).
Qed.

(** X1: when every draw is a digit below sixteen, [generateUUID]
    returns 36 characters that fill its template: hyphens at 8, 13, 18
    and 23, the version digit 4 at 14, a variant digit (8, 9, a or b) at
    19, hexadecimal digits elsewhere; it makes 31 draws. *)
Theorem generateUUID_is_a_version_4_identifier w :
  draws_in_range ->
  exists id,
    generateUUID w = (Normal id, with_draws (draws w + 31) w) /\
    fills uuid_template id /\
    String.length id = 36%nat /\
    String.get 8 id = Some "-"%char /\ String.get 13 id = Some "-"%char /\
    String.get 18 id = Some "-"%char /\ String.get 23 id = Some "-"%char /\
    String.get 14 id = Some "4"%char /\
    exists d, String.get 19 id = Some d /\ is_variant d = true.
Proof.
  intros Hr. exists (uuid_at (draws w)).
  pose proof (replace_xy_fills uuid_template Hr (draws w)) as F. fold (uuid_at (draws w)) in F.
  split; [apply generateUUID_run|]. split; [exact F|].
  split; [rewrite (fills_length _ _ F); reflexivity|].
  repeat split;
    try (match goal with
         | |- String.get ?i _ = Some ?c =>
             destruct (fills_get uuid_template _ i c F eq_refl) as (d & Hd & Hc);
             cbn in Hc; subst d; exact Hd
         end).
  destruct (fills_get uuid_template _ 19 "y"%char F eq_refl) as (d & Hd & Hc).
  exists d. auto.
Qed.

(** ** The set of subscribers *)

Lemma Set_add_NoDup ws cs : NoDup cs -> NoDup (Set_add ws cs).
Proof.
  intros H. unfold Set_add. destruct (in_dec Nat.eq_dec ws cs) as [Hin|Hin]; [exact H|].
  apply NoDup_app. repeat split; auto.
  - constructor; [intros []|constructor].
  - intros x Hx [<-|[]]. contradiction.
Qed.

Lemma Set_add_In ws cs : In ws (Set_add ws cs).
Proof.
  unfold Set_add. destruct (in_dec Nat.eq_dec ws cs) as [Hin|Hin]; [exact Hin|].
  apply in_or_app. right. left. reflexivity.
Qed.

Lemma ws_send_clients ws data w : clients (snd (ws_send ws data w)) = clients w.
Proof. unfold ws_send. destruct (readyState w ws); reflexivity. Qed.

Lemma on_message_clients ws data w : clients (snd (on_message ws data w)) = clients w.
Proof.
  unfold on_message, try_catch. destruct (JSON_parse data).
  - rewrite broadcast_run. reflexivity.
  - unfold throw. apply ws_send_clients.
Qed.

Lemma handle_NoDup ev w : NoDup (clients w) -> NoDup (clients (snd (handle ev w))).
Proof.
  intros H. destruct ev as [ws|ws data|ws|ws]; cbn [handle].
  - unfold on_connection, bind, set_readyState. cbn. rewrite ws_send_clients. cbn.
    apply Set_add_NoDup. exact H.
  - rewrite on_message_clients. exact H.
  - cbn. apply Set_delete_NoDup. exact H.
  - cbn. apply Set_delete_NoDup. exact H.
Qed.

(** X2: whatever connections, messages, closes and errors occur, in
    whatever order, the set of subscribers never holds a socket twice. *)
Theorem subscribers_stay_distinct evs w :
  NoDup (clients w) -> NoDup (clients (handle_all evs w)).
Proof.
  revert w. induction evs as [|ev evs IH]; intros w H; cbn; [exact H|].
  apply IH, handle_NoDup, H.
Qed.

(** X3: a new connection is put in the set with an open socket and is
    sent the greeting, and no one else is sent anything; the next event
    published reaches it. *)
Theorem connection_then_broadcast ws data w :
  exists w1 w2,
    on_connection ws w = (Normal tt, w1) /\
    clients w1 = Set_add ws (clients w) /\ In ws (clients w1) /\
    readyState w1 ws = OPEN /\
    (forall x, x <> ws -> readyState w1 x = readyState w x) /\
    wire w1 = wire w ++ [(ws, JSON_stringify greeting)] /\
    db w1 = db w /\
    broadcast data w1 = (Normal tt, w2) /\
    In (ws, JSON_stringify data) (wire w2).
Proof.
  set (w1 := with_wire (wire w ++ [(ws, JSON_stringify greeting)])
               (with_clients (Set_add ws (clients w))
                  (with_readyState
                     (fun x => if Nat.eqb x ws then OPEN else readyState w x) w))).
  assert (Hopen : readyState w1 ws = OPEN) by (cbn; rewrite Nat.eqb_refl; reflexivity).
  exists w1, (with_wire (wire w1 ++ frames (JSON_stringify data) (open_clients w1)) w1).
  split.
  { unfold on_connection, bind, set_readyState, ws_send.
    cbn [readyState with_readyState with_clients]. rewrite Nat.eqb_refl. reflexivity. }
  split; [reflexivity|]. split; [apply Set_add_In|]. split; [exact Hopen|].
  split.
  { intros x Hx. apply Nat.eqb_neq in Hx. cbn. rewrite Hx. reflexivity. }
  split; [reflexivity|]. split; [reflexivity|]. split; [apply broadcast_run|].
  cbn [wire with_wire]. apply in_or_app. right. unfold frames. apply in_map_iff.
  exists ws. split; [reflexivity|]. unfold open_clients. apply filter_In.
  rewrite Hopen. split; [apply Set_add_In | reflexivity].
Qed.

(** X4: a subscriber whose socket is not open is sent nothing by
    [broadcast] and stays in the set; the open ones are sent the frame
    and nothing else of the process changes. *)
Theorem broadcast_skips_sockets_not_open data c w :
  In c (clients w) ->
  readyState w c <> OPEN ->
  exists w' sent,
    broadcast data w = (Normal tt, w') /\
    wire w' = wire w ++ sent /\
    sent = frames (JSON_stringify data) (open_clients w) /\
    (forall payload, deliveries c payload sent = 0%nat) /\
    (forall x, In x (clients w) -> readyState w x = OPEN ->
               In (x, JSON_stringify data) sent) /\
    In c (clients w') /\ clients w' = clients w /\ db w' = db w.
Proof.
  intros Hin Hst. eexists. eexists. split; [apply broadcast_run|].
  cbn. repeat split; auto.
  - intros payload. unfold deliveries, frames. apply count_occ_not_In.
    intros H. apply in_map_iff in H. destruct H as (x & [= -> _] & Hx).
    unfold open_clients in Hx. apply filter_In in Hx. destruct Hx as [_ Hx].
    destruct (readyState w c); try discriminate. contradiction.
  - intros x Hx Ho. unfold frames. apply in_map_iff. exists x. split; [reflexivity|].
    unfold open_clients. apply filter_In. rewrite Ho. auto.
Qed.

(** ** More on the reconciliation of a task *)

Lemma js_or_falsy a b : truthy a = false -> js_or a b = b.
Proof. intros H. unfold js_or. destruct a; [rewrite H|]; reflexivity. Qed.

Lemma upserted_others tid cid st sd now ts t :
  In t ts -> task_id t <> tid -> In t (upserted tid cid st sd now ts).
Proof.
  intros Hin Hne. unfold upserted. destruct (existsb (by_id tid) ts).
  - apply in_map_iff. exists t. split; [|exact Hin].
    unfold by_id. apply String.eqb_neq in Hne. rewrite Hne. reflexivity.
  - apply in_or_app. left. exact Hin.
Qed.


(** X5: after the reconciliation of a task that no artifact refers to,
    the row of the task holds the fields of the event: the conversation
    of the event whatever conversation the task was in, its status, and
    for state details those of the event or, when it has none, the
    status; the row keeps its [created_at] and the rows of the other
    tasks are kept. *)
Theorem reconciled_row_takes_the_event body tid cid st w :
  task_event body tid cid st ->
  conversation_exists (db w) cid = true ->
  task_referenced (db w) tid = false ->
  NoDup (map task_id (tasks (db w))) ->
  let w' := snd (host_task_update body w) in
  exists t,
    filter (by_id tid) (tasks (db w')) = [t] /\
    task_conversation_id t = cid /\
    task_status t = st /\
    task_state_details t
    = Some (JSON_stringify (js_or (prop body "state_details") (JStr st))) /\
    (truthy (prop body "state_details") = false ->
     task_state_details t = Some (JSON_stringify (JStr st))) /\
    (forall t0, In t0 (filter (by_id tid) (tasks (db w))) ->
                task_created_at t = task_created_at t0) /\
    (forall t', In t' (tasks (db w)) -> task_id t' <> tid -> In t' (tasks (db w'))).
Proof.
  intros Hev Hc Hr Hnd w'.
  destruct (host_task_update_tasks body tid cid st w Hev Hc Hr) as (T & _ & _).
  fold w' in T.
  destruct (upserted_row tid cid st
              (JSON_stringify (js_or (prop body "state_details") (JStr st)))
              (system_clock (reads w)) _ Hnd)
    as (t & F & _ & Hcid & Hst & Hsd & _ & Hcreated).
  exists t. rewrite T. repeat split; auto.
  - intros Hf. rewrite Hsd, (js_or_falsy _ _ Hf). reflexivity.
  - intros t' Hin Hne. apply upserted_others; assumption.
Qed.

Lemma upsert_task_unknown_conversation tid cid st sd w :
  conversation_exists (db w) cid = false ->
  exists e w',
    upsert_task (JStr tid) (JStr cid) (JStr st) sd w = (Abrupt e, w') /\
    db w' = db w /\ wire w' = wire w /\ clients w' = clients w.
Proof.
  intros Hc. unfold upsert_task.
  rewrite (bind_Normal _ _ _ _ _ (SELECT_tasks_by_id_string tid w)).
  rewrite <- task_exists_filter. destruct (task_exists (db w) tid) eqn:E.
  - unfold UPDATE_task, bind, bind_param. rewrite !bind_text_string.
    cbn -[task_exists conversation_exists task_referenced]. unfold statement.
    cbn -[task_exists conversation_exists task_referenced]. rewrite E, Hc. cbn.
    destruct (task_referenced (db w) tid);
      (eexists; eexists; split; [reflexivity|]; cbn; destruct (db w); auto).
  - unfold INSERT_task, bind, bind_param. rewrite !bind_text_string.
    cbn -[task_exists conversation_exists]. unfold statement.
    cbn -[task_exists conversation_exists]. rewrite E, Hc. cbn.
    eexists. eexists. split; [reflexivity|]. cbn. destruct (db w). auto.
Qed.

(** X6: an event for a conversation the store does not hold is answered
    500: the foreign key of [tasks] refuses the row, nothing is written
    and nothing is sent, whether the task exists or not. *)
Theorem unknown_conversation_is_refused body tid cid st w :
  task_event body tid cid st ->
  conversation_exists (db w) cid = false ->
  exists r w',
    host_task_update body w = (Normal r, w') /\
    http_status r = 500%Z /\
    db w' = db w /\ wire w' = wire w /\ clients w' = clients w.
Proof.
  intros Hev Hc. rewrite (host_task_update_task_event _ _ _ _ Hev). unfold reconcile.
  destruct (upsert_task_unknown_conversation tid cid st
              (JSON_stringify (js_or (prop body "state_details") (JStr st))) w Hc)
    as (e & w' & Hup & Hdb & Hwire & Hcl).
  exists (internal_error "Internal server error processing task update" e), w'.
  split; [|auto].
  unfold try_catch. rewrite (bind_Abrupt _ _ _ _ _ Hup). reflexivity.
Qed.

(** ** [ORDER BY] *)

Section OrderBy.

Context {A : Type} (before : A -> A -> bool).
Hypothesis before_asym : forall a b, before a b = true -> before b a = false.
Hypothesis before_trans :
  forall a b c, before a b = true -> before c b = false -> before c a = false.

Lemma insert_by_Permutation a l : Permutation (insert_by before a l) (a :: l).
Proof.
  induction l as [|b l IH]; cbn; [reflexivity|].
  destruct (before a b); [reflexivity|].
  rewrite IH. apply perm_swap.
Qed.

Lemma order_by_Permutation l : Permutation (order_by before l) l.
Proof.
  unfold order_by.
  assert (G : forall acc, Permutation (fold_left (fun acc a => insert_by before a acc) l acc)
                                      (acc ++ l)).
  { induction l as [|a l IH]; intros acc; cbn; [rewrite app_nil_r; reflexivity|].
    rewrite IH, insert_by_Permutation. apply Permutation_middle. }
  apply (G []).
Qed.

Lemma insert_by_in_order a l : in_order before l -> in_order before (insert_by before a l).
Proof.
  unfold in_order. induction l as [|b l IH]; cbn; intros H.
  - constructor; constructor.
  - inversion H as [|x y Hl Hb]; subst. destruct (before a b) eqn:E.
    + constructor; [exact H|]. constructor; [apply before_asym; exact E|].
      rewrite Forall_forall in *. intros c Hc.
      apply (before_trans a b c E). apply Hb. exact Hc.
    + constructor; [apply IH; exact Hl|].
      rewrite Forall_forall in *. intros c Hc.
      apply (Permutation_in _ (insert_by_Permutation a l)) in Hc.
      destruct Hc as [<-|Hc]; [exact E | apply Hb; exact Hc].
Qed.

Lemma order_by_in_order l : in_order before (order_by before l).
Proof.
  unfold order_by.
  assert (G : forall acc, in_order before acc ->
                          in_order before (fold_left (fun acc a => insert_by before a acc) l acc)).
  { induction l as [|a l IH]; intros acc Hacc; cbn; [exact Hacc|].
    apply IH, insert_by_in_order, Hacc. }
  apply G. constructor.
Qed.

End OrderBy.

Lemma ASC_asym {A} (key : A -> Z) a b : ASC key a b = true -> ASC key b a = false.
Proof. unfold ASC. rewrite Z.ltb_lt, Z.ltb_ge. lia. Qed.

Lemma ASC_trans {A} (key : A -> Z) a b c :
  ASC key a b = true -> ASC key c b = false -> ASC key c a = false.
Proof. unfold ASC. rewrite Z.ltb_lt, !Z.ltb_ge. lia. Qed.

Lemma DESC_asym {A} (key : A -> Z) a b : DESC key a b = true -> DESC key b a = false.
Proof. unfold DESC. rewrite Z.ltb_lt, Z.ltb_ge. lia. Qed.

Lemma DESC_trans {A} (key : A -> Z) a b c :
  DESC key a b = true -> DESC key c b = false -> DESC key c a = false.
Proof. unfold DESC. rewrite Z.ltb_lt, !Z.ltb_ge. lia. Qed.

(** ** Conversations *)

Lemma createConversation_contract host w :
  gateway_contract host w (createConversation host) (conversation_request w).
Proof.
  apply (gateway_call_contract host w
           (fun apiKey => {| req_url := _; req_method := _;
                             req_headers := json_headers apiKey; req_body := _ |})).
Qed.

Lemma createConversation_run host w hostResponse :
  fst (createConversation host w) = Normal hostResponse ->
  createConversation host w = (Normal hostResponse, w).
Proof.
  intros H. destruct (createConversation_contract host w) as (result & Hrun & _).
  rewrite Hrun in H. cbn in H. injection H as <-. exact Hrun.
Qed.

Lemma INSERT_conversation_run id name w :
  conversation_exists (db w) id = false ->
  INSERT_conversation id (JStr name) true w =
  (Normal tt,
   with_db (with_conversations
              (conversations (db w)
               ++ [{| conv_id := id; conv_name := name; conv_is_active := true;
                      conv_created_at := system_clock (reads w) |}]) (db w))
           (with_reads (S (reads w)) w)).
Proof.
  intros H. unfold INSERT_conversation, bind, bind_param. rewrite bind_text_string.
  cbn -[conversation_exists]. unfold statement. cbn -[conversation_exists].
  rewrite H. reflexivity.
Qed.

(** What [/conversation/create] does when the host accepts, the name
    chosen is a string and the identifier drawn is new. *)
Lemma conversation_create_run host hostResponse name w :
  fst (createConversation host w) = Normal hostResponse ->
  hostResponse <> JNull ->
  truthy (prop hostResponse "error") = false ->
  chosen_name hostResponse (uuid_at (draws w)) = JStr name ->
  conversation_exists (db w) (uuid_at (draws w)) = false ->
  exists w',
    conversation_create host w
    = (Normal {| http_status := 201;
                 http_body :=
                   JObj [("id", JStr (uuid_at (draws w))); ("name", JStr name);
                         ("is_active", JBool true);
                         ("created_at", JStr (toISOString (system_clock (S (reads w)))));
                         ("message", JStr "Conversation created successfully")] |},
       w') /\
    conversations (db w')
    = conversations (db w)
      ++ [{| conv_id := uuid_at (draws w); conv_name := name; conv_is_active := true;
             conv_created_at := system_clock (reads w) |}] /\
    tasks (db w') = tasks (db w) /\
    messages (db w') = messages (db w) /\
    task_artifacts (db w') = task_artifacts (db w) /\
    wire w' = wire w ++ frames (JSON_stringify
                                  (conversation_created
                                     (new_conversation (uuid_at (draws w)) (JStr name)
                                        (system_clock (S (reads w))))))
                               (open_clients w) /\
    clients w' = clients w /\ readyState w' = readyState w /\
    draws w' = (draws w + 31)%nat.
Proof.
  intros Hres Hnn Herr Hname Hfresh.
  pose proof (createConversation_run host w hostResponse Hres) as Hcall.
  set (w1 := with_draws (draws w + 31) w).
  pose proof (INSERT_conversation_run (uuid_at (draws w)) name w1 Hfresh) as Hins.
  set (w2 := with_db _ _) in Hins.
  set (w3 := with_reads (S (S (reads w))) w2).
  pose proof (broadcast_run
                (conversation_created
                   (new_conversation (uuid_at (draws w)) (JStr name)
                      (system_clock (S (reads w))))) w3) as Hb.
  eexists. split.
  - unfold conversation_create. apply try_catch_Normal.
    rewrite (bind_Normal _ _ _ _ _ Hcall).
    rewrite (get_prop_not_null _ _ Hnn). unfold bind at 1, ret at 1. rewrite Herr.
    rewrite (bind_Normal _ _ _ _ _ (generateUUID_run w)).
    fold (chosen_name hostResponse (uuid_at (draws w))). rewrite Hname.
    fold w1. rewrite (bind_Normal _ _ _ _ _ Hins).
    unfold bind at 1, CURRENT_TIMESTAMP at 1.
    change (with_reads (S (reads w2)) w2) with w3.
    change (system_clock (reads w2)) with (system_clock (S (reads w))).
    fold (new_conversation (uuid_at (draws w)) (JStr name) (system_clock (S (reads w)))).
    rewrite (bind_Normal _ _ _ _ _ Hb). reflexivity.
  - cbn. repeat split.
Qed.

(** X7: when the host accepts and the identifier drawn is new,
    [/conversation/create] answers 201, appends the conversation, active
    and under the name the host gave or, without one, [Conversation] and
    the first eight characters of its identifier, and sends every open
    subscriber the [conversation_created] event; no other table
    changes. *)
Theorem conversation_create_stores_and_announces host hostResponse name w :
  fst (createConversation host w) = Normal hostResponse ->
  hostResponse <> JNull ->
  truthy (prop hostResponse "error") = false ->
  chosen_name hostResponse (uuid_at (draws w)) = JStr name ->
  conversation_exists (db w) (uuid_at (draws w)) = false ->
  exists r w' row,
    conversation_create host w = (Normal r, w') /\
    http_status r = 201%Z /\
    prop (http_body r) "id" = Some (JStr (conv_id row)) /\
    prop (http_body r) "name" = Some (JStr name) /\
    conversations (db w') = conversations (db w) ++ [row] /\
    conv_id row = uuid_at (draws w) /\ conv_name row = name /\
    conv_is_active row = true /\
    (truthy (prop hostResponse "name") = false ->
     name = ("Conversation " ++ substring_0_8 (conv_id row))%string) /\
    tasks (db w') = tasks (db w) /\ messages (db w') = messages (db w) /\
    task_artifacts (db w') = task_artifacts (db w) /\
    exists now,
      wire w' = wire w ++ frames (JSON_stringify
                                    (conversation_created
                                       (new_conversation (conv_id row) (JStr name) now)))
                                 (open_clients w).
Proof.
  intros Hres Hnn Herr Hname Hfresh.
  destruct (conversation_create_run host hostResponse name w Hres Hnn Herr Hname Hfresh)
    as (w' & Hrun & Hc & Ht & Hm & Ha & Hw & _).
  eexists. exists w'.
  exists {| conv_id := uuid_at (draws w); conv_name := name; conv_is_active := true;
            conv_created_at := system_clock (reads w) |}.
  split; [exact Hrun|].
  split; [reflexivity|]. split; [reflexivity|]. split; [reflexivity|].
  split; [exact Hc|]. split; [reflexivity|]. split; [reflexivity|]. split; [reflexivity|].
  split.
  { intros Hf. unfold chosen_name in Hname. rewrite (js_or_falsy _ _ Hf) in Hname.
    injection Hname as <-. reflexivity. }
  split; [exact Ht|]. split; [exact Hm|]. split; [exact Ha|].
  eexists. exact Hw.
Qed.

(** X8: when the host returns an error result, [/conversation/create]
    answers 500, inserts no conversation and sends nothing. *)
Theorem conversation_create_fails_with_the_host host hostResponse w :
  fst (createConversation host w) = Normal hostResponse ->
  truthy (prop hostResponse "error") = true ->
  exists r,
    conversation_create host w = (Normal r, w) /\
    http_status r = 500%Z /\
    prop (http_body r) "message" = Some (JStr "Failed to create conversation with host").
Proof.
  intros Hres Herr.
  pose proof (createConversation_run host w hostResponse Hres) as Hcall.
  assert (Hnn : hostResponse <> JNull) by (intros ->; discriminate).
  eexists. split.
  - unfold conversation_create. apply try_catch_Normal.
    rewrite (bind_Normal _ _ _ _ _ Hcall).
    rewrite (get_prop_not_null _ _ Hnn). unfold bind at 1, ret at 1. rewrite Herr.
    reflexivity.
  - split; reflexivity.
Qed.


Lemma in_order_DESC {A} (key : A -> Z) l :
  in_order (DESC key) l -> StronglySorted (fun a b => (key b <= key a)%Z) l.
Proof.
  unfold in_order. induction 1 as [|a l Hl IH Ha]; constructor; [exact IH|].
  eapply Forall_impl; [|exact Ha]. intros b Hb. unfold DESC in Hb.
  apply Z.ltb_ge in Hb. exact Hb.
Qed.

Lemma in_order_ASC {A} (key : A -> Z) l :
  in_order (ASC key) l -> StronglySorted (fun a b => (key a <= key b)%Z) l.
Proof.
  unfold in_order. induction 1 as [|a l Hl IH Ha]; constructor; [exact IH|].
  eapply Forall_impl; [|exact Ha]. intros b Hb. unfold ASC in Hb.
  apply Z.ltb_ge in Hb. exact Hb.
Qed.

(** X10: [/conversation/list] answers 200 and changes nothing; its body
    holds one object per stored conversation, none left out and none
    twice, the latest created first. *)
Theorem conversation_list_lists_all_newest_first w :
  exists rows,
    conversation_list w
    = (Normal {| http_status := 200; http_body := JArr (map conversation_object rows) |}, w) /\
    Permutation rows (conversations (db w)) /\
    StronglySorted (fun a b => (conv_created_at b <= conv_created_at a)%Z) rows.
Proof.
  exists (order_by (DESC conv_created_at) (conversations (db w))).
  split; [reflexivity|]. split.
  - apply order_by_Permutation.
  - apply in_order_DESC, order_by_in_order; [apply DESC_asym | apply DESC_trans].
Qed.

(** ** The API key *)

(** X16: [/api_key/update] accepts any string, the empty one included:
    it answers 200 and the next call of the gateway carries that key in
    its [X-API-Key] header; anything but a string is answered 400 and
    the key stays as it was. *)
Theorem api_key_update_takes_effect body host messageData w :
  match prop body "api_key" with
  | Some (JStr key) =>
      exists r w',
        api_key_update body w = (Normal r, w') /\
        http_status r = 200%Z /\
        currentApiKey w' = key /\ db w' = db w /\ wire w' = wire w /\
        req_headers (message_request messageData w')
        = [("Content-Type", "application/json"); ("X-API-Key", key)] /\
        gateway_contract host w' (sendMessageToHost host messageData)
                         (message_request messageData w')
  | _ =>
      exists r,
        api_key_update body w = (Normal r, w) /\ http_status r = 400%Z
  end.
Proof.
  unfold api_key_update.
  destruct (prop body "api_key") as [[| | |key| |]|];
    try (eexists; split; reflexivity).
  eexists. eexists. split; [reflexivity|]. cbn.
  repeat split. apply sendMessageToHost_contract.
Qed.

(** ** Messages *)

(** X12: a request to [/message/send] without a conversation, whose
    content is not an array or whose role is neither [user] nor [agent]
    is answered 400 and nothing happens: nothing is stored, nothing is
    sent, no identifier is drawn. *)
Theorem invalid_message_is_rejected host body w :
  message_request_invalid body ->
  exists r,
    message_send host body w = (Normal r, w) /\ http_status r = 400%Z.
Proof.
  intros H. unfold message_send.
  destruct (negb (truthy (prop body "conversation_id")) || negb (truthy (prop body "role"))
            || negb (truthy (prop body "content"))
            || negb (Array_isArray (prop body "content"))) eqn:G.
  { eexists. split; reflexivity. }
  destruct (strict_neq (prop body "role") "user" && strict_neq (prop body "role") "agent")
    eqn:G2.
  { eexists. split; reflexivity. }
  exfalso. apply orb_false_elim in G. destruct G as (G & Ga).
  apply orb_false_elim in G. destruct G as (G & _).
  apply orb_false_elim in G. destruct G as (Gc & _).
  apply negb_false_iff in Gc, Ga.
  destruct H as [H | [H | (H1 & H2)]]; try congruence.
  apply andb_false_iff in G2. unfold strict_neq in G2.
  destruct (prop body "role") as [[| | |role| |]|]; try (destruct G2; discriminate).
  destruct G2 as [G2|G2]; apply negb_false_iff, String.eqb_eq in G2; subst role;
    [apply H1 | apply H2]; reflexivity.
Qed.

Lemma INSERT_message_run id cid (tidj : option json) (tid : option string) role content
  created w :
  match tidj, tid with
  | Some j, Some t => j = JStr t
  | None, None => True
  | _, _ => False
  end ->
  existsb (fun m => String.eqb (msg_id m) id) (messages (db w)) = false ->
  conversation_exists (db w) cid = true ->
  INSERT_message id (JStr cid) tidj (JStr role) content created w =
  (Normal tt,
   with_db (with_messages
              (messages (db w)
               ++ [{| msg_id := id; msg_conversation_id := cid; msg_task_id := tid;
                      msg_role := role; msg_content := content;
                      msg_created_at := created |}]) (db w)) w).
Proof.
  intros Ht Hf Hc. unfold INSERT_message, bind at 1, bind_param at 1.
  rewrite bind_text_string. unfold ret at 1.
  destruct tidj as [j|], tid as [t|]; try contradiction.
  - subst j. unfold bind, bind_param. rewrite !bind_text_string.
    cbn -[conversation_exists]. unfold statement. cbn -[conversation_exists].
    rewrite Hf, Hc. reflexivity.
  - unfold bind, bind_param. rewrite !bind_text_string.
    cbn -[conversation_exists]. unfold statement. cbn -[conversation_exists].
    rewrite Hf, Hc. reflexivity.
Qed.

(** What [/message/send] does with a valid message that the host
    accepts. *)
Lemma message_send_run host body cid role parts tid result w :
  prop body "conversation_id" = Some (JStr cid) -> cid <> "" ->
  prop body "role" = Some (JStr role) -> role = "user" \/ role = "agent" ->
  prop body "content" = Some (JArr parts) ->
  stored_task_id body tid ->
  fst (sendMessageToHost host (messageDataForHost (uuid_at (draws w)) body) w)
  = Normal result ->
  result <> JNull ->
  truthy (prop result "error") = false ->
  conversation_exists (db w) cid = true ->
  existsb (fun m => String.eqb (msg_id m) (uuid_at (draws w))) (messages (db w)) = false ->
  let payload := message_payload (uuid_at (draws w)) cid tid role (JArr parts)
                   (system_clock (reads w)) in
  exists w',
    message_send host body w
    = (Normal (respond 201 [("message", Some (JStr "Message sent and stored successfully"));
                            ("data", Some payload)]), w') /\
    messages (db w')
    = messages (db w)
      ++ [{| msg_id := uuid_at (draws w); msg_conversation_id := cid; msg_task_id := tid;
             msg_role := role; msg_content := JSON_stringify (JArr parts);
             msg_created_at := system_clock (reads w) |}] /\
    conversations (db w') = conversations (db w) /\
    tasks (db w') = tasks (db w) /\
    task_artifacts (db w') = task_artifacts (db w) /\
    wire w' = wire w ++ frames (JSON_stringify (new_message payload)) (open_clients w) /\
    clients w' = clients w.
Proof.
  intros Hcid Hcn Hrole Hr Hparts Htid Hres Hnn Herr Hconv Hfresh payload.
  set (w1 := with_reads (S (reads w)) (with_draws (draws w + 31) w)).
  assert (Hsend : sendMessageToHost host (messageDataForHost (uuid_at (draws w)) body) w1
                  = (Normal result, w1)).
  { apply (sendMessageToHost_run host _ w w1 result); [reflexivity | reflexivity | exact Hres]. }
  assert (Htask : exists tidj,
             (if truthy (prop body "task_id") then prop body "task_id" else None) = tidj /\
             match tidj, tid with
             | Some j, Some t => j = JStr t
             | None, None => True
             | _, _ => False
             end /\
             js_or (prop body "task_id") JNull = null_or_string tid).
  { destruct tid as [t|]; cbn in Htid.
    - destruct Htid as (Ht & Htn). rewrite Ht, (truthy_nonempty _ Htn).
      exists (Some (JStr t)). repeat split. unfold js_or.
      rewrite (truthy_nonempty _ Htn). reflexivity.
    - rewrite Htid. exists None. repeat split. apply js_or_falsy. exact Htid. }
  destruct Htask as (tidj & Htj & Hm & Hjs).
  pose proof (INSERT_message_run (uuid_at (draws w)) cid tidj tid role
                (JSON_stringify (JArr parts)) (system_clock (reads w)) w1 Hm Hfresh Hconv)
    as Hins.
  set (w2 := with_db _ w1) in Hins.
  pose proof (broadcast_run (new_message payload) w2) as Hb.
  eexists. split.
  - unfold message_send. rewrite Hcid, Hrole, Hparts.
    rewrite (truthy_nonempty _ Hcn).
    assert (Hrn : truthy (Some (JStr role)) = true /\
                  strict_neq (Some (JStr role)) "user"
                  && strict_neq (Some (JStr role)) "agent" = false).
    { destruct Hr as [-> | ->]; split; reflexivity. }
    destruct Hrn as (Hr1 & Hr2). rewrite Hr1, Hr2. cbn [truthy negb orb Array_isArray].
    apply try_catch_Normal.
    rewrite (bind_Normal _ _ _ _ _ (generateUUID_run w)).
    unfold bind at 1, CURRENT_TIMESTAMP at 1.
    change (with_reads (S (reads (with_draws (draws w + 31) w))) (with_draws (draws w + 31) w))
      with w1.
    rewrite (bind_Normal _ _ _ _ _ Hsend).
    rewrite (get_prop_not_null _ _ Hnn). unfold bind at 1, ret at 1. rewrite Herr.
    rewrite Htj, Hjs.
    change (system_clock (reads (with_draws (draws w + 31) w)))
      with (system_clock (reads w)).
    rewrite (bind_Normal _ _ _ _ _ Hins).
    fold (message_payload (uuid_at (draws w)) cid tid role (JArr parts)
            (system_clock (reads w))).
    fold payload. fold (new_message payload).
    rewrite (bind_Normal _ _ _ _ _ Hb). reflexivity.
  - cbn. repeat split.
Qed.

(** X11: a valid message that the host accepts, for a conversation of
    the store, is answered 201: one row is appended to [messages] with
    the content serialized, and every open subscriber is sent the
    [new_message] event, whose data carries the content as received and
    is the data of the answer. *)
Theorem accepted_message_is_stored_and_announced host body cid role parts tid result w :
  prop body "conversation_id" = Some (JStr cid) -> cid <> "" ->
  prop body "role" = Some (JStr role) -> role = "user" \/ role = "agent" ->
  prop body "content" = Some (JArr parts) ->
  stored_task_id body tid ->
  fst (sendMessageToHost host (messageDataForHost (uuid_at (draws w)) body) w)
  = Normal result ->
  result <> JNull ->
  truthy (prop result "error") = false ->
  conversation_exists (db w) cid = true ->
  existsb (fun m => String.eqb (msg_id m) (uuid_at (draws w))) (messages (db w)) = false ->
  exists r w' row payload,
    message_send host body w = (Normal r, w') /\
    http_status r = 201%Z /\
    prop (http_body r) "data" = Some payload /\
    messages (db w') = messages (db w) ++ [row] /\
    msg_id row = uuid_at (draws w) /\ msg_conversation_id row = cid /\
    msg_task_id row = tid /\ msg_role row = role /\
    msg_content row = JSON_stringify (JArr parts) /\
    prop payload "id" = Some (JStr (msg_id row)) /\
    prop payload "content" = Some (JArr parts) /\
    wire w' = wire w ++ frames (JSON_stringify (new_message payload)) (open_clients w) /\
    conversations (db w') = conversations (db w) /\
    tasks (db w') = tasks (db w) /\
    task_artifacts (db w') = task_artifacts (db w).
Proof.
  intros Hcid Hcn Hrole Hr Hparts Htid Hres Hnn Herr Hconv Hfresh.
  destruct (message_send_run host body cid role parts tid result w
              Hcid Hcn Hrole Hr Hparts Htid Hres Hnn Herr Hconv Hfresh)
    as (w' & Hrun & Hm & Hc & Ht & Ha & Hw & _).
  eexists. exists w'.
  exists {| msg_id := uuid_at (draws w); msg_conversation_id := cid; msg_task_id := tid;
            msg_role := role; msg_content := JSON_stringify (JArr parts);
            msg_created_at := system_clock (reads w) |}.
  exists (message_payload (uuid_at (draws w)) cid tid role (JArr parts)
            (system_clock (reads w))).
  split; [exact Hrun|]. repeat split; auto.
Qed.

Lemma message_list_run body cid w :
  prop body "conversation_id" = Some (JStr cid) -> cid <> "" ->
  message_list body w
  = (Normal {| http_status := 200;
               http_body := JArr (map format_message
                                    (order_by (ASC msg_created_at) (messages_of cid w))) |},
     w).
Proof.
  intros Hc Hn. unfold message_list. rewrite Hc, (truthy_nonempty _ Hn). cbn [negb].
  unfold try_catch, SELECT_messages_of_conversation, bind, bind_param.
  rewrite bind_text_string. reflexivity.
Qed.

Lemma format_message_item m : message_item m (format_message m).
Proof.
  unfold message_item, format_message.
  destruct (JSON_parse (msg_content m)) as [v|]; cbn; repeat split; try reflexivity.
  - intros v' [= <-]. reflexivity.
  - discriminate.
  - discriminate.
Qed.

(** X13: a message that [/message/send] has stored is listed by
    [/message/list] for its conversation, with its role and, when the
    codec decodes what it encoded, with the very content sent. *)
Theorem sent_message_is_listed host body lbody cid role parts tid result w :
  prop body "conversation_id" = Some (JStr cid) -> cid <> "" ->
  prop body "role" = Some (JStr role) -> role = "user" \/ role = "agent" ->
  prop body "content" = Some (JArr parts) ->
  stored_task_id body tid ->
  fst (sendMessageToHost host (messageDataForHost (uuid_at (draws w)) body) w)
  = Normal result ->
  result <> JNull ->
  truthy (prop result "error") = false ->
  conversation_exists (db w) cid = true ->
  existsb (fun m => String.eqb (msg_id m) (uuid_at (draws w))) (messages (db w)) = false ->
  JSON_parse (JSON_stringify (JArr parts)) = Some (JArr parts) ->
  prop lbody "conversation_id" = Some (JStr cid) ->
  let w' := snd (message_send host body w) in
  exists items item,
    message_list lbody w' = (Normal {| http_status := 200; http_body := JArr items |}, w') /\
    In item items /\
    prop item "id" = Some (JStr (uuid_at (draws w))) /\
    prop item "role" = Some (JStr role) /\
    prop item "content" = Some (JArr parts).
Proof.
  intros Hcid Hcn Hrole Hr Hparts Htid Hres Hnn Herr Hconv Hfresh Hcodec Hl w'.
  destruct (message_send_run host body cid role parts tid result w
              Hcid Hcn Hrole Hr Hparts Htid Hres Hnn Herr Hconv Hfresh)
    as (w1 & Hrun & Hm & _).
  assert (E : w' = w1) by (subst w'; rewrite Hrun; reflexivity).
  rewrite E. clear E w'.
  set (row := {| msg_id := uuid_at (draws w); msg_conversation_id := cid;
                 msg_task_id := tid; msg_role := role;
                 msg_content := JSON_stringify (JArr parts);
                 msg_created_at := system_clock (reads w) |}) in Hm.
  eexists. exists (format_message row). split; [exact (message_list_run lbody cid w1 Hl Hcn)|].
  split.
  - apply in_map. apply (Permutation_in _ (Permutation_sym (order_by_Permutation _ _))).
    unfold messages_of. apply filter_In. rewrite Hm. split.
    + apply in_or_app. right. left. reflexivity.
    + cbn. apply String.eqb_refl.
  - destruct (format_message_item row) as (Hid & _ & _ & Hro & _ & Hok & _).
    split; [exact Hid|]. split; [exact Hro|]. apply Hok. exact Hcodec.
Qed.

(** X14: [/message/list] without a conversation is answered 400; for a
    conversation it answers 200 with one object per message of that
    conversation and of no other, the oldest first, each with its
    content decoded or, when it does not decode, the placeholder in its
    place; neither changes anything. *)
Theorem message_list_lists_the_conversation body w :
  (truthy (prop body "conversation_id") = false ->
   exists r, message_list body w = (Normal r, w) /\ http_status r = 400%Z) /\
  (forall cid,
     prop body "conversation_id" = Some (JStr cid) -> cid <> "" ->
     exists rows items,
       message_list body w
       = (Normal {| http_status := 200; http_body := JArr items |}, w) /\
       Permutation rows (messages_of cid w) /\
       StronglySorted (fun a b => (msg_created_at a <= msg_created_at b)%Z) rows /\
       Forall2 message_item rows items).
Proof.
  split.
  - intros H. unfold message_list.
    destruct (prop body "conversation_id") as [c|]; [rewrite H|];
      eexists; split; reflexivity.
  - intros cid Hc Hn.
    exists (order_by (ASC msg_created_at) (messages_of cid w)). eexists.
    split; [exact (message_list_run body cid w Hc Hn)|]. split; [apply order_by_Permutation|].
    split; [apply in_order_ASC, order_by_in_order; [apply ASC_asym | apply ASC_trans]|].
    induction (order_by (ASC msg_created_at) (messages_of cid w)) as [|m l IH]; cbn;
      constructor; [apply format_message_item | exact IH].
Qed.

(** ** The list of tasks *)

Lemma format_tasks_run rows w :
  format_tasks rows w
  = (Normal (map (fun t => snapshot t (artifact_rows (task_id t) w)) rows), w).
Proof.
  induction rows as [|t rows IH]; cbn [format_tasks map]; [reflexivity|].
  unfold bind at 1, SELECT_artifacts_of_task at 1, query at 1.
  unfold bind at 1. rewrite IH. reflexivity.
Qed.

Lemma SELECT_tasks_run body sel w :
  selects body sel ->
  SELECT_tasks (prop body "conversation_id") w
  = (Normal (order_by (DESC task_created_at) (tasks_selected sel w)), w).
Proof.
  intros H. unfold SELECT_tasks. destruct sel as [cid|]; cbn in H.
  - destruct H as (H & Hn). rewrite H, (truthy_nonempty _ Hn).
    unfold bind, bind_param. rewrite bind_text_string. reflexivity.
  - rewrite H. reflexivity.
Qed.

(** X15: [/task/list] answers 200 and changes nothing; it lists the
    tasks of the conversation asked for, or all tasks when none is
    asked for, the latest created first, and the object it gives for a
    task is the snapshot [getTaskWithArtifacts] gives for it, the one
    sent in [task_updated] events. *)
Theorem task_list_lists_snapshots body sel w :
  selects body sel ->
  exists rows,
    task_list body w
    = (Normal {| http_status := 200;
                 http_body := JArr (map (fun t => snapshot t (artifact_rows (task_id t) w))
                                        rows) |}, w) /\
    Permutation rows (tasks_selected sel w) /\
    StronglySorted (fun a b => (task_created_at b <= task_created_at a)%Z) rows /\
    (NoDup (map task_id (tasks (db w))) ->
     forall t, In t rows ->
       getTaskWithArtifacts (JStr (task_id t)) w
       = (Normal (Some (snapshot t (artifact_rows (task_id t) w))), w)).
Proof.
  intros H. exists (order_by (DESC task_created_at) (tasks_selected sel w)).
  split.
  { unfold task_list. apply try_catch_Normal.
    rewrite (bind_Normal _ _ _ _ _ (SELECT_tasks_run body sel w H)).
    rewrite (bind_Normal _ _ _ _ _ (format_tasks_run _ w)). reflexivity. }
  split; [apply order_by_Permutation|].
  split; [apply in_order_DESC, order_by_in_order; [apply DESC_asym | apply DESC_trans]|].
  intros Hnd t Hin.
  apply (Permutation_in _ (order_by_Permutation _ _)) in Hin.
  assert (Ht : In t (tasks (db w))).
  { destruct sel; cbn in Hin; [apply filter_In in Hin; tauto | exact Hin]. }
  assert (Hf : In t (filter (by_id (task_id t)) (tasks (db w)))).
  { apply filter_In. split; [exact Ht|]. unfold by_id. apply String.eqb_refl. }
  pose proof (filter_by_id_NoDup (task_id t) _ Hnd) as Hle.
  destruct (filter (by_id (task_id t)) (tasks (db w))) as [|t0 [|t1 l]] eqn:F;
    [destruct Hf | | cbn in Hle; lia].
  destruct Hf as [->|[]].
  apply (getTaskWithArtifacts_run (task_id t) t [] w F).
Qed.

(** ** The viewer *)

Lemma has_id_true id m : has_id id m = true -> prop m "id" = Some (JStr id).
Proof.
  unfold has_id. destruct (prop m "id") as [[| | |x| |]|]; cbn; try discriminate.
  intros H. apply String.eqb_eq in H. subst. reflexivity.
Qed.

Lemma has_id_false id m : has_id id m = false -> prop m "id" <> Some (JStr id).
Proof.
  unfold has_id. intros H E. rewrite E in H. cbn in H. rewrite String.eqb_refl in H.
  discriminate.
Qed.

Lemma has_id_self id data : prop data "id" = Some (JStr id) -> has_id id data = true.
Proof. unfold has_id. intros ->. cbn. apply String.eqb_refl. Qed.

Lemma same_id_run data id m :
  prop data "id" = Some (JStr id) -> m <> JNull ->
  same_id data m = Normal (has_id id m).
Proof.
  intros Hd Hm. unfold same_id, read, has_id.
  destruct m; try contradiction; destruct data; try discriminate; rewrite Hd; reflexivity.
Qed.

Lemma Array_find_run data id prev :
  prop data "id" = Some (JStr id) ->
  Forall (fun m => m <> JNull) prev ->
  Array_find (same_id data) prev = Normal (find (has_id id) prev).
Proof.
  intros Hd. induction 1 as [|m l Hm Hl IH]; [reflexivity|].
  cbn [Array_find find]. rewrite (same_id_run data id m Hd Hm).
  destruct (has_id id m); [reflexivity | exact IH].
Qed.

(** What [findIndex] finds: nothing, or the first entry of that
    identifier. *)
Lemma Array_findIndex_run data id prev :
  prop data "id" = Some (JStr id) ->
  Forall (fun m => m <> JNull) prev ->
  (shows prev id = false /\ Array_findIndex (same_id data) prev = Normal None) \/
  (exists before t after,
     prev = before ++ t :: after /\ shows before id = false /\ has_id id t = true /\
     Array_findIndex (same_id data) prev = Normal (Some (List.length before))).
Proof.
  intros Hd. induction 1 as [|m l Hm Hl IH]; [left; split; reflexivity|].
  cbn [Array_findIndex]. rewrite (same_id_run data id m Hd Hm).
  destruct (has_id id m) eqn:Em.
  - right. exists [], m, l. repeat split. exact Em.
  - destruct IH as [[Hs Hf]|(before & t & after & -> & Hb & Ht & Hf)].
    + left. unfold shows in *. cbn [existsb]. rewrite Em, Hs, Hf. split; reflexivity.
    + right. exists (m :: before), t, after. rewrite Hf.
      unfold shows in *. cbn [existsb]. rewrite Em, Hb. repeat split. exact Ht.
Qed.

Lemma set_at_middle before t after v :
  set_at (List.length before) v (before ++ t :: after) = before ++ v :: after.
Proof. induction before as [|x l IH]; cbn; [reflexivity | rewrite IH; reflexivity]. Qed.

Lemma shows_app l l' id : shows (l ++ l') id = shows l id || shows l' id.
Proof. apply existsb_app. Qed.

Lemma shows_ids l id : shows l id = false -> ~ In (Some (JStr id)) (ids l).
Proof.
  unfold shows, ids. induction l as [|m l IH]; cbn; [tauto|].
  intros H. apply orb_false_iff in H. destruct H as [Hm Hl].
  intros [E|E]; [exact (has_id_false id m Hm E) | exact (IH Hl E)].
Qed.

Lemma NoDup_map_eq {A B} (f : A -> B) l x y :
  NoDup (map f l) -> In x l -> In y l -> f x = f y -> x = y.
Proof.
  induction l as [|a l IH]; cbn; [tauto|]. intros H. inversion H as [|? ? Ha Hl]; subst.
  intros [->|Hx] [->|Hy] E; try reflexivity.
  - exfalso. apply Ha. rewrite E. apply in_map. exact Hy.
  - exfalso. apply Ha. rewrite <- E. apply in_map. exact Hx.
  - exact (IH Hl Hx Hy E).
Qed.

Lemma handleWebSocketMessage_run type cid data :
  prop data "conversation_id" = Some (JStr cid) ->
  handleWebSocketMessage cid (JObj [("type", JStr type); ("data", data)])
  = Normal (if String.eqb type "new_message" then SetMessages data
            else if String.eqb type "task_updated" then SetTasks data
            else NoUpdate).
Proof.
  intros Hc. unfold handleWebSocketMessage. cbn [read prop assoc String.eqb Ascii.eqb
    Bool.eqb].
  assert (E : optional_chain (Some data) "conversation_id" = Some (JStr cid)).
  { destruct data; try discriminate. exact Hc. }
  rewrite E. cbn [strict_eq]. rewrite String.eqb_refl, !andb_true_r.
  destruct (String.eqb type "new_message"); [reflexivity|].
  destruct (String.eqb type "task_updated"); reflexivity.
Qed.

(** X28: the conversation page shows a message once. For a
    [new_message] event of its conversation it calls [setMessages], and
    the updater leaves the list as it is when it shows a message of that
    identifier and appends the message otherwise; so the message is
    shown afterwards, identifiers that were distinct stay distinct and
    the same event a second time changes nothing. *)
Theorem new_message_is_shown_once cid data id prev :
  prop data "conversation_id" = Some (JStr cid) ->
  prop data "id" = Some (JStr id) ->
  Forall (fun m => m <> JNull) prev ->
  handleWebSocketMessage cid (new_message data) = Normal (SetMessages data) /\
  exists shown,
    setMessages_updater data prev = Normal shown /\
    (shows prev id = true -> shown = prev) /\
    (shows prev id = false -> shown = prev ++ [data]) /\
    shows shown id = true /\
    (NoDup (ids prev) -> NoDup (ids shown)) /\
    setMessages_updater data shown = Normal shown.
Proof.
  intros Hc Hd Hprev. split.
  { unfold new_message. rewrite (handleWebSocketMessage_run _ cid data Hc). reflexivity. }
  assert (Hfound : forall l, Forall (fun m => m <> JNull) l ->
            setMessages_updater data l
            = Normal (if shows l id then l else l ++ [data])).
  { intros l Hl. unfold setMessages_updater. rewrite (Array_find_run data id l Hd Hl).
    unfold shows. destruct (find (has_id id) l) as [m|] eqn:Ef.
    - apply find_some in Ef. destruct Ef as [Hin Hm].
      assert (Hex : existsb (has_id id) l = true)
        by (apply existsb_exists; exists m; split; assumption).
      rewrite Hex. apply has_id_true in Hm.
      destruct m; try discriminate. reflexivity.
    - assert (Hex : existsb (has_id id) l = false).
      { destruct (existsb (has_id id) l) eqn:Ex; [|reflexivity].
        apply existsb_exists in Ex. destruct Ex as (m & Hin & Hm).
        rewrite (find_none _ _ Ef m Hin) in Hm. discriminate. }
      rewrite Hex. reflexivity. }
  assert (Hdata : data <> JNull) by (intros ->; discriminate).
  exists (if shows prev id then prev else prev ++ [data]).
  split; [apply Hfound; exact Hprev|].
  destruct (shows prev id) eqn:Es.
  - split; [reflexivity|]. split; [discriminate|]. split; [exact Es|].
    split; [tauto|]. rewrite (Hfound prev Hprev), Es. reflexivity.
  - assert (Hs : shows (prev ++ [data]) id = true).
    { rewrite shows_app. unfold shows at 2. cbn [existsb].
      rewrite (has_id_self id data Hd). apply orb_true_r. }
    split; [discriminate|]. split; [reflexivity|]. split; [exact Hs|]. split.
    + intros Hn. unfold ids in *. rewrite map_app. cbn [map].
      apply NoDup_app; [exact Hn | constructor; [intros [] | constructor] |].
      intros x Hx [<-|[]]. rewrite Hd in Hx. exact (shows_ids prev id Es Hx).
    + rewrite Hfound, Hs; [reflexivity|].
      apply Forall_app. split; [exact Hprev | constructor; [exact Hdata | constructor]].
Qed.

(** X29: the conversation page shows the latest snapshot of a task, in
    the place of the earlier one. For a [task_updated] event of its
    conversation it calls [setTasks], and the updater puts the data in
    the place of the first task of that identifier, or at the end when
    there is none; when the identifiers shown are distinct they stay so
    and the data is the only task of its identifier. *)
Theorem task_update_replaces_the_task_shown cid data id prev :
  prop data "conversation_id" = Some (JStr cid) ->
  prop data "id" = Some (JStr id) ->
  Forall (fun m => m <> JNull) prev ->
  handleWebSocketMessage cid (task_updated data) = Normal (SetTasks data) /\
  exists shown,
    setTasks_updater data prev = Normal shown /\
    (shows prev id = false -> shown = prev ++ [data]) /\
    (shows prev id = true ->
     exists before t after,
       prev = before ++ t :: after /\ shows before id = false /\
       prop t "id" = Some (JStr id) /\ shown = before ++ data :: after) /\
    In data shown /\
    (NoDup (ids prev) ->
     NoDup (ids shown) /\
     forall t, In t shown -> prop t "id" = Some (JStr id) -> t = data).
Proof.
  intros Hc Hd Hprev. split.
  { unfold task_updated. rewrite (handleWebSocketMessage_run _ cid data Hc). reflexivity. }
  assert (Hlast : forall shown, In data shown -> NoDup (ids shown) ->
            forall t, In t shown -> prop t "id" = Some (JStr id) -> t = data).
  { intros shown Hin Hn t Ht Hid.
    apply (NoDup_map_eq (fun m => prop m "id") shown t data Hn Ht Hin). congruence. }
  unfold setTasks_updater.
  destruct (Array_findIndex_run data id prev Hd Hprev)
    as [[Hs Hf]|(before & t & after & -> & Hb & Ht & Hf)]; rewrite Hf.
  - exists (prev ++ [data]). split; [reflexivity|]. split; [reflexivity|].
    split; [rewrite Hs; discriminate|].
    assert (Hin : In data (prev ++ [data])) by (apply in_or_app; right; left; reflexivity).
    split; [exact Hin|]. intros Hn.
    assert (Hn' : NoDup (ids (prev ++ [data]))).
    { unfold ids in *. rewrite map_app. cbn [map].
      apply NoDup_app; [exact Hn | constructor; [intros [] | constructor] |].
      intros x Hx [<-|[]]. rewrite Hd in Hx. exact (shows_ids prev id Hs Hx). }
    split; [exact Hn' | exact (Hlast _ Hin Hn')].
  - rewrite set_at_middle. exists (before ++ data :: after).
    split; [reflexivity|]. split.
    { rewrite shows_app. unfold shows at 2. cbn [existsb]. rewrite Ht, orb_true_r.
      discriminate. }
    split.
    { intros _. exists before, t, after. repeat split; [exact Hb | exact (has_id_true id t Ht)]. }
    assert (Hin : In data (before ++ data :: after))
      by (apply in_or_app; right; left; reflexivity).
    split; [exact Hin|]. intros Hn.
    assert (Hn' : NoDup (ids (before ++ data :: after))).
    { unfold ids in *. rewrite map_app in *. cbn [map] in *.
      rewrite Hd, <- (has_id_true id t Ht). exact Hn. }
    split; [exact Hn' | exact (Hlast _ Hin Hn')].
Qed.




(** ** The socket service of the viewer *)

Lemma forEach_app {App : Type} (before after : list (@Callback App)) message a a1 :
  forEach before message a = (Normal tt, a1) ->
  forEach (before ++ after) message a = forEach after message a1.
Proof.
  revert a. induction before as [|c l IH]; intros a; cbn [forEach app].
  - intros H. injection H as <-. reflexivity.
  - destruct (call c message a) as [[[]|e] a']; [apply IH | discriminate].
Qed.

Lemma forEach_fold {App : Type} (l : list (@Callback App)) message a :
  (forall c a0, In c l -> fst (call c message a0) = Normal tt) ->
  forEach l message a
  = (Normal tt, fold_left (fun acc c => snd (call c message acc)) l a).
Proof.
  revert a. induction l as [|c l IH]; intros a H; cbn [forEach fold_left]; [reflexivity|].
  pose proof (H c a (or_introl eq_refl)) as Hc.
  destruct (call c message a) as [[[]|e] a']; cbn [fst snd] in *; [|discriminate].
  apply IH. intros d a0 Hd. apply H. right. exact Hd.
Qed.

(** X26: how the service hands a frame to its listeners. A frame that
    does not decode reaches none of them; a frame that decodes is given
    to each listener once, in the order of registration, as long as
    they complete; a listener that throws ends the delivery, so the
    listeners registered after it never see the message. In no case is
    anything thrown to the browser. *)
Theorem throwing_listener_ends_the_delivery {App : Type} data (s : @Service App) (a : App) :
  (JSON_parse data = None -> socket_onmessage data s a = a) /\
  (forall message,
     JSON_parse data = Some message ->
     (forall c a0, In c (messageListeners s) -> fst (call c message a0) = Normal tt) ->
     socket_onmessage data s a
     = fold_left (fun acc c => snd (call c message acc)) (messageListeners s) a) /\
  (forall message before c after e a1 a2,
     JSON_parse data = Some message ->
     messageListeners s = before ++ c :: after ->
     forEach before message a = (Normal tt, a1) ->
     call c message a1 = (Abrupt e, a2) ->
     socket_onmessage data s a = a2).
Proof.
  unfold socket_onmessage. split; [|split].
  - intros ->. reflexivity.
  - intros message -> H. rewrite (forEach_fold _ message a H). reflexivity.
  - intros message before c after e a1 a2 -> -> Hb Hc.
    rewrite (forEach_app before (c :: after) message a a1 Hb).
    cbn [forEach]. rewrite Hc. reflexivity.
Qed.

(** X27: the close of a socket that was replaced clears the socket in
    use. After [disconnect] and [connect] the service uses a new socket;
    when the old one closes, its handler sets the socket of the service
    to null: the service reports CLOSED and sends nothing although the
    new socket is open, and the next [connect] builds a third socket. *)
Theorem close_of_a_replaced_socket_clears_the_one_in_use {App : Type}
  (s : @Service App) (a : App) k :
  socket s = Some k -> (k < built s)%nat -> socket_readyState s k = OPEN ->
  let j := built s in
  let s1 := connect (disconnect s) in
  let s2 := fst (deliver (Opens j) s1 a) in
  let s3 := fst (deliver (Closes k) s2 a) in
  socket s1 = Some j /\ getReadyState s2 = OPEN /\
  socket s3 = None /\ socket_readyState s3 j = OPEN /\
  getReadyState s3 = CLOSED /\
  (forall data, sendMessage data s3 = s3) /\
  built (connect s3) = S (S (built s)).
Proof.
  intros Hs Hk Ho j s1 s2 s3.
  assert (Hjk : Nat.eqb j k = false) by (apply Nat.eqb_neq; subst j; lia).
  assert (Hkj : Nat.eqb k j = false) by (apply Nat.eqb_neq; subst j; lia).
  assert (E1 : s1 = with_socket (Some j) (snd (new_WebSocket (WebSocket_close k s)))).
  { subst s1. unfold disconnect. rewrite Hs. unfold WebSocket_close. rewrite Ho.
    unfold connect. cbn [socket with_socket_readyState socket_readyState].
    rewrite Hs, Nat.eqb_refl. reflexivity. }
  assert (E2 : s2 = with_socket_readyState j OPEN s1).
  { subst s2. unfold deliver. rewrite E1. unfold WebSocket_close. rewrite Ho.
    cbn [new_WebSocket snd with_socket built with_socket_readyState socket_readyState].
    fold j. rewrite Nat.eqb_refl.
    assert (L : Nat.ltb j (S j) = true) by (apply Nat.ltb_lt; lia).
    rewrite L. reflexivity. }
  assert (E3 : s3 = socket_onclose (with_socket_readyState k CLOSED s2)).
  { subst s3. unfold deliver. rewrite E2, E1. unfold WebSocket_close. rewrite Ho.
    cbn [new_WebSocket snd with_socket built with_socket_readyState socket_readyState].
    fold j.
    assert (L : Nat.ltb k (S j) = true) by (apply Nat.ltb_lt; subst j; lia).
    rewrite L. reflexivity. }
  split; [rewrite E1; reflexivity|].
  split.
  { rewrite E2, E1. unfold getReadyState.
    cbn [socket with_socket with_socket_readyState socket_readyState new_WebSocket snd].
    rewrite Nat.eqb_refl. reflexivity. }
  split; [rewrite E3; reflexivity|].
  split.
  { rewrite E3, E2. cbn [socket_onclose with_socket with_socket_readyState
      socket_readyState]. rewrite Hjk, Nat.eqb_refl. reflexivity. }
  split; [rewrite E3; reflexivity|].
  split; [intros data; rewrite E3; reflexivity|].
  rewrite E3, E2, E1. unfold WebSocket_close. rewrite Ho. reflexivity.
Qed.

(** ** The agent registry and the file store *)

Section RegistryFacts.

Context {P : Platform}.

Local Open Scope jx_scope.

Lemma bindx_Normal {A B} (m : Jx A) (k : A -> Jx B) s a s' :
  m s = (Normal a, s') -> bindx m k s = k a s'.
Proof. intros H. unfold bindx. rewrite H. reflexivity. Qed.

Lemma bindx_Abrupt {A B} (m : Jx A) (k : A -> Jx B) s e s' :
  m s = (Abrupt e, s') -> bindx m k s = (Abrupt e, s').
Proof. intros H. unfold bindx. rewrite H. reflexivity. Qed.

Lemma try_catchx_Normal {A} (m : Jx A) h s a s' :
  m s = (Normal a, s') -> try_catchx m h s = (Normal a, s').
Proof. intros H. unfold try_catchx. rewrite H. reflexivity. Qed.

Lemma try_catchx_Abrupt {A} (m : Jx A) h s e s' :
  m s = (Abrupt e, s') -> try_catchx m h s = h e s'.
Proof. intros H. unfold try_catchx. rewrite H. reflexivity. Qed.

Lemma lift_Normal {A} (m : Js A) g w a w' :
  m w = (Normal a, w') -> lift m (g, w) = (Normal a, (g, w')).
Proof. intros H. unfold lift. cbn. rewrite H. reflexivity. Qed.

Lemma lift_Abrupt {A} (m : Js A) g w e w' :
  m w = (Abrupt e, w') -> lift m (g, w) = (Abrupt e, (g, w')).
Proof. intros H. unfold lift. cbn. rewrite H. reflexivity. Qed.

Lemma registerAgent_contract host agentUrl w :
  gateway_contract host w (registerAgent host agentUrl) (register_request agentUrl w).
Proof.
  apply (gateway_call_contract host w
           (fun apiKey => {| req_url := _; req_method := _;
                             req_headers := json_headers apiKey; req_body := _ |})).
Qed.

Lemma registerAgent_run host agentUrl w hostResponse :
  fst (registerAgent host agentUrl w) = Normal hostResponse ->
  registerAgent host agentUrl w = (Normal hostResponse, w).
Proof.
  intros H. destruct (registerAgent_contract host agentUrl w) as (result & Hrun & _).
  rewrite Hrun in H. cbn in H. injection H as <-. exact Hrun.
Qed.

Lemma bind_nullable_run v text w :
  nullable_text v text -> bind_nullable v w = (Normal text, w).
Proof.
  unfold nullable_text, bind_nullable.
  destruct v as [[| | | | |]|]; try (intros ->; reflexivity); try (intros []; fail);
    intros (t & Hb & ->); unfold bind, bind_param; rewrite Hb; reflexivity.
Qed.

Lemma INSERT_agent_run id url nameJ descJ iconJ name description icon g w :
  bind_text nameJ = Some name -> bind_text descJ = Some description ->
  nullable_text iconJ icon ->
  agent_id_used (g, w) id = false -> agent_known (g, w) url = false ->
  INSERT_agent id (JStr url) nameJ descJ iconJ (g, w)
  = (Normal tt,
     (with_agents
        (agents g ++ [{| agent_id := id; agent_name := Some name;
                         agent_description := Some description; agent_icon := icon;
                         agent_url := url; agent_created_at := system_clock (reads w) |}]) g,
      with_reads (S (reads w)) w)).
Proof.
  intros Hn Hd Hi Hid Hurl. unfold INSERT_agent.
  assert (B : forall v t, bind_text v = Some t -> bind_param v w = (Normal t, w)).
  { intros v t H. unfold bind_param. rewrite H. reflexivity. }
  rewrite (bindx_Normal _ _ _ _ _ (lift_Normal _ g w _ _ (B _ _ (bind_text_string url)))).
  rewrite (bindx_Normal _ _ _ _ _ (lift_Normal _ g w _ _ (B _ _ Hn))).
  rewrite (bindx_Normal _ _ _ _ _ (lift_Normal _ g w _ _ (B _ _ Hd))).
  rewrite (bindx_Normal _ _ _ _ _ (lift_Normal _ g w _ _ (bind_nullable_run _ _ w Hi))).
  unfold bindx at 1, lift at 1, CURRENT_TIMESTAMP at 1. cbn [fst snd].
  unfold registry_statement. cbn [fst snd].
  unfold agent_id_used, agent_known in Hid, Hurl. cbn [fst] in Hid, Hurl.
  rewrite Hid, Hurl. reflexivity.
Qed.

Lemma INSERT_agent_duplicate id url nameJ descJ iconJ name description icon g w :
  bind_text nameJ = Some name -> bind_text descJ = Some description ->
  nullable_text iconJ icon ->
  agent_id_used (g, w) id = false -> agent_known (g, w) url = true ->
  INSERT_agent id (JStr url) nameJ descJ iconJ (g, w)
  = (Abrupt (db_error (duplicate_url url)), (g, with_reads (S (reads w)) w)).
Proof.
  intros Hn Hd Hi Hid Hurl. unfold INSERT_agent.
  assert (B : forall v t, bind_text v = Some t -> bind_param v w = (Normal t, w)).
  { intros v t H. unfold bind_param. rewrite H. reflexivity. }
  rewrite (bindx_Normal _ _ _ _ _ (lift_Normal _ g w _ _ (B _ _ (bind_text_string url)))).
  rewrite (bindx_Normal _ _ _ _ _ (lift_Normal _ g w _ _ (B _ _ Hn))).
  rewrite (bindx_Normal _ _ _ _ _ (lift_Normal _ g w _ _ (B _ _ Hd))).
  rewrite (bindx_Normal _ _ _ _ _ (lift_Normal _ g w _ _ (bind_nullable_run _ _ w Hi))).
  unfold bindx at 1, lift at 1, CURRENT_TIMESTAMP at 1. cbn [fst snd].
  unfold registry_statement. cbn [fst snd].
  unfold agent_id_used, agent_known in Hid, Hurl. cbn [fst] in Hid, Hurl.
  rewrite Hid, Hurl. reflexivity.
Qed.

Lemma truthy_string_nonempty s : s <> "" -> truthy (Some (JStr s)) = true.
Proof.
  intros H. cbn. destruct (String.eqb_spec s ""); [contradiction | reflexivity].
Qed.

(** What [/agent/register] does when the host accepts, the driver binds
    the name, the description and the icon, the identifier drawn is new
    and the URL is not registered. *)
Lemma agent_register_run host body url hostResponse name description icon g w :
  prop body "agent_url" = Some (JStr url) -> url <> "" ->
  fst (registerAgent host (JStr url) w) = Normal hostResponse ->
  hostResponse <> JNull ->
  truthy (prop hostResponse "error") = false ->
  bind_text (agent_name_for hostResponse (JStr url)) = Some name ->
  bind_text (agent_description_for hostResponse) = Some description ->
  nullable_text (agent_icon_for hostResponse) icon ->
  agent_id_used (g, w) (uuid_at (draws w)) = false ->
  agent_known (g, w) url = false ->
  exists r w',
    agent_register host body (g, w)
    = (Normal r,
       (with_agents
          (agents g ++ [{| agent_id := uuid_at (draws w); agent_name := Some name;
                           agent_description := Some description; agent_icon := icon;
                           agent_url := url;
                           agent_created_at := system_clock (reads w) |}]) g,
        w')) /\
    http_status r = 201%Z /\
    prop (http_body r) "message" = Some (JStr "Agent registered successfully") /\
    db w' = db w /\
    wire w' = wire w ++ frames (JSON_stringify
                                  (agent_registered
                                     (new_agent (uuid_at (draws w)) hostResponse (JStr url)
                                        (system_clock (S (reads w))))))
                               (open_clients w) /\
    clients w' = clients w /\ readyState w' = readyState w.
Proof.
  intros Hurl Hne Hres Hnn Herr Hn Hd Hi Hid Hk.
  pose proof (registerAgent_run host (JStr url) w hostResponse Hres) as Hcall.
  set (w1 := with_draws (draws w + 31) w).
  pose proof (INSERT_agent_run (uuid_at (draws w)) url _ _ _ name description icon g w1
                Hn Hd Hi Hid Hk) as Hins.
  set (g2 := with_agents _ g) in Hins.
  set (w2 := with_reads (S (reads w1)) w1) in Hins.
  set (w3 := with_reads (S (reads w2)) w2).
  pose proof (broadcast_run
                (agent_registered
                   (new_agent (uuid_at (draws w)) hostResponse (JStr url)
                      (system_clock (S (reads w))))) w3) as Hb.
  eexists. eexists. split.
  - unfold agent_register. rewrite Hurl, (truthy_string_nonempty url Hne). cbn [negb].
    apply try_catchx_Normal.
    rewrite (bindx_Normal _ _ _ _ _ (lift_Normal _ g w _ _ Hcall)).
    rewrite (get_prop_not_null _ _ Hnn).
    unfold bindx at 1, lift at 1, ret at 1. cbn [fst snd]. rewrite Herr.
    rewrite (bindx_Normal _ _ _ _ _ (lift_Normal _ g w _ _ (generateUUID_run w))).
    fold w1.
    fold (agent_name_for hostResponse (JStr url)).
    fold (agent_description_for hostResponse).
    fold (agent_icon_for hostResponse).
    rewrite (bindx_Normal _ _ _ _ _ Hins).
    unfold bindx at 1, lift at 1, CURRENT_TIMESTAMP at 1. cbn [fst snd].
    fold w3.
    change (system_clock (reads w2)) with (system_clock (S (reads w))).
    fold (new_agent (uuid_at (draws w)) hostResponse (JStr url) (system_clock (S (reads w)))).
    rewrite (bindx_Normal _ _ _ _ _ (lift_Normal _ g2 w3 _ _ Hb)).
    reflexivity.
  - split; [reflexivity|]. split.
    + cbn [http_body]. unfold prop.
      unfold agent_icon_for. destruct (optional_chain (prop hostResponse "data") "icon");
        reflexivity.
    + cbn. repeat split.
Qed.

(** X17: when the host accepts and gives the agent an icon, a value or
    [null], the identifier drawn is new and the URL is not registered,
    [/agent/register] answers 201, appends the agent under the name and
    the description the host gave or, without them, [Agent at] its URL
    and [No description provided.], and sends every open subscriber the
    [agent_registered] event; the conversations, tasks and files stay as
    they are. *)
Theorem agent_register_stores_and_announces host body url hostResponse name description
  icon s :
  prop body "agent_url" = Some (JStr url) -> url <> "" ->
  fst (registerAgent host (JStr url) (snd s)) = Normal hostResponse ->
  hostResponse <> JNull ->
  truthy (prop hostResponse "error") = false ->
  bind_text (agent_name_for hostResponse (JStr url)) = Some name ->
  bind_text (agent_description_for hostResponse) = Some description ->
  nullable_text (agent_icon_for hostResponse) icon ->
  agent_id_used s (uuid_at (draws (snd s))) = false ->
  agent_known s url = false ->
  exists r s' row,
    agent_register host body s = (Normal r, s') /\
    http_status r = 201%Z /\
    agents (fst s') = agents (fst s) ++ [row] /\
    agent_id row = uuid_at (draws (snd s)) /\ agent_url row = url /\
    agent_name row = Some name /\ agent_description row = Some description /\
    agent_icon row = icon /\
    (truthy (optional_chain (prop hostResponse "data") "name") = false ->
     name = ("Agent at " ++ url)%string) /\
    (truthy (optional_chain (prop hostResponse "data") "description") = false ->
     description = "No description provided.") /\
    files (fst s') = files (fst s) /\ db (snd s') = db (snd s) /\
    exists now,
      wire (snd s')
      = wire (snd s) ++ frames (JSON_stringify
                                  (agent_registered
                                     (new_agent (agent_id row) hostResponse (JStr url) now)))
                               (open_clients (snd s)).
Proof.
  destruct s as [g w]. cbn [fst snd].
  intros Hurl Hne Hres Hnn Herr Hn Hd Hi Hid Hk.
  destruct (agent_register_run host body url hostResponse name description icon g w
              Hurl Hne Hres Hnn Herr Hn Hd Hi Hid Hk)
    as (r & w' & Hrun & Hs & _ & Hdb & Hw & _).
  exists r. eexists. eexists. split; [exact Hrun|]. cbn [fst snd agents with_agents files].
  split; [exact Hs|]. split; [reflexivity|]. cbn [agent_id agent_url agent_name
    agent_description agent_icon].
  split; [reflexivity|]. split; [reflexivity|]. split; [reflexivity|].
  split; [reflexivity|]. split; [reflexivity|].
  split.
  { intros Hf. unfold agent_name_for in Hn. rewrite (js_or_falsy _ _ Hf) in Hn.
    rewrite bind_text_string, template_string in Hn. injection Hn as <-. reflexivity. }
  split.
  { intros Hf. unfold agent_description_for in Hd. rewrite (js_or_falsy _ _ Hf) in Hd.
    rewrite bind_text_string in Hd. injection Hd as <-. reflexivity. }
  split; [reflexivity|]. split; [exact Hdb|].
  eexists. exact Hw.
Qed.

(** X18: a URL that is registered is not registered again, although the
    host accepts it and gives the agent an icon, a value or [null]: no
    row is added and nothing is sent. The answer is 409 when the message
    of the driver holds [UNIQUE constraint failed: agents.url], 500 with
    any other message. *)
Theorem registered_url_is_refused host body url hostResponse name description icon s :
  prop body "agent_url" = Some (JStr url) -> url <> "" ->
  fst (registerAgent host (JStr url) (snd s)) = Normal hostResponse ->
  hostResponse <> JNull ->
  truthy (prop hostResponse "error") = false ->
  bind_text (agent_name_for hostResponse (JStr url)) = Some name ->
  bind_text (agent_description_for hostResponse) = Some description ->
  nullable_text (agent_icon_for hostResponse) icon ->
  agent_id_used s (uuid_at (draws (snd s))) = false ->
  agent_known s url = true ->
  exists r s',
    agent_register host body s = (Normal r, s') /\
    http_status r
    = (if includes (duplicate_url url) "UNIQUE constraint failed: agents.url"
       then 409 else 500)%Z /\
    prop (http_body r) "details" = Some (JStr (duplicate_url url)) /\
    fst s' = fst s /\ db (snd s') = db (snd s) /\ wire (snd s') = wire (snd s).
Proof.
  destruct s as [g w]. cbn [fst snd].
  intros Hurl Hne Hres Hnn Herr Hn Hd Hi Hid Hk.
  pose proof (registerAgent_run host (JStr url) w hostResponse Hres) as Hcall.
  set (w1 := with_draws (draws w + 31) w).
  pose proof (INSERT_agent_duplicate (uuid_at (draws w)) url _ _ _ name description icon g w1
                Hn Hd Hi Hid Hk) as Hins.
  eexists. eexists. split.
  - unfold agent_register. rewrite Hurl, (truthy_string_nonempty url Hne). cbn [negb].
    eapply eq_trans.
    + apply try_catchx_Abrupt with (e := db_error (duplicate_url url)).
      rewrite (bindx_Normal _ _ _ _ _ (lift_Normal _ g w _ _ Hcall)).
      rewrite (get_prop_not_null _ _ Hnn).
      unfold bindx at 1, lift at 1, ret at 1. cbn [fst snd]. rewrite Herr.
      rewrite (bindx_Normal _ _ _ _ _ (lift_Normal _ g w _ _ (generateUUID_run w))).
      fold w1.
      fold (agent_name_for hostResponse (JStr url)).
      fold (agent_description_for hostResponse).
      fold (agent_icon_for hostResponse).
      apply bindx_Abrupt. exact Hins.
    + reflexivity.
  - cbn [fst snd]. unfold agent_register_failure. cbn [err_message db_error].
    destruct (includes (duplicate_url url) "UNIQUE constraint failed: agents.url") eqn:Ei.
    + destruct (String.eqb_spec (duplicate_url url) "") as [E|E].
      * rewrite E in Ei. discriminate.
      * cbn. repeat split.
    + rewrite andb_false_r. cbn. repeat split.
Qed.

(** X19: a request to [/agent/register] without a URL is answered 400,
    and one the host answers with an error is answered 500 with the
    message of the host; in both cases no agent is added, no identifier
    is drawn and nothing is sent. *)
Theorem agent_register_refusals host body s :
  (truthy (prop body "agent_url") = false ->
   exists r, agent_register host body s = (Normal r, s) /\ http_status r = 400%Z) /\
  (forall agentUrl hostResponse,
     prop body "agent_url" = Some agentUrl -> truthy (Some agentUrl) = true ->
     fst (registerAgent host agentUrl (snd s)) = Normal hostResponse ->
     truthy (prop hostResponse "error") = true ->
     exists r,
       agent_register host body s = (Normal r, s) /\ http_status r = 500%Z /\
       prop (http_body r) "message" = Some (JStr "Failed to register agent with host") /\
       prop (http_body r) "details" = prop hostResponse "message").
Proof.
  destruct s as [g w]. cbn [fst snd]. split.
  - intros Hf. unfold agent_register.
    destruct (prop body "agent_url") as [agentUrl|].
    + rewrite Hf. cbn [negb]. eexists. split; reflexivity.
    + eexists. split; reflexivity.
  - intros agentUrl hostResponse Hurl Ht Hres Herr.
    pose proof (registerAgent_run host agentUrl w hostResponse Hres) as Hcall.
    assert (Hnn : hostResponse <> JNull) by (intros ->; discriminate).
    eexists. split.
    + unfold agent_register. rewrite Hurl, Ht. cbn [negb].
      apply try_catchx_Normal.
      rewrite (bindx_Normal _ _ _ _ _ (lift_Normal _ g w _ _ Hcall)).
      rewrite (get_prop_not_null _ _ Hnn).
      unfold bindx at 1, lift at 1, ret at 1. cbn [fst snd]. rewrite Herr.
      reflexivity.
    + split; [reflexivity|]. cbn.
      destruct (prop hostResponse "message"); split; reflexivity.
Qed.

Lemma lift_registry {A} (m : Js A) s : fst (snd (lift m s)) = fst s.
Proof. unfold lift. destruct (m (snd s)). reflexivity. Qed.

(** A step of a handler that runs on the process alone. *)
Ltac lift_step m s r s1 E :=
  let F := fresh "F" in
  pose proof (lift_registry m s) as F;
  destruct (lift m s) as [r s1] eqn:E; cbn [fst snd] in F.

Lemma INSERT_agent_agents id agentUrl nameJ descJ iconJ s :
  let s' := snd (INSERT_agent id agentUrl nameJ descJ iconJ s) in
  agents (fst s') = agents (fst s) \/
  exists row,
    agents (fst s') = agents (fst s) ++ [row] /\
    agent_known s (agent_url row) = false.
Proof.
  cbn zeta. unfold INSERT_agent, bindx.
  lift_step (bind_param agentUrl) s r1 s1 E1. destruct r1 as [url|e]; [|left; cbn [fst snd]; congruence].
  lift_step (bind_param nameJ) s1 r2 s2 E2. destruct r2 as [name|e]; [|left; cbn [fst snd]; congruence].
  lift_step (bind_param descJ) s2 r3 s3 E3. destruct r3 as [desc|e]; [|left; cbn [fst snd]; congruence].
  lift_step (bind_nullable iconJ) s3 r4 s4 E4. destruct r4 as [icon|e]; [|left; cbn [fst snd]; congruence].
  lift_step CURRENT_TIMESTAMP s4 r5 s5 E5. destruct r5 as [now|e]; [|left; cbn [fst snd]; congruence].
  assert (Fs : fst s5 = fst s) by congruence.
  unfold registry_statement. rewrite Fs.
  destruct (existsb (fun a => String.eqb (agent_id a) id) (agents (fst s))); [left; reflexivity|].
  destruct (existsb (fun a => String.eqb (agent_url a) url) (agents (fst s))) eqn:Ek;
    [left; reflexivity|].
  right. eexists. split; [reflexivity|]. exact Ek.
Qed.

Lemma agent_register_agents host body s :
  let s' := snd (agent_register host body s) in
  agents (fst s') = agents (fst s) \/
  exists row,
    agents (fst s') = agents (fst s) ++ [row] /\
    agent_known s (agent_url row) = false.
Proof.
  cbn zeta. unfold agent_register.
  destruct (prop body "agent_url") as [agentUrl|]; [|left; reflexivity].
  destruct (negb (truthy (Some agentUrl))); [left; reflexivity|].
  unfold try_catchx, bindx.
  lift_step (registerAgent host agentUrl) s r1 s1 E1.
  destruct r1 as [hostResponse|e]; [|left; cbn; congruence].
  lift_step (get_prop hostResponse "error") s1 r2 s2 E2.
  destruct r2 as [hostError|e]; [|left; cbn; congruence].
  destruct (truthy hostError); [left; cbn; congruence|].
  lift_step generateUUID s2 r3 s3 E3.
  destruct r3 as [agentId|e]; [|left; cbn; congruence].
  assert (Fs : fst s3 = fst s) by congruence.
  match goal with
  | |- context [INSERT_agent ?i ?u ?n ?d ?c s3] =>
      pose proof (INSERT_agent_agents i u n d c s3) as HI;
      destruct (INSERT_agent i u n d c s3) as [r4 s4] eqn:E4
  end.
  cbn [snd] in HI. unfold agent_known in HI. rewrite Fs in HI.
  assert (Hrest : forall s' : Server, fst s' = fst s4 ->
            agents (fst s') = agents (fst s) \/
            exists row, agents (fst s') = agents (fst s) ++ [row] /\
                        agent_known s (agent_url row) = false).
  { intros s' ->. exact HI. }
  destruct r4 as [[]|e]; [|apply Hrest; reflexivity].
  lift_step CURRENT_TIMESTAMP s4 r5 s5 E5.
  destruct r5 as [now|e]; [|apply Hrest; cbn; congruence].
  match goal with
  | |- context [lift (broadcast ?d) s5] =>
      lift_step (broadcast d) s5 r6 s6 E6
  end.
  destruct r6 as [[]|e]; apply Hrest; cbn; congruence.
Qed.

Lemma agent_known_In s url :
  agent_known s url = false -> ~ In url (agent_urls s).
Proof.
  unfold agent_known, agent_urls. intros H Hin.
  apply in_map_iff in Hin. destruct Hin as (a & <- & Ha).
  assert (existsb (fun a0 => String.eqb (agent_url a0) (agent_url a)) (agents (fst s)) = true).
  { apply existsb_exists. exists a. split; [exact Ha | apply String.eqb_refl]. }
  congruence.
Qed.

(** X20: no two agents of the registry have the same URL, whatever
    requests [/agent/register] is sent and whatever the host answers. *)
Theorem agent_urls_stay_unique requests s :
  NoDup (agent_urls s) -> NoDup (agent_urls (register_all requests s)).
Proof.
  revert s. induction requests as [|[host body] rest IH]; intros s H; [exact H|].
  cbn [register_all]. apply IH.
  destruct (agent_register_agents host body s) as [E|(row & E & Hk)];
    unfold agent_urls in *; rewrite E; [exact H|].
  rewrite map_app. cbn [map].
  apply NoDup_app; [exact H | constructor; [intros [] | constructor] |].
  intros u Hu [<-|[]]. exact (agent_known_In s _ Hk Hu).
Qed.

(** X21: an agent that [/agent/register] has stored, which takes an
    icon from the host, a value or [null], is listed by [/agent/list],
    under its identifier, its URL, its name, its description and that
    icon. *)
Theorem registered_agent_is_listed host body url hostResponse name description icon s :
  prop body "agent_url" = Some (JStr url) -> url <> "" ->
  fst (registerAgent host (JStr url) (snd s)) = Normal hostResponse ->
  hostResponse <> JNull ->
  truthy (prop hostResponse "error") = false ->
  bind_text (agent_name_for hostResponse (JStr url)) = Some name ->
  bind_text (agent_description_for hostResponse) = Some description ->
  nullable_text (agent_icon_for hostResponse) icon ->
  agent_id_used s (uuid_at (draws (snd s))) = false ->
  agent_known s url = false ->
  let s' := snd (agent_register host body s) in
  exists items item,
    agent_list s' = (Normal {| http_status := 200; http_body := JArr items |}, s') /\
    In item items /\
    prop item "id" = Some (JStr (uuid_at (draws (snd s)))) /\
    prop item "url" = Some (JStr url) /\
    prop item "name" = Some (JStr name) /\
    prop item "description" = Some (JStr description) /\
    prop item "icon" = Some (null_or_string icon).
Proof.
  destruct s as [g w]. cbn [fst snd].
  intros Hurl Hne Hres Hnn Herr Hn Hd Hi Hid Hk.
  destruct (agent_register_run host body url hostResponse name description icon g w
              Hurl Hne Hres Hnn Herr Hn Hd Hi Hid Hk)
    as (r & w' & Hrun & _).
  rewrite Hrun. cbn [snd].
  set (row := {| agent_id := uuid_at (draws w); agent_name := Some name;
                 agent_description := Some description; agent_icon := icon;
                 agent_url := url; agent_created_at := system_clock (reads w) |}).
  exists (map agent_object (order_by (DESC agent_created_at) (agents g ++ [row]))).
  exists (agent_object row).
  split; [reflexivity|]. split.
  - apply in_map.
    apply (Permutation_in _ (Permutation_sym (order_by_Permutation _ _))).
    apply in_or_app. right. left. reflexivity.
  - cbn. repeat split.
Qed.

(** X22: [/agent/list] answers 200 and changes nothing; its body holds
    one object per agent of the registry, none left out and none twice,
    the latest registered first. *)
Theorem agent_list_lists_all_newest_first s :
  exists rows items,
    agent_list s = (Normal {| http_status := 200; http_body := JArr items |}, s) /\
    Forall2 agent_item rows items /\
    Permutation rows (agents (fst s)) /\
    StronglySorted (fun a b => (agent_created_at b <= agent_created_at a)%Z) rows.
Proof.
  exists (order_by (DESC agent_created_at) (agents (fst s))).
  exists (map agent_object (order_by (DESC agent_created_at) (agents (fst s)))).
  split; [reflexivity|]. split; [|split].
  - induction (order_by (DESC agent_created_at) (agents (fst s))) as [|a l IH];
      constructor; [|exact IH].
    unfold agent_item. cbn. repeat split.
  - apply order_by_Permutation.
  - apply in_order_DESC, order_by_in_order; [apply DESC_asym | apply DESC_trans].
Qed.

(** ** The file store *)

Lemma append_nonempty a b : b <> "" -> (a ++ b)%string <> "".
Proof. destruct a; cbn; [tauto | discriminate]. Qed.

Lemma replace_xy_nonempty template k :
  existsb copied (list_ascii_of_string template) = true ->
  fst (replace_xy template k) <> "".
Proof.
  revert k. induction template as [|c rest IH]; intros k; cbn [list_ascii_of_string existsb];
    [discriminate|].
  unfold copied at 1. cbn [replace_xy].
  destruct (Ascii.eqb c "x" || Ascii.eqb c "y"); cbn [negb orb]; intros H.
  - specialize (IH (S k) H). destruct (replace_xy rest (S k)). cbn [fst] in *.
    apply append_nonempty. exact IH.
  - destruct (replace_xy rest k). cbn. discriminate.
Qed.

Lemma uuid_at_nonempty k : uuid_at k <> "".
Proof. apply replace_xy_nonempty. reflexivity. Qed.

Lemma file_key_nonempty body s id : file_key body s id -> id <> "".
Proof. intros [[_ H]|[_ ->]]; [exact H | apply uuid_at_nonempty]. Qed.

Lemma file_id_or_new_run body g w id :
  file_key body (g, w) id ->
  exists w1,
    file_id_or_new (prop body "file_id") (g, w) = (Normal (JStr id), (g, w1)) /\
    db w1 = db w /\ wire w1 = wire w /\ clients w1 = clients w /\ reads w1 = reads w.
Proof.
  unfold file_key, file_id_or_new. cbn [snd]. intros [[Hp Hne]|[Hf ->]].
  - rewrite Hp, (truthy_string_nonempty id Hne). exists w. repeat split.
  - exists (with_draws (draws w + 31) w).
    split; [|repeat split].
    destruct (prop body "file_id") as [f|]; [rewrite Hf|];
      rewrite (bindx_Normal _ _ _ _ _ (lift_Normal _ g w _ _ (generateUUID_run w)));
      reflexivity.
Qed.

Lemma INSERT_file_run id nameJ mimeJ name mime fileDataBuffer data g w :
  bind_text nameJ = Some name -> bind_text mimeJ = Some mime ->
  bind_blob fileDataBuffer = Some data ->
  INSERT_file (JStr id) nameJ mimeJ fileDataBuffer (g, w)
  = if file_known (g, w) id then
      (Abrupt (db_error
         "Constraint Error: duplicate key violates primary key constraint on files.id"),
       (g, with_reads (S (reads w)) w))
    else
      (Normal (Some tt),
       (with_files
          (files g ++ [{| file_id := id; file_name := Some name; file_mime_type := mime;
                          file_data := data; file_created_at := system_clock (reads w) |}]) g,
        with_reads (S (reads w)) w)).
Proof.
  intros Hn Hm Hblob. unfold INSERT_file.
  assert (B : forall v t, bind_text v = Some t -> bind_param v w = (Normal t, w)).
  { intros v t H. unfold bind_param. rewrite H. reflexivity. }
  rewrite (bindx_Normal _ _ _ _ _ (lift_Normal _ g w _ _ (B _ _ (bind_text_string id)))).
  rewrite (bindx_Normal _ _ _ _ _ (lift_Normal _ g w _ _ (B _ _ Hn))).
  rewrite (bindx_Normal _ _ _ _ _ (lift_Normal _ g w _ _ (B _ _ Hm))).
  rewrite Hblob.
  unfold bindx at 1, lift at 1, CURRENT_TIMESTAMP at 1. cbn [fst snd].
  unfold registry_statement, file_known. cbn [fst snd].
  destruct (existsb _ (files g)); reflexivity.
Qed.

Lemma SELECT_file_run id g w :
  SELECT_file id (g, w)
  = (Normal (filter (fun f => String.eqb (file_id f) id) (files g)), (g, w)).
Proof.
  unfold SELECT_file, bindx, lift, bind_param. rewrite bind_text_string. reflexivity.
Qed.

Lemma filter_none {A} (f : A -> bool) l : existsb f l = false -> filter f l = [].
Proof.
  induction l as [|a l IH]; cbn; [reflexivity|].
  destruct (f a); cbn; [discriminate | exact IH].
Qed.

Lemma nonempty_neqb id : id <> "" -> String.eqb id "" = false.
Proof. intros H. destruct (String.eqb_spec id ""); [contradiction | reflexivity]. Qed.

(** What [/host/file_received] does with a file whose identifier is
    not in use. *)
Lemma host_file_received_run body name mime data id g w :
  file_event body name mime data ->
  file_key body (g, w) id ->
  file_known (g, w) id = false ->
  exists w',
    host_file_received body (g, w)
    = (Normal (Some (respond 200 [("status", Some (JStr "file_received"));
                                  ("file_id", Some (JStr id))])),
       (with_files
          (files g ++ [{| file_id := id; file_name := Some name; file_mime_type := mime;
                          file_data := data; file_created_at := system_clock (reads w) |}]) g,
        w')) /\
    db w' = db w /\ wire w' = wire w /\ clients w' = clients w.
Proof.
  intros (nameJ & mimeJ & bytes & buf & Hn & Htn & Hbn & Hm & Htm & Hbm & Hb & Htb & Hdata
          & Hblob) Hkey Hfresh.
  destruct (file_id_or_new_run body g w id Hkey) as (w1 & Hid & Hdb & Hwire & Hcl & Hrd).
  exists (with_reads (S (reads w1)) w1). split.
  - unfold host_file_received. rewrite Hn, Hm, Hb, Htn, Htm, Htb. cbn [negb orb].
    rewrite (bindx_Normal _ _ _ _ _ Hid).
    apply try_catchx_Normal.
    unfold bindx at 1. rewrite Hdata.
    unfold bindx at 1.
    rewrite (INSERT_file_run id nameJ mimeJ name mime buf data g w1 Hbn Hbm Hblob).
    unfold file_known in *. cbn [fst] in *. rewrite Hfresh. rewrite Hrd. reflexivity.
  - cbn. auto.
Qed.

(** X23: a file that [/host/file_received] has accepted, under the
    identifier of the request or a fresh one, is served by
    [/message/file/:file_id] with its media type and the BLOB its
    decoded bytes were bound as, which holds the byte [NN] where they
    spell [\xNN]; the agents, the conversations and the subscribers see
    nothing of it. *)
Theorem received_file_is_served body name mime data id s :
  file_event body name mime data ->
  file_key body s id ->
  file_known s id = false ->
  header_value mime = true ->
  exists r s',
    host_file_received body s = (Normal (Some r), s') /\
    http_status r = 200%Z /\
    prop (http_body r) "file_id" = Some (JStr id) /\
    agents (fst s') = agents (fst s) /\
    db (snd s') = db (snd s) /\ wire (snd s') = wire (snd s) /\
    message_file id s' = (Normal (Sent mime data), s').
Proof.
  destruct s as [g w]. intros Hev Hkey Hfresh Hh.
  destruct (host_file_received_run body name mime data id g w Hev Hkey Hfresh)
    as (w' & Hrun & Hdb & Hwire & _).
  eexists. eexists. split; [exact Hrun|].
  split; [reflexivity|]. split; [reflexivity|]. split; [reflexivity|].
  split; [exact Hdb|]. split; [exact Hwire|].
  unfold message_file. rewrite (nonempty_neqb id (file_key_nonempty _ _ _ Hkey)).
  apply try_catchx_Normal.
  rewrite (bindx_Normal _ _ _ _ _ (SELECT_file_run id _ w')).
  cbn [files with_files]. rewrite filter_app.
  unfold file_known in Hfresh. cbn [fst] in Hfresh. rewrite (filter_none _ _ Hfresh).
  cbn [filter file_id app]. rewrite String.eqb_refl.
  cbn [file_mime_type file_data]. unfold setHeader. rewrite Hh. reflexivity.
Qed.

(** X24: [/message/file/:file_id] answers 404 for an identifier the
    store does not hold, and changes nothing. *)
Theorem unknown_file_is_not_found id s :
  id <> "" ->
  file_known s id = false ->
  exists r,
    message_file id s = (Normal (Json r), s) /\
    http_status r = 404%Z /\
    prop (http_body r) "message" = Some (JStr "File not found.").
Proof.
  destruct s as [g w]. intros Hne Hfresh.
  eexists. split.
  - unfold message_file. rewrite (nonempty_neqb id Hne).
    apply try_catchx_Normal.
    rewrite (bindx_Normal _ _ _ _ _ (SELECT_file_run id g w)).
    unfold file_known in Hfresh. cbn [fst] in Hfresh. rewrite (filter_none _ _ Hfresh).
    reflexivity.
  - split; reflexivity.
Qed.

(** X25: a file whose identifier is in use, and whose decoded bytes the
    driver binds, is refused with 500: the store keeps the file it has,
    which is the one served afterwards, and nothing is sent. *)
Theorem file_id_in_use_is_refused body name mime data id s :
  file_event body name mime data ->
  prop body "file_id" = Some (JStr id) -> id <> "" ->
  file_known s id = true ->
  exists r s',
    host_file_received body s = (Normal (Some r), s') /\
    http_status r = 500%Z /\
    fst s' = fst s /\ db (snd s') = db (snd s) /\ wire (snd s') = wire (snd s) /\
    fst (message_file id s') = fst (message_file id s).
Proof.
  destruct s as [g w].
  intros (nameJ & mimeJ & bytes & buf & Hn & Htn & Hbn & Hm & Htm & Hbm & Hb & Htb & Hdata
          & Hblob) Hp Hne Hused.
  destruct (file_id_or_new_run body g w id (or_introl (conj Hp Hne)))
    as (w1 & Hid & Hdb & Hwire & Hcl & Hrd).
  assert (Hrun : host_file_received body (g, w)
                 = (Normal (Some (internal_error "Internal server error receiving file."
                              (db_error "Constraint Error: duplicate key violates primary key constraint on files.id"))),
                    (g, with_reads (S (reads w1)) w1))).
  { unfold host_file_received. rewrite Hn, Hm, Hb, Htn, Htm, Htb. cbn [negb orb].
    rewrite (bindx_Normal _ _ _ _ _ Hid).
    eapply eq_trans.
    - eapply try_catchx_Abrupt.
      unfold bindx at 1. rewrite Hdata.
      apply bindx_Abrupt.
      rewrite (INSERT_file_run id nameJ mimeJ name mime buf data g w1 Hbn Hbm Hblob).
      unfold file_known in *. cbn [fst] in *. rewrite Hused. reflexivity.
    - reflexivity. }
  eexists. eexists. split; [exact Hrun|].
  split; [reflexivity|]. split; [reflexivity|]. split; [exact Hdb|]. split; [exact Hwire|].
  unfold message_file. rewrite (nonempty_neqb id Hne).
  unfold try_catchx, bindx. rewrite !SELECT_file_run. cbn [fst snd].
  destruct (filter _ (files g)) as [|file rest]; [reflexivity|].
  unfold setHeader. destruct (header_value (file_mime_type file)); reflexivity.
Qed.

End RegistryFacts.

End Facts.

(** * The properties on the scenario *)

Lemma scenario_task_event text :
  task_event (Scenario.task_update text) "t1" "c1" "working".
Proof. unfold task_event. cbn. repeat split; discriminate. Qed.

Lemma ticking_monotone : @clock_monotone Scenario.ticking_runtime.
Proof. intros i j H. cbn. unfold Mini.ticking. lia. Qed.

Lemma frozen_monotone : @clock_monotone Scenario.frozen_runtime.
Proof. intros i j H. cbn. unfold Mini.frozen. lia. Qed.

(** Witness of C4: an event without [status]. *)
Lemma invalid_event_is_rejected_witness :
  exists r w',
    @host_task_update Scenario.ticking_runtime
      (JObj [("id", JStr "t1"); ("contextId", JStr "c1")]) Scenario.world = (Normal r, w') /\
    http_status r = 400%Z /\
    db w' = db Scenario.world /\ wire w' = wire Scenario.world /\ w' = Scenario.world.
Proof.
  apply (@invalid_event_is_rejected Scenario.ticking_runtime).
  right. right. reflexivity.
Defined.

(** Witness of C2, amended: an event without artifacts. *)
Lemma reconciling_twice_keeps_one_task_row_witness :
  let w1 := snd (@host_task_update Scenario.ticking_runtime (Scenario.plain_update "working")
                   Scenario.world) in
  let w2 := snd (@host_task_update Scenario.ticking_runtime (Scenario.plain_update "working")
                   w1) in
  exists t1 t2,
    filter (by_id "t1") (tasks (db w1)) = [t1] /\
    filter (by_id "t1") (tasks (db w2)) = [t2] /\
    List.length (tasks (db w2)) = List.length (tasks (db w1)) /\
    task_created_at t2 = task_created_at t1 /\
    task_conversation_id t2 = "c1" /\ task_status t2 = "working" /\
    task_state_details t2 = Some (Mini.stringify (JStr "working")) /\
    task_updated_at t1 = 1000%Z /\
    task_updated_at t2 = @system_clock Scenario.ticking_runtime (reads w1) /\
    (reads Scenario.world < reads w1)%nat /\
    (task_updated_at t1 <= task_updated_at t2)%Z.
Proof.
  apply (@reconciling_twice_keeps_one_task_row Scenario.ticking_runtime
           (Scenario.plain_update "working") "t1" "c1" "working" Scenario.world).
  - unfold task_event. cbn. repeat split; discriminate.
  - reflexivity.
  - constructor.
  - reflexivity.
  - exact I.
  - apply ticking_monotone.
Defined.

(** Counterexample to C2 as stated: a well-formed event for a
    conversation the store does not hold, reconciled twice, yields no
    row of its task. *)
Lemma stray_event_yields_no_task_row :
  ~ @yields_one_task_row Scenario.ticking_runtime Scenario.stray_update "t1" Scenario.world.
Proof. intros (t & H). vm_compute in H. discriminate. Qed.

(** Counterexample to C3 as stated: with the clock at the same instant,
    a second reconciliation leaves [updated_at] as it was. *)
Lemma updated_at_can_stand_still :
  ~ @updated_at_strictly_increases Scenario.frozen_runtime
      (Scenario.plain_update "working") (Scenario.plain_update "completed") "t1"
      Scenario.world.
Proof.
  intros H. specialize (H 1000%Z 1000%Z).
  assert (H1 : (1000 < 1000)%Z); [apply H; vm_compute; reflexivity | lia].
Qed.

(** The two events of that scenario are accepted: both are answered
    200. *)
Example plain_events_are_accepted :
  let '(r1, w1) := @host_task_update Scenario.frozen_runtime (Scenario.plain_update "working")
                     Scenario.world in
  let '(r2, _) := @host_task_update Scenario.frozen_runtime (Scenario.plain_update "completed")
                    w1 in
  (answered r1, answered r2) = (Some 200%Z, Some 200%Z).
Proof. vm_compute. reflexivity. Qed.

(** Witness of C3, amended. *)
Lemma updated_at_does_not_decrease_witness :
  let w1 := snd (@host_task_update Scenario.frozen_runtime (Scenario.plain_update "working")
                   Scenario.world) in
  let w2 := snd (@host_task_update Scenario.frozen_runtime (Scenario.plain_update "completed")
                   w1) in
  exists u1 u2,
    updated_at_of "t1" w1 = Some u1 /\
    updated_at_of "t1" w2 = Some u2 /\
    u1 = @system_clock Scenario.frozen_runtime (reads Scenario.world) /\
    u2 = @system_clock Scenario.frozen_runtime (reads w1) /\
    (u1 <= u2)%Z.
Proof.
  apply (@updated_at_does_not_decrease Scenario.frozen_runtime
           (Scenario.plain_update "working") (Scenario.plain_update "completed")
           "t1" "c1" "working" "c1" "completed" Scenario.world).
  - unfold task_event. cbn. repeat split; discriminate.
  - unfold task_event. cbn. repeat split; discriminate.
  - reflexivity.
  - reflexivity.
  - constructor.
  - reflexivity.
  - exact I.
  - apply frozen_monotone.
Defined.

(** C1 on the code: the same artifact ref reconciled a second time with
    another content is refused. The first event is answered 200 and
    stores the first content; the second is answered 500, because the
    task has an artifact by then, and the store keeps the one row of
    the ref, with the first content; nothing is sent for it. *)
Theorem second_artifact_content_is_refused :
  let '(r1, w1) := @host_task_update Scenario.ticking_runtime (Scenario.task_update "a")
                     Scenario.world in
  let '(r2, w2) := @host_task_update Scenario.ticking_runtime (Scenario.task_update "b") w1 in
  (answered r1, answered r2) = (Some 200%Z, Some 500%Z) /\
  map art_content (artifacts_of "t1" "r1" w2) = [Mini.stringify (Scenario.text_part "a")] /\
  db w2 = db w1 /\ wire w2 = wire w1.
Proof. vm_compute. repeat split. Qed.

(** Where the store accepts both contents of one ref, in the entries of
    one event for a new task, it keeps both rows: the statement
    replaces on the generated [id], never on the ref. *)
Example same_ref_in_one_event_gives_two_rows :
  let '(r, w') := @host_task_update Scenario.ticking_runtime Scenario.doubled_update
                    Scenario.world in
  (answered r, map art_content (artifacts_of "t1" "r1" w'))
  = (Some 200%Z,
     [Mini.stringify (Scenario.text_part "a"); Mini.stringify (Scenario.text_part "b")]).
Proof. vm_compute. reflexivity. Qed.

(** C5 on the code: the entry [null], which is malformed, is not
    skipped. The handler answers 500 when it meets it: the task and the
    artifact before it are stored, the well-formed artifact after it is
    not, and no snapshot is sent. *)
Theorem null_entry_aborts_the_reconciliation :
  let '(r, w') := @host_task_update Scenario.ticking_runtime Scenario.null_update
                    Scenario.world in
  malformed_entry JNull /\
  prop Scenario.null_update "artifacts"
  = Some (JArr [JObj [("artifactId", JStr "r1"); ("content", Scenario.text_part "a")];
                JNull;
                JObj [("artifactId", JStr "r2"); ("content", Scenario.text_part "b")]]) /\
  answered r = Some 500%Z /\
  map task_id (tasks (db w')) = ["t1"] /\
  map art_artifact_id_ref (task_artifacts (db w')) = [Some "r1"] /\
  artifacts_of "t1" "r2" w' = [] /\
  wire w' = [].
Proof. vm_compute. split; [left; reflexivity|]. repeat split. Qed.

(** Without the entry [null] the same event is answered 200 and both
    artifacts are stored. *)
Example entries_without_null_are_stored :
  let '(r, w') := @host_task_update Scenario.ticking_runtime Scenario.doubled_update
                    Scenario.world in
  (answered r, List.length (task_artifacts (db w')), List.length (wire w'))
  = (Some 200%Z, 2%nat, 2%nat).
Proof. vm_compute. reflexivity. Qed.

Lemma mixed_entries_of_event : Forall entry_of_event Scenario.mixed_entries.
Proof.
  apply Forall_cons; [|apply Forall_cons; [|apply Forall_nil]].
  - right. exists "r1", (Scenario.text_part "a"). repeat split. discriminate.
  - left. split; [discriminate | right; reflexivity].
Qed.

(** An entry that lacks its content, in an object, is skipped. *)
Example object_without_content_is_skipped :
  exists r w' rows,
    @host_task_update Scenario.ticking_runtime Scenario.mixed_update Scenario.world
    = (Normal r, w') /\
    http_status r = 200%Z /\
    task_artifacts (db w') = task_artifacts (db Scenario.world) ++ rows /\
    Forall2 (@stored_as Scenario.ticking_runtime "t1") rows
            (filter artifact_accepted Scenario.mixed_entries).
Proof.
  apply (@entries_are_skipped_or_stored Scenario.ticking_runtime
           Scenario.mixed_update "t1" "c1" "working" Scenario.mixed_entries Scenario.world).
  - unfold task_event. cbn. repeat split; discriminate.
  - reflexivity.
  - reflexivity.
  - reflexivity.
  - apply mixed_entries_of_event.
  - unfold fresh_ids. cbn. constructor; [intros [] | constructor].
Qed.

(** The snapshot of the task whose payloads do not decode: both
    placeholders, every column of the rows. *)
Example corrupt_payloads_are_marked :
  fst (@getTaskWithArtifacts Scenario.ticking_runtime (JStr "t1") Scenario.corrupt_world)
  = Normal (Some (JObj
      [("id", JStr "t1"); ("conversation_id", JStr "c1"); ("status", JStr "working");
       ("state_details", state_details_placeholder);
       ("created_at", JStr "10"); ("updated_at", JStr "10");
       ("artifacts", JArr [JObj [("id", JStr "a1"); ("task_id", JStr "t1");
                                 ("artifact_id_ref", JStr "r0");
                                 ("content", artifact_content_placeholder);
                                 ("created_at", JStr "11")]])])).
Proof. vm_compute. reflexivity. Qed.


(** Counterexample to C8 as stated: the result of a success carries no
    tag. A host that cannot be reached and a host that answers 200 give
    the same result, so no reading of the result tells the two outcomes
    apart. *)
Lemma success_is_not_tagged : ~ @outcomes_are_tagged Scenario.ticking_runtime.
Proof.
  intros (tag & H).
  pose proof (H Scenario.unreachable_host (JStr "m") Scenario.world _ eq_refl eq_refl) as H1.
  pose proof (H Scenario.masquerading_host (JStr "m") Scenario.world _ eq_refl eq_refl) as H2.
  vm_compute in H1. vm_compute in H2. rewrite H1 in H2. discriminate.
Qed.

Lemma scenario_all_open x : In x (clients Scenario.world) -> readyState Scenario.world x = OPEN.
Proof. intros _. reflexivity. Qed.

(** Witness of C6: two subscribers, the first of which closes. *)
Lemma fan_out_delivery_witness :
  exists w1 w2 w3 sent sent',
    @broadcast Scenario.ticking_runtime (JStr "E") Scenario.world = (Normal tt, w1) /\
    wire w1 = wire Scenario.world ++ sent /\
    sent = frames (Mini.stringify (JStr "E")) (clients Scenario.world) /\
    (forall x, In x (clients Scenario.world) ->
               deliveries x (Mini.stringify (JStr "E")) sent = 1%nat) /\
    on_close 1 w1 = (Normal tt, w2) /\
    ~ In 1%nat (clients w2) /\
    S (List.length (clients w2)) = List.length (clients Scenario.world) /\
    @broadcast Scenario.ticking_runtime (JStr "E2") w2 = (Normal tt, w3) /\
    wire w3 = wire w1 ++ sent' /\
    sent' = frames (Mini.stringify (JStr "E2")) (clients w2) /\
    (forall x, In x (clients Scenario.world) -> x <> 1%nat ->
               deliveries x (Mini.stringify (JStr "E2")) sent' = 1%nat) /\
    (forall payload, deliveries 1 payload sent' = 0%nat).
Proof.
  apply (@fan_out_delivery Scenario.ticking_runtime (JStr "E") (JStr "E2") 1%nat
           (on_close 1) Scenario.world).
  - cbn. constructor; [intros [H|[]]; discriminate | constructor; [intros [] | constructor]].
  - apply scenario_all_open.
  - left. reflexivity.
  - left. reflexivity.
Defined.

(** Counterexample to C7 as stated: a payload that is not JSON is not
    relayed; the second subscriber is sent nothing. *)
Lemma inbound_message_is_not_opaque :
  ~ @relayed_verbatim Scenario.ticking_runtime 1%nat "hello" Scenario.world.
Proof.
  intros H. specialize (H 2%nat (or_intror (or_introl eq_refl))).
  vm_compute in H. destruct H as [H|[]]. discriminate.
Qed.

(** A payload that is JSON is relayed as serialized again, not as
    received. *)
Example inbound_message_is_reserialized :
  wire (snd (@on_message Scenario.ticking_runtime 1%nat "[1, 2]" Scenario.world))
  = [(1%nat, "[1,2]"); (2%nat, "[1,2]")].
Proof. vm_compute. reflexivity. Qed.

(** Witness of C7, amended. *)
Lemma inbound_message_is_parsed_and_relayed_witness :
  exists w',
    @on_message Scenario.ticking_runtime 1%nat "[1, 2]" Scenario.world = (Normal tt, w') /\
    db w' = db Scenario.world /\ clients w' = clients Scenario.world /\
    match Mini.parse "[1, 2]" with
    | Some value =>
        wire w' = wire Scenario.world
                  ++ frames (Mini.stringify value) (open_clients Scenario.world) /\
        In (1%nat, Mini.stringify value)
           (frames (Mini.stringify value) (open_clients Scenario.world))
    | None =>
        wire w' = wire Scenario.world
                  ++ [(1%nat, Mini.stringify invalid_message_format)]
    end.
Proof.
  apply (@inbound_message_is_parsed_and_relayed Scenario.ticking_runtime 1%nat "[1, 2]"
           Scenario.world).
  - left. reflexivity.
  - reflexivity.
Defined.

(** The gateway on a host that answers 500: the result carries the
    status code and the body as received. *)
Example gateway_reports_status_500 :
  @sendMessageToHost Scenario.ticking_runtime Scenario.failing_host (JStr "m") Scenario.world
  = (Normal (JObj [("error", JBool true);
                   ("status", JNum 500);
                   ("message", JStr "Failed to send message: Internal Server Error");
                   ("details", JStr "boom")]),
     Scenario.world).
Proof. reflexivity. Qed.

(** Witness of C10: the host answers 500. *)
Lemma failed_relay_stores_nothing_witness :
  exists r w',
    @message_send Scenario.ticking_runtime Scenario.failing_host Scenario.user_message
      Scenario.world = (Normal r, w') /\
    http_status r = 500%Z /\
    db w' = db Scenario.world /\ wire w' = wire Scenario.world /\
    clients w' = clients Scenario.world.
Proof.
  apply (@failed_relay_stores_nothing Scenario.ticking_runtime Scenario.failing_host
           Scenario.user_message
           (JObj [("error", JBool true);
                  ("status", JNum 500);
                  ("message", JStr "Failed to send message: Internal Server Error");
                  ("details", JStr "boom")])
           Scenario.world).
  - unfold message_request_valid. cbn. split; [reflexivity|].
    split; [left; reflexivity|]. eexists. reflexivity.
  - reflexivity.
  - reflexivity.
Defined.

(** The same message when the host accepts it: the row is inserted and
    both subscribers are sent a frame. *)
Example accepted_message_is_stored :
  let accepting : Host :=
    fun _ => Resolved {| status := 200; statusText := "OK"; body_read := BodyText "{}" |} in
  let '(r, w') := @message_send Scenario.ticking_runtime accepting Scenario.user_message
                    Scenario.world in
  (option_map http_status (match r with Normal x => Some x | Abrupt _ => None end),
   List.length (messages (db w')), List.length (wire w'))
  = (Some 201%Z, 1%nat, 2%nat).
Proof. vm_compute. reflexivity. Qed.

(** An array element that is [null] is not skipped: the handler answers
    500, after the task has been upserted. *)
Example null_entry_aborts :
  let body := JObj [("id", JStr "t1"); ("contextId", JStr "c1"); ("status", JStr "working");
                    ("artifacts", JArr [JNull])] in
  let '(r, w') := @host_task_update Scenario.ticking_runtime body Scenario.world in
  (option_map http_status (match r with Normal x => Some x | Abrupt _ => None end),
   List.length (tasks (db w')), List.length (wire w'))
  = (Some 500%Z, 1%nat, 0%nat).
Proof. vm_compute. reflexivity. Qed.

(** * The further properties on the scenario *)

Lemma cycling_in_range : @draws_in_range Scenario.ticking_runtime.
Proof.
  intros k. cbn. unfold Mini.cycling.
  pose proof (Nat.mod_upper_bound k 16). lia.
Qed.

(** Witness of X1. *)
Lemma generateUUID_is_a_version_4_identifier_witness :
  exists id,
    @generateUUID Scenario.ticking_runtime Scenario.world
    = (Normal id, with_draws 31 Scenario.world) /\
    String.length id = 36%nat /\ String.get 14 id = Some "4"%char.
Proof.
  destruct (@generateUUID_is_a_version_4_identifier Scenario.ticking_runtime
              Scenario.world cycling_in_range)
    as (id & H & _ & Hl & _ & _ & _ & _ & H4 & _).
  exists id. auto.
Defined.

(** Witness of X2: a socket that connects twice and closes once. *)
Lemma subscribers_stay_distinct_witness :
  NoDup (clients (@handle_all Scenario.ticking_runtime
                    [Connection 3; Connection 3; Message 1 "hello"; Close 2; Error 9]
                    Scenario.world)).
Proof.
  apply (@subscribers_stay_distinct Scenario.ticking_runtime).
  cbn. constructor; [intros [H|[]]; discriminate | constructor; [intros [] | constructor]].
Defined.

(** Witness of X4: the second socket is closing. *)
Lemma broadcast_skips_sockets_not_open_witness :
  exists w' sent,
    @broadcast Scenario.ticking_runtime (JStr "E") Scenario.stale_world = (Normal tt, w') /\
    wire w' = wire Scenario.stale_world ++ sent /\
    (forall payload, deliveries 2 payload sent = 0%nat) /\
    In 2%nat (clients w').
Proof.
  destruct (@broadcast_skips_sockets_not_open Scenario.ticking_runtime (JStr "E") 2%nat
              Scenario.stale_world)
    as (w' & sent & H & Hw & _ & Hn & _ & Hin & _).
  - right. left. reflexivity.
  - discriminate.
  - exists w', sent. auto.
Defined.

(** Witness of X5. *)
Lemma reconciled_row_takes_the_event_witness :
  exists t,
    filter (by_id "t1")
      (tasks (db (snd (@host_task_update Scenario.ticking_runtime (Scenario.task_update "a")
                         Scenario.world)))) = [t] /\
    task_conversation_id t = "c1" /\ task_status t = "working" /\
    task_state_details t = Some (Mini.stringify (JStr "working")).
Proof.
  destruct (@reconciled_row_takes_the_event Scenario.ticking_runtime
              (Scenario.task_update "a") "t1" "c1" "working" Scenario.world)
    as (t & F & Hc & Hs & _ & Hd & _).
  - apply scenario_task_event.
  - reflexivity.
  - reflexivity.
  - constructor.
  - exists t. repeat split; auto.
Defined.

(** Witness of X6. *)
Lemma unknown_conversation_is_refused_witness :
  exists r w',
    @host_task_update Scenario.ticking_runtime Scenario.stray_update Scenario.world
    = (Normal r, w') /\
    http_status r = 500%Z /\
    db w' = db Scenario.world /\ wire w' = wire Scenario.world /\
    clients w' = clients Scenario.world.
Proof.
  apply (@unknown_conversation_is_refused Scenario.ticking_runtime
           Scenario.stray_update "t1" "c9" "working" Scenario.world).
  - unfold task_event. cbn. repeat split; discriminate.
  - reflexivity.
Defined.

(** Witness of X7: the host gives the name [Trip]. *)
Lemma conversation_create_stores_and_announces_witness :
  exists r w' row,
    @conversation_create Scenario.ticking_runtime Scenario.naming_host Scenario.world
    = (Normal r, w') /\
    http_status r = 201%Z /\
    conversations (db w') = conversations (db Scenario.world) ++ [row] /\
    conv_id row = Scenario.first_id /\ conv_name row = "Trip".
Proof.
  destruct (@conversation_create_stores_and_announces Scenario.ticking_runtime
              Scenario.naming_host (JObj [("name", JStr "Trip")]) "Trip" Scenario.world)
    as (r & w' & row & H & Hs & _ & _ & Hc & Hi & Hn & _);
    try reflexivity; try discriminate.
  exists r, w', row. auto.
Defined.

(** Witness of X8. *)
Lemma conversation_create_fails_with_the_host_witness :
  exists r,
    @conversation_create Scenario.ticking_runtime Scenario.failing_host Scenario.world
    = (Normal r, Scenario.world) /\
    http_status r = 500%Z /\
    prop (http_body r) "message" = Some (JStr "Failed to create conversation with host").
Proof.
  apply (@conversation_create_fails_with_the_host Scenario.ticking_runtime
           Scenario.failing_host
           (JObj [("error", JBool true);
                  ("status", JNum 500);
                  ("message", JStr "Failed to create conversation: Internal Server Error");
                  ("details", JStr "boom")])
           Scenario.world); reflexivity.
Defined.


(** Witness of X11. *)
Lemma accepted_message_is_stored_and_announced_witness :
  exists r w' row,
    @message_send Scenario.ticking_runtime Scenario.accepting_host Scenario.user_message
      Scenario.world = (Normal r, w') /\
    http_status r = 201%Z /\
    messages (db w') = messages (db Scenario.world) ++ [row] /\
    msg_conversation_id row = "c1" /\ msg_role row = "user" /\
    msg_content row = Mini.stringify (Scenario.text_part "hi").
Proof.
  destruct (@accepted_message_is_stored_and_announced Scenario.ticking_runtime
              Scenario.accepting_host Scenario.user_message "c1" "user"
              [JObj [("type", JStr "text"); ("text", JStr "hi")]] None (JObj [])
              Scenario.world)
    as (r & w' & row & payload & H & Hs & _ & Hm & _ & Hc & _ & Hr & Hcontent & _);
    try reflexivity; try discriminate.
  - left. reflexivity.
  - exists r, w', row. repeat split; first [assumption | exact Hcontent].
Defined.

(** Witness of X12: the empty request. *)
Lemma invalid_message_is_rejected_witness :
  exists r,
    @message_send Scenario.ticking_runtime Scenario.accepting_host (JObj []) Scenario.world
    = (Normal r, Scenario.world) /\ http_status r = 400%Z.
Proof.
  apply (@invalid_message_is_rejected Scenario.ticking_runtime).
  left. reflexivity.
Defined.

(** Witness of X13. *)
Lemma sent_message_is_listed_witness :
  let w' := snd (@message_send Scenario.ticking_runtime Scenario.accepting_host
                   Scenario.user_message Scenario.world) in
  exists items item,
    @message_list Scenario.ticking_runtime (JObj [("conversation_id", JStr "c1")]) w'
    = (Normal {| http_status := 200; http_body := JArr items |}, w') /\
    In item items /\
    prop item "id" = Some (JStr Scenario.first_id) /\
    prop item "role" = Some (JStr "user") /\
    prop item "content" = Some (Scenario.text_part "hi").
Proof.
  apply (@sent_message_is_listed Scenario.ticking_runtime
           Scenario.accepting_host Scenario.user_message
           (JObj [("conversation_id", JStr "c1")]) "c1" "user"
           [JObj [("type", JStr "text"); ("text", JStr "hi")]] None (JObj [])
           Scenario.world);
    try reflexivity; try discriminate.
  left. reflexivity.
Defined.

(** Witness of X15: all tasks of the store whose payloads do not
    decode. *)
Lemma task_list_lists_snapshots_witness :
  exists rows,
    @task_list Scenario.ticking_runtime (JObj []) Scenario.corrupt_world
    = (Normal {| http_status := 200;
                 http_body :=
                   JArr (map (fun t => @snapshot Scenario.ticking_runtime t
                                         (artifact_rows (task_id t) Scenario.corrupt_world))
                             rows) |},
       Scenario.corrupt_world) /\
    Permutation rows (tasks (db Scenario.corrupt_world)).
Proof.
  destruct (@task_list_lists_snapshots Scenario.ticking_runtime (JObj []) None
              Scenario.corrupt_world)
    as (rows & H & Hp & _).
  - reflexivity.
  - exists rows. auto.
Defined.

(** ** The registry and the file store on the scenario *)

(** Witness of X17: the host names the agent and gives no
    description. *)
Lemma agent_register_stores_and_announces_witness :
  exists r s' row,
    @agent_register Scenario.ticking_runtime Mini.platform Scenario.describing_host
      Scenario.agent_request Scenario.server = (Normal r, s') /\
    http_status r = 201%Z /\
    agents (fst s') = [row] /\
    agent_url row = "http://agent.test" /\ agent_name row = Some "Helper" /\
    agent_description row = Some "No description provided." /\
    agent_icon row = Some "robot".
Proof.
  destruct (@agent_register_stores_and_announces Scenario.ticking_runtime Mini.platform
              Scenario.describing_host Scenario.agent_request "http://agent.test"
              Scenario.agent_card "Helper" "No description provided." (Some "robot")
              Scenario.server)
    as (r & s' & row & H & Hs & Ha & _ & Hu & Hn & Hd & Hi & _);
    try reflexivity; try discriminate.
  - exists "robot". split; reflexivity.
  - exists r, s', row. repeat split; assumption.
Defined.

(** A host that accepts and gives no icon: the statement is one value
    short, the answer is 500, no agent is stored and nothing is sent. *)
Example agent_without_icon_is_refused :
  let '(r, s') := @agent_register Scenario.ticking_runtime Mini.platform
                    Scenario.accepting_host Scenario.agent_request Scenario.server in
  answered r = Some 500%Z /\ agents (fst s') = [] /\ wire (snd s') = [].
Proof. vm_compute. repeat split. Qed.

(** Witness of X18: the same request a second time. *)
Lemma registered_url_is_refused_witness :
  let s1 := snd (@agent_register Scenario.ticking_runtime Mini.platform
                   Scenario.describing_host Scenario.agent_request Scenario.server) in
  exists r s',
    @agent_register Scenario.ticking_runtime Mini.platform Scenario.describing_host
      Scenario.agent_request s1 = (Normal r, s') /\
    http_status r = 500%Z /\ fst s' = fst s1 /\ wire (snd s') = wire (snd s1).
Proof.
  intros s1.
  destruct (@registered_url_is_refused Scenario.ticking_runtime Mini.platform
              Scenario.describing_host Scenario.agent_request "http://agent.test"
              Scenario.agent_card "Helper" "No description provided." (Some "robot") s1)
    as (r & s' & H & Hs & _ & Hf & _ & Hw);
    try reflexivity; try discriminate.
  - exists "robot". split; reflexivity.
  - exists r, s'. repeat split; assumption.
Defined.

(** Witness of X20: the same request twice. *)
Lemma agent_urls_stay_unique_witness :
  NoDup (@agent_urls
           (@register_all Scenario.ticking_runtime Mini.platform
              [(Scenario.describing_host, Scenario.agent_request);
               (Scenario.describing_host, Scenario.agent_request)]
              Scenario.server)).
Proof.
  apply (@agent_urls_stay_unique Scenario.ticking_runtime Mini.platform). constructor.
Defined.

(** Witness of X21. *)
Lemma registered_agent_is_listed_witness :
  let s' := snd (@agent_register Scenario.ticking_runtime Mini.platform
                   Scenario.describing_host Scenario.agent_request Scenario.server) in
  exists items item,
    @agent_list Scenario.ticking_runtime s'
    = (Normal {| http_status := 200; http_body := JArr items |}, s') /\
    In item items /\
    prop item "id" = Some (JStr Scenario.first_id) /\
    prop item "url" = Some (JStr "http://agent.test") /\
    prop item "name" = Some (JStr "Helper") /\
    prop item "description" = Some (JStr "No description provided.") /\
    prop item "icon" = Some (JStr "robot").
Proof.
  apply (@registered_agent_is_listed Scenario.ticking_runtime Mini.platform
           Scenario.describing_host Scenario.agent_request "http://agent.test"
           Scenario.agent_card "Helper" "No description provided." (Some "robot")
           Scenario.server);
    try reflexivity; try discriminate.
  exists "robot". split; reflexivity.
Defined.

(** Witness of X23: the file that spells [\x41], under the identifier
    [f2], is served as the one byte [41]. *)
Lemma received_file_is_served_witness :
  exists r s',
    @host_file_received Scenario.ticking_runtime Mini.platform Scenario.escape_request
      Scenario.server = (Normal (Some r), s') /\
    http_status r = 200%Z /\
    prop (http_body r) "file_id" = Some (JStr "f2") /\
    @message_file Scenario.ticking_runtime Mini.platform "f2" s'
    = (Normal (Sent "text/plain" [Byte.x41]), s').
Proof.
  destruct (@received_file_is_served Scenario.ticking_runtime Mini.platform
              Scenario.escape_request "escape.txt" "text/plain" [Byte.x41] "f2"
              Scenario.server)
    as (r & s' & H & Hs & Hid & _ & _ & _ & Hget).
  - exists (JStr "escape.txt"), (JStr "text/plain"), (JStr "XHg0MQ=="),
      [Byte.x5c; Byte.x78; Byte.x34; Byte.x31].
    repeat split.
  - left. split; [reflexivity | discriminate].
  - reflexivity.
  - reflexivity.
  - exists r, s'. repeat split; assumption.
Defined.

(** A file that holds a byte above 127 gets no answer: the Buffer is
    not bound, and the store is not reached. *)
Example binary_file_gets_no_answer :
  let '(r, s') := @host_file_received Scenario.ticking_runtime Mini.platform
                    Scenario.binary_request Scenario.server in
  r = Normal None /\ files (fst s') = [].
Proof. vm_compute. split; reflexivity. Qed.

(** The file [hi] is served as it was sent. *)
Example plain_file_is_served :
  let s' := snd (@host_file_received Scenario.ticking_runtime Mini.platform
                   Scenario.file_request Scenario.server) in
  fst (@message_file Scenario.ticking_runtime Mini.platform "f1" s')
  = Normal (Sent "text/plain" [Byte.x68; Byte.x69]).
Proof. vm_compute. reflexivity. Qed.

(** Witness of X24. *)
Lemma unknown_file_is_not_found_witness :
  exists r,
    @message_file Scenario.ticking_runtime Mini.platform "f9" Scenario.server
    = (Normal (Json r), Scenario.server) /\
    http_status r = 404%Z /\
    prop (http_body r) "message" = Some (JStr "File not found.").
Proof.
  apply (@unknown_file_is_not_found Scenario.ticking_runtime Mini.platform);
    [discriminate | reflexivity].
Defined.

(** Witness of X25: the same file a second time. *)
Lemma file_id_in_use_is_refused_witness :
  let s1 := snd (@host_file_received Scenario.ticking_runtime Mini.platform
                   Scenario.file_request Scenario.server) in
  exists r s',
    @host_file_received Scenario.ticking_runtime Mini.platform Scenario.file_request s1
    = (Normal (Some r), s') /\
    http_status r = 500%Z /\ fst s' = fst s1.
Proof.
  intros s1.
  destruct (@file_id_in_use_is_refused Scenario.ticking_runtime Mini.platform
              Scenario.file_request "hi.txt" "text/plain" [Byte.x68; Byte.x69] "f1" s1)
    as (r & s' & H & Hs & Hf & _).
  - exists (JStr "hi.txt"), (JStr "text/plain"), (JStr "aGk="), [Byte.x68; Byte.x69].
    repeat split.
  - reflexivity.
  - discriminate.
  - reflexivity.
  - exists r, s'. repeat split; assumption.
Defined.

(** ** The viewer on the scenario *)

(** Witness of X27. *)
Lemma close_of_a_replaced_socket_clears_the_one_in_use_witness :
  let s1 := connect (disconnect Scenario.connected_service) in
  let s2 := fst (@deliver Scenario.ticking_runtime unit (Opens 1) s1 tt) in
  let s3 := fst (@deliver Scenario.ticking_runtime unit (Closes 0) s2 tt) in
  socket s1 = Some 1%nat /\ getReadyState s2 = OPEN /\
  socket s3 = None /\ socket_readyState s3 1%nat = OPEN /\
  getReadyState s3 = CLOSED /\
  (forall data, @sendMessage Scenario.ticking_runtime unit data s3 = s3) /\
  built (connect s3) = 3%nat.
Proof.
  apply (@close_of_a_replaced_socket_clears_the_one_in_use Scenario.ticking_runtime unit
           Scenario.connected_service tt 0%nat); [reflexivity | cbn; lia | reflexivity].
Defined.

(** Witness of X28: the page shows the message already. *)
Lemma new_message_is_shown_once_witness :
  handleWebSocketMessage "c1" (new_message Scenario.shown_message)
  = Normal (SetMessages Scenario.shown_message) /\
  exists shown,
    setMessages_updater Scenario.shown_message [Scenario.shown_message] = Normal shown /\
    (shows [Scenario.shown_message] "m1" = true -> shown = [Scenario.shown_message]) /\
    shows shown "m1" = true.
Proof.
  destruct (new_message_is_shown_once "c1" Scenario.shown_message "m1"
              [Scenario.shown_message])
    as (H & shown & Hu & Hs & _ & Hshown & _).
  - reflexivity.
  - reflexivity.
  - constructor; [discriminate | constructor].
  - split; [exact H|]. exists shown. repeat split; assumption.
Defined.

(** Witness of X29: the task completes. *)
Lemma task_update_replaces_the_task_shown_witness :
  handleWebSocketMessage "c1" (task_updated Scenario.completed_task)
  = Normal (SetTasks Scenario.completed_task) /\
  exists shown,
    setTasks_updater Scenario.completed_task [Scenario.shown_message; Scenario.shown_task]
    = Normal shown /\
    In Scenario.completed_task shown.
Proof.
  destruct (task_update_replaces_the_task_shown "c1" Scenario.completed_task "t1"
              [Scenario.shown_message; Scenario.shown_task])
    as (H & shown & Hu & _ & _ & Hin & _).
  - reflexivity.
  - reflexivity.
  - constructor; [discriminate | constructor; [discriminate | constructor]].
  - split; [exact H|]. exists shown. split; assumption.
Defined.

